(** * RediDNS: the resolution and cache-consistency engine

    A shallow embedding of the Go sources of RediDNS (packages [models],
    [config], [db], [server] and [api]) and the properties of its
    authoritative read path, its cache invalidation and its SOA serial
    bookkeeping.

    Conventions of the embedding.
    - A Go [int]/[int64] is a [Z]; conversions to [uint32]/[uint16] are
      written out as reductions modulo a power of two.
    - A Go [(value, error)] pair is a [result]; the value returned next to
      a non-nil error is never read by a caller in these sources.
    - [encoding/json], [net.ParseIP] and [dns.Fqdn] are library code: the
      first is an interface ([JSON]) the development is parametric in, the
      other two are kept as uninterpreted constructors.
    - Redis is a finite map from keys to entries together with the list of
      published messages; MariaDB is the two tables of the schema.  Both
      carry a predicate that says which commands fail (connection loss).
      Expiry of an entry over real time is not modelled: the expiration
      handed to [SET] is recorded in the entry. *)

From Stdlib Require Import ZArith Lia List String Ascii Bool.
From stdpp Require Import base gmap strings list.

Local Open Scope Z_scope.
Local Open Scope string_scope.

(** ** Go runtime: errors, integer conversions, durations, [strings] *)

Definition error := string.

Inductive result (A : Type) : Type :=
| Ok (a : A)
| Err (e : error).
Arguments Ok {A} a.
Arguments Err {A} e.

(** [uint32(x)] and [uint16(x)] of a signed integer. *)
Definition uint32 (x : Z) : Z := x mod 2 ^ 32.
Definition uint16 (x : Z) : Z := x mod 2 ^ 16.

(** Arithmetic on [int64] wraps. *)
Definition wrap_int64 (x : Z) : Z := (x + 2 ^ 63) mod 2 ^ 64 - 2 ^ 63.

(** [time.Duration] counts nanoseconds in an [int64]. *)
Definition Duration := Z.
Definition Second : Duration := 1000000000.
Definition Duration_mul (a b : Duration) : Duration := wrap_int64 (a * b).

Module strings.

Definition dot : ascii := "."%char.

(** [strings.Split(s, ".")]: never empty, [Split("") = [""]]. *)
Fixpoint Split (s : string) : list string :=
  match s with
  | EmptyString => [EmptyString]
  | String c s' =>
      if Ascii.eqb c dot then EmptyString :: Split s'
      else match Split s' with
           | h :: t => String c h :: t
           | [] => [String c EmptyString]
           end
  end.

(** [strings.Join(parts, ".")]. *)
Fixpoint Join (parts : list string) : string :=
  match parts with
  | [] => EmptyString
  | [p] => p
  | p :: rest => p +:+ String dot (Join rest)
  end.

(** [strings.TrimSuffix(s, ".")]: drops one trailing dot. *)
Fixpoint TrimSuffix (s : string) : string :=
  match s with
  | EmptyString => EmptyString
  | String c EmptyString => if Ascii.eqb c dot then EmptyString else s
  | String c s' => String c (TrimSuffix s')
  end.

(** [strings.Contains(s, ".")]. *)
Fixpoint Contains (s : string) : bool :=
  match s with
  | EmptyString => false
  | String c s' => Ascii.eqb c dot || Contains s'
  end.

End strings.

(** ** Package [models] *)

Module models.

(** [type RecordType string] *)
Definition RecordType := string.

Definition TypeA : RecordType := "A".
Definition TypeAAAA : RecordType := "AAAA".
Definition TypeCNAME : RecordType := "CNAME".
Definition TypeMX : RecordType := "MX".
Definition TypeNS : RecordType := "NS".
Definition TypePTR : RecordType := "PTR".
Definition TypeSOA : RecordType := "SOA".
Definition TypeSRV : RecordType := "SRV".
Definition TypeTXT : RecordType := "TXT".
Definition TypeCAA : RecordType := "CAA".

(** [models.Record].  The two timestamps are left out: no function of
    the embedding reads or writes them. *)
Record DnsRecord := mkRecord {
  ID : Z;
  Zone : string;
  Name : string;
  Type_ : RecordType;
  Content : string;
  TTL : Z;
  Priority : Z
}.

Record SOARecord := mkSOA {
  Mname : string;
  Rname : string;
  Serial : Z;
  Refresh : Z;
  Retry : Z;
  Expire : Z;
  Minimum : Z
}.

(** The fields [addAnswerFromRecord] reads of [models.SRVRecord] and
    [models.CAARecord]. *)
Record SRVRecord := mkSRV {
  srv_Priority : Z;
  srv_Weight : Z;
  srv_Port : Z;
  srv_Target : string
}.

Record CAARecord := mkCAA {
  caa_Flag : Z;
  caa_Tag : string;
  caa_Value : string
}.

Record ZoneRow := mkZone {
  zone_ID : Z;
  zone_Name : string
}.

Definition set_Content (r : DnsRecord) (c : string) : DnsRecord :=
  mkRecord (ID r) (Zone r) (Name r) (Type_ r) c (TTL r) (Priority r).
Definition set_ID (r : DnsRecord) (i : Z) : DnsRecord :=
  mkRecord i (Zone r) (Name r) (Type_ r) (Content r) (TTL r) (Priority r).
Definition set_Zone (r : DnsRecord) (z : string) : DnsRecord :=
  mkRecord (ID r) z (Name r) (Type_ r) (Content r) (TTL r) (Priority r).
Definition set_Name (r : DnsRecord) (n : string) : DnsRecord :=
  mkRecord (ID r) (Zone r) n (Type_ r) (Content r) (TTL r) (Priority r).
Definition set_TTL (r : DnsRecord) (t : Z) : DnsRecord :=
  mkRecord (ID r) (Zone r) (Name r) (Type_ r) (Content r) t (Priority r).
Definition set_Priority (r : DnsRecord) (p : Z) : DnsRecord :=
  mkRecord (ID r) (Zone r) (Name r) (Type_ r) (Content r) (TTL r) p.
Definition set_Serial (s : SOARecord) (n : Z) : SOARecord :=
  mkSOA (Mname s) (Rname s) n (Refresh s) (Retry s) (Expire s) (Minimum s).

End models.
Import models.

(** ** [encoding/json] on the types of [models]

    [json.Marshal] does not fail on these structs; [json.Unmarshal]
    fails on text that is not the JSON of the target type. *)

Class JSON := {
  MarshalRecord : DnsRecord -> string;
  UnmarshalRecord : string -> option DnsRecord;
  MarshalRecords : list DnsRecord -> string;
  UnmarshalRecords : string -> option (list DnsRecord);
  MarshalSOA : SOARecord -> string;
  UnmarshalSOA : string -> option SOARecord;
  UnmarshalSRV : string -> option SRVRecord;
  UnmarshalCAA : string -> option CAARecord
}.

(** Decoding what was encoded gives the value back. *)
Definition soa_roundtrip (J : JSON) : Prop :=
  forall s : SOARecord, UnmarshalSOA (MarshalSOA s) = Some s.

(** ** Package [config] *)

Module config.

Record SOAConfig := mkSOAConfig {
  PrimaryNameserver : string;
  MailAddress : string;
  Refresh : Z;
  Retry : Z;
  Expire : Z;
  Minimum : Z
}.

(** The fields of [config.Config] the engine reads: [DNS.SOA] and
    [Redis.Cache.TTL] (seconds, 0 = keep until purged). *)
Record Config := mkConfig {
  DNS_SOA : SOAConfig;
  Redis_Cache_TTL : Z
}.

End config.

(** ** Package [db]: the cache client and the store client *)

Module db.

(** The two cache key shapes, as every call site formats them with
    [fmt.Sprintf], and the invalidation channel. *)
Definition multiCacheKey (zone name : string) (recordType : RecordType) : string :=
  "dns:records:" +:+ zone +:+ ":" +:+ name +:+ ":" +:+ recordType.
Definition singleCacheKey (zone name : string) (recordType : RecordType) : string :=
  "dns:record:" +:+ zone +:+ ":" +:+ name +:+ ":" +:+ recordType.
Definition updateChannel : string := "dns:record:update".

(** *** Redis *)

Inductive Cmd :=
| GET (key : string)
| SET (key : string)
| DEL (key : string)
| PUBLISH (channel : string).

(** [redis.Nil], the reply for an absent key, and a connection error. *)
Definition redis_Nil : error := "redis: nil".
Definition redis_down : error := "redis: connection refused".

(** A stored value and the expiration its [SET] carried (0 = none). *)
Record Entry := mkEntry {
  data : string;
  expiration : Duration
}.

(** [db.RedisClient]: the server behind [client] (keys, messages
    published so far, commands that currently fail) and [cfg]. *)
Record RedisClient := mkRedis {
  kv : gmap string Entry;
  published : list (string * string);
  unavailable : Cmd -> bool;
  cfg : config.Config
}.

Definition with_kv (r : RedisClient) (m : gmap string Entry) : RedisClient :=
  mkRedis m (published r) (unavailable r) (cfg r).

Module Redis.
Section WithJSON.
Context {J : JSON}.

(** [r.client.Get(ctx, key).Bytes()] *)
Definition client_Get (r : RedisClient) (key : string) : result string :=
if unavailable r (GET key) then Err redis_down
else match kv r !! key with
     | Some e => Ok (data e)
     | None => Err redis_Nil
     end.

(** [r.client.Set(ctx, key, data, exp).Err()] *)
Definition client_Set (r : RedisClient) (key data : string) (exp : Duration)
: RedisClient * option error :=
if unavailable r (SET key) then (r, Some redis_down)
else (with_kv r (<[key := mkEntry data exp]> (kv r)), None).

(** [Del]: one key at every call site. *)
Definition Del (r : RedisClient) (key : string) : RedisClient * option error :=
if unavailable r (DEL key) then (r, Some redis_down)
else (with_kv r (delete key (kv r)), None).

Definition GetRecordsByNameAndType (r : RedisClient) (zone name : string)
  (recordType : RecordType) : result (list DnsRecord) :=
let key := multiCacheKey zone name recordType in
match client_Get r key with
| Err _ => Ok []    (* return nil, nil *)
| Ok data =>
    match UnmarshalRecords data with
    | Some records => Ok records
    | None => Err "json: cannot unmarshal"
    end
end.

Definition SetRecords (r : RedisClient) (records : list DnsRecord) (ttl : Duration)
: RedisClient * option error :=
match records with
| [] => (r, None)
| r0 :: _ =>
    let key := multiCacheKey (Zone r0) (Name r0) (Type_ r0) in
    let data := MarshalRecords records in
    if Z.eqb (config.Redis_Cache_TTL (cfg r)) 0 then client_Set r key data 0
    else
      let cacheTTL := Duration_mul (config.Redis_Cache_TTL (cfg r)) Second in
      client_Set r key data cacheTTL
end.

Definition GetRecord (r : RedisClient) (zone name : string)
  (recordType : RecordType) : result (option DnsRecord) :=
let key := singleCacheKey zone name recordType in
match client_Get r key with
| Err e => if String.eqb e redis_Nil then Ok None else Err e
| Ok data =>
    match UnmarshalRecord data with
    | Some record => Ok (Some record)
    | None => Err "json: cannot unmarshal"
    end
end.

Definition SetRecord (r : RedisClient) (record : DnsRecord) (ttl : Duration)
: RedisClient * option error :=
let key := singleCacheKey (Zone record) (Name record) (Type_ record) in
let data := MarshalRecord record in
if Z.eqb (config.Redis_Cache_TTL (cfg r)) 0 then client_Set r key data 0
else
  let cacheTTL := Duration_mul (config.Redis_Cache_TTL (cfg r)) Second in
  client_Set r key data cacheTTL.

Definition PublishRecordUpdate (r : RedisClient) (record : DnsRecord)
: RedisClient * option error :=
let data := MarshalRecord record in
if unavailable r (PUBLISH updateChannel) then (r, Some redis_down)
else (mkRedis (kv r) (published r ++ [(updateChannel, data)])
              (unavailable r) (cfg r), None).

End WithJSON.
End Redis.

(** *** MariaDB *)

Inductive Stmt :=
| SelectZone
| SelectRecord
| SelectRecords
| SelectRecordByID
| InsertRecord
| UpdateRecordStmt
| DeleteRecordStmt.

Definition sql_down : error := "sql: connection refused".
Definition sql_fk : error := "sql: foreign key constraint fails".

(** The tables [zones] and [records] in primary-key order, the next
    [AUTO_INCREMENT] value of [records.id], and the statements that
    currently fail.  Names are compared as byte strings. *)
Record MariaDBClient := mkDB {
  zones : list ZoneRow;
  records : list DnsRecord;
  next_id : Z;
  failing : Stmt -> bool
}.

Definition with_records (d : MariaDBClient) (rs : list DnsRecord) (n : Z) : MariaDBClient :=
  mkDB (zones d) rs n (failing d).

(** [WHERE zone = ? AND name = ? AND type = ?] *)
Definition matches (zone name : string) (recordType : RecordType) (r : DnsRecord) : bool :=
  String.eqb (Zone r) zone && String.eqb (Name r) name && String.eqb (Type_ r) recordType.

Module MariaDB.

Definition GetZone (d : MariaDBClient) (name : string) : result (option ZoneRow) :=
  if failing d SelectZone then Err sql_down
  else Ok (List.find (fun z => String.eqb (zone_Name z) name) (zones d)).

Definition GetRecord (d : MariaDBClient) (zone name : string)
    (recordType : RecordType) : result (option DnsRecord) :=
  if failing d SelectRecord then Err sql_down
  else Ok (List.find (matches zone name recordType) (records d)).

Definition GetRecordsByNameAndType (d : MariaDBClient) (zone name : string)
    (recordType : RecordType) : result (list DnsRecord) :=
  if failing d SelectRecords then Err sql_down
  else Ok (List.filter (matches zone name recordType) (records d)).

Definition GetRecordByID (d : MariaDBClient) (id : Z) : result (option DnsRecord) :=
  if failing d SelectRecordByID then Err sql_down
  else Ok (List.find (fun r => Z.eqb (ID r) id) (records d)).

(** [INSERT]; the foreign key on [zone] is checked; the new id is
    written back into the record. *)
Definition CreateRecord (d : MariaDBClient) (record : DnsRecord)
  : result (MariaDBClient * DnsRecord) :=
  if failing d InsertRecord then Err sql_down
  else if existsb (fun z => String.eqb (zone_Name z) (Zone record)) (zones d) then
    let record' := set_ID record (next_id d) in
    Ok (with_records d (records d ++ [record']) (next_id d + 1), record')
  else Err sql_fk.

(** [UPDATE records SET content, ttl, priority WHERE id = ?] *)
Definition UpdateRecord (d : MariaDBClient) (record : DnsRecord) : result MariaDBClient :=
  if failing d UpdateRecordStmt then Err sql_down
  else Ok (with_records d
             (List.map (fun r => if Z.eqb (ID r) (ID record)
                                 then set_Priority (set_TTL (set_Content r (Content record))
                                                      (TTL record)) (Priority record)
                                 else r) (records d))
             (next_id d)).

Definition DeleteRecord (d : MariaDBClient) (id : Z) : result MariaDBClient :=
  if failing d DeleteRecordStmt then Err sql_down
  else Ok (with_records d (List.filter (fun r => negb (Z.eqb (ID r) id)) (records d)) (next_id d)).

End MariaDB.

(** What the query path asks of the store: the three read methods of
    [*db.MariaDBClient], each answering on its own (another request may
    write between two calls). *)
Record Store := mkStore {
  GetZone : string -> result (option ZoneRow);
  GetRecord : string -> string -> RecordType -> result (option DnsRecord);
  GetRecordsByNameAndType : string -> string -> RecordType -> result (list DnsRecord)
}.

Definition store_of (d : MariaDBClient) : Store :=
  mkStore (MariaDB.GetZone d) (MariaDB.GetRecord d) (MariaDB.GetRecordsByNameAndType d).

End db.

(** ** [github.com/miekg/dns]: the part of the message model the server uses *)

Module dns.

Definition TypeA : Z := 1.
Definition TypeNS : Z := 2.
Definition TypeCNAME : Z := 5.
Definition TypeSOA : Z := 6.
Definition TypePTR : Z := 12.
Definition TypeMX : Z := 15.
Definition TypeTXT : Z := 16.
Definition TypeAAAA : Z := 28.
Definition TypeSRV : Z := 33.
Definition TypeCAA : Z := 257.
Definition ClassINET : Z := 1.

Definition RcodeSuccess : Z := 0.
Definition RcodeServerFailure : Z := 2.
Definition RcodeNameError : Z := 3.

(** [dns.TypeToString], the library's table from type codes to names
    (a missing code reads as the empty string). *)
Class Tables := {
  TypeToString : Z -> string
}.

(** [net.ParseIP] and [dns.Fqdn] are not interpreted. *)
Inductive IP := ParseIP (s : string).
Inductive DomainName := Fqdn (s : string).

Record RR_Header := mkHdr {
  hdr_Name : string;
  Rrtype : Z;
  Class_ : Z;
  Ttl : Z
}.

Inductive RR :=
| A (Hdr : RR_Header) (a : IP)
| AAAA (Hdr : RR_Header) (aaaa : IP)
| CNAME (Hdr : RR_Header) (Target : DomainName)
| MX (Hdr : RR_Header) (Preference : Z) (Mx : DomainName)
| NS (Hdr : RR_Header) (Ns : DomainName)
| PTR (Hdr : RR_Header) (Ptr : DomainName)
| TXT (Hdr : RR_Header) (Txt : list string)
| SOA (Hdr : RR_Header) (Ns Mbox : DomainName) (Serial Refresh Retry Expire Minttl : Z)
| SRV (Hdr : RR_Header) (Priority Weight Port : Z) (Target : DomainName)
| CAA (Hdr : RR_Header) (Flag : Z) (Tag Value : string).

Record Question := mkQuestion {
  q_Name : string;
  Qtype : Z
}.

Record Msg := mkMsg {
  Questions : list Question;
  Answer : list RR;
  Rcode : Z;
  Authoritative : bool
}.

(** [m.SetReply(r)]: a fresh reply with no answer and [RcodeSuccess]. *)
Definition SetReply (r : Msg) : Msg :=
  mkMsg (firstn 1 (Questions r)) [] RcodeSuccess false.

Definition with_Answer (m : Msg) (a : list RR) : Msg :=
  mkMsg (Questions m) a (Rcode m) (Authoritative m).
Definition with_Rcode (m : Msg) (c : Z) : Msg :=
  mkMsg (Questions m) (Answer m) c (Authoritative m).
Definition with_Authoritative (m : Msg) (b : bool) : Msg :=
  mkMsg (Questions m) (Answer m) (Rcode m) b.

End dns.

(** ** Package [server] *)

Module server.

Record DNSStats := mkStats {
  Queries : Z;
  CacheHits : Z;
  CacheMisses : Z;
  NXDomain : Z;
  ServerFailure : Z
}.

(** What [h.logger] received at warning and error level (the debug
    lines are left out). *)
Inductive LogLine :=
| Warnf (msg : string) (err : error)
| Errorf (msg : string) (err : error).

(** [server.DNSHandler].  The cache client is shared and mutable; the
    store is only read on this path. *)
Record DNSHandler := mkHandler {
  redisClient : db.RedisClient;
  mariadbClient : db.Store;
  logger : list LogLine;
  stats : DNSStats
}.

Definition with_redis (h : DNSHandler) (r : db.RedisClient) : DNSHandler :=
  mkHandler r (mariadbClient h) (logger h) (stats h).
Definition with_logger (h : DNSHandler) (l : list LogLine) : DNSHandler :=
  mkHandler (redisClient h) (mariadbClient h) l (stats h).
Definition with_stats (h : DNSHandler) (s : DNSStats) : DNSHandler :=
  mkHandler (redisClient h) (mariadbClient h) (logger h) s.

Definition hit (s : DNSStats) : DNSStats :=
  mkStats (Queries s) (CacheHits s + 1) (CacheMisses s) (NXDomain s) (ServerFailure s).
Definition miss (s : DNSStats) : DNSStats :=
  mkStats (Queries s) (CacheHits s) (CacheMisses s + 1) (NXDomain s) (ServerFailure s).
Definition query (s : DNSStats) : DNSStats :=
  mkStats (Queries s + 1) (CacheHits s) (CacheMisses s) (NXDomain s) (ServerFailure s).
Definition nxdomain (s : DNSStats) : DNSStats :=
  mkStats (Queries s) (CacheHits s) (CacheMisses s) (NXDomain s + 1) (ServerFailure s).
Definition failure (s : DNSStats) : DNSStats :=
  mkStats (Queries s) (CacheHits s) (CacheMisses s) (NXDomain s) (ServerFailure s + 1).

(** [logger.Warnf] when [err != nil]. *)
Definition warn_if (l : list LogLine) (msg : string) (err : option error) : list LogLine :=
  match err with
  | Some e => l ++ [Warnf msg e]
  | None => l
  end.

Section WithLibraries.
Context {J : JSON} {T : dns.Tables}.

(** [findZone]: the loop over [i], with [parts[i:]] as the argument. *)
Fixpoint findZone_from (s : db.Store) (parts : list string) : result string :=
  match parts with
  | [] => Ok EmptyString
  | _ :: rest =>
      let potentialZone := strings.Join parts in
      match db.GetZone s potentialZone with
      | Err e => Err e
      | Ok (Some zone) => Ok (zone_Name zone)
      | Ok None => findZone_from s rest
      end
  end.

Definition findZone (h : DNSHandler) (name : string) : result string :=
  findZone_from (mariadbClient h) (strings.Split name).

Definition addAnswerFromRecord (m : dns.Msg) (record : DnsRecord) (q : dns.Question)
  : dns.Msg * option error :=
  let hdr t := dns.mkHdr (dns.q_Name q) t dns.ClassINET (uint32 (TTL record)) in
  let add rr := (dns.with_Answer m (dns.Answer m ++ [rr]), None) in
  let ty := Type_ record in
  if String.eqb ty models.TypeA then
    add (dns.A (hdr dns.TypeA) (dns.ParseIP (Content record)))
  else if String.eqb ty models.TypeAAAA then
    add (dns.AAAA (hdr dns.TypeAAAA) (dns.ParseIP (Content record)))
  else if String.eqb ty models.TypeCNAME then
    add (dns.CNAME (hdr dns.TypeCNAME) (dns.Fqdn (Content record)))
  else if String.eqb ty models.TypeMX then
    add (dns.MX (hdr dns.TypeMX) (uint16 (Priority record)) (dns.Fqdn (Content record)))
  else if String.eqb ty models.TypeNS then
    add (dns.NS (hdr dns.TypeNS) (dns.Fqdn (Content record)))
  else if String.eqb ty models.TypePTR then
    add (dns.PTR (hdr dns.TypePTR) (dns.Fqdn (Content record)))
  else if String.eqb ty models.TypeTXT then
    add (dns.TXT (hdr dns.TypeTXT) [Content record])
  else if String.eqb ty models.TypeSOA then
    match UnmarshalSOA (Content record) with
    | None => (m, Some "failed to parse SOA record")
    | Some soaData =>
        add (dns.SOA (hdr dns.TypeSOA) (dns.Fqdn (Mname soaData)) (dns.Fqdn (Rname soaData))
               (Serial soaData) (Refresh soaData) (Retry soaData) (Expire soaData)
               (Minimum soaData))
    end
  else if String.eqb ty models.TypeSRV then
    match UnmarshalSRV (Content record) with
    | None => (m, Some "failed to parse SRV record")
    | Some srv =>
        add (dns.SRV (hdr dns.TypeSRV) (srv_Priority srv) (srv_Weight srv) (srv_Port srv)
               (dns.Fqdn (srv_Target srv)))
    end
  else if String.eqb ty models.TypeCAA then
    match UnmarshalCAA (Content record) with
    | None => (m, Some "failed to parse CAA record")
    | Some caa =>
        add (dns.CAA (hdr dns.TypeCAA) (caa_Flag caa) (caa_Tag caa) (caa_Value caa))
    end
  else (m, Some ("unsupported record type: " +:+ ty)).

(** [for _, record := range records]: add each answer, warn on a
    failure and go on. *)
Fixpoint addAnswers (m : dns.Msg) (l : list LogLine) (records : list DnsRecord)
    (q : dns.Question) : dns.Msg * list LogLine :=
  match records with
  | [] => (m, l)
  | record :: rest =>
      let '(m', err) := addAnswerFromRecord m record q in
      addAnswers m' (warn_if l "Failed to add answer from record" err) rest q
  end.

(** [handleQuery] from the cache lookup on (the zone is known and not
    empty). *)
Definition handleQuery_in_zone (h : DNSHandler) (m : dns.Msg) (q : dns.Question)
    (zone name : string) : DNSHandler * dns.Msg * option error :=
  let recordType := dns.TypeToString (dns.Qtype q) in
  match db.Redis.GetRecordsByNameAndType (redisClient h) zone name recordType with
  | Ok ((_ :: _) as records) =>
      let h := with_stats h (hit (stats h)) in
      let '(m', l) := addAnswers m (logger h) records q in
      (with_logger h l, m', None)
  | _ =>
  match db.Redis.GetRecord (redisClient h) zone name recordType with
  | Ok (Some record) =>
      let h := with_stats h (hit (stats h)) in
      let '(m', err) := addAnswerFromRecord m record q in
      (h, m', err)
  | _ =>
  let h := with_stats h (miss (stats h)) in
  match db.GetRecordsByNameAndType (mariadbClient h) zone name recordType with
  | Err e => (h, m, Some e)
  | Ok ((r0 :: _) as records) =>
      let ttl := Duration_mul (TTL r0) Second in
      let '(rc, err) := db.Redis.SetRecords (redisClient h) records ttl in
      let h := with_logger (with_redis h rc)
                 (warn_if (logger h) "Failed to cache records" err) in
      let '(m', l) := addAnswers m (logger h) records q in
      (with_logger h l, m', None)
  | Ok [] =>
  match db.GetRecord (mariadbClient h) zone name recordType with
  | Err e => (h, m, Some e)
  | Ok (Some record) =>
      let ttl := Duration_mul (TTL record) Second in
      let '(rc, err) := db.Redis.SetRecord (redisClient h) record ttl in
      let h := with_logger (with_redis h rc)
                 (warn_if (logger h) "Failed to cache record" err) in
      let '(m', err') := addAnswerFromRecord m record q in
      (h, m', err')
  | Ok None => (h, m, None)
  end end end end.

Definition handleQuery (h : DNSHandler) (m : dns.Msg) (q : dns.Question)
  : DNSHandler * dns.Msg * option error :=
  let name := strings.TrimSuffix (dns.q_Name q) in
  match findZone h name with
  | Err e => (h, m, Some e)
  | Ok zone =>
      if String.eqb zone EmptyString then (h, m, None)
      else handleQuery_in_zone h m q zone name
  end.

(** [for _, q := range r.Question] of [ServeDNS]. *)
Fixpoint serveQuestions (h : DNSHandler) (m : dns.Msg) (qs : list dns.Question)
  : DNSHandler * dns.Msg :=
  match qs with
  | [] => (h, m)
  | q :: rest =>
      match handleQuery h m q with
      | (h', m', Some e) =>
          serveQuestions
            (with_stats (with_logger h' (logger h' ++ [Errorf "Error handling query" e]))
               (failure (stats h')))
            (dns.with_Rcode m' dns.RcodeServerFailure) rest
      | (h', m', None) => serveQuestions h' m' rest
      end
  end.

(** [ServeDNS]: the handler afterwards and the message handed to
    [w.WriteMsg]. *)
Definition ServeDNS (h : DNSHandler) (r : dns.Msg) : DNSHandler * dns.Msg :=
  let h := with_stats h (query (stats h)) in
  let m := dns.with_Authoritative (dns.SetReply r) true in
  let '(h, m) := serveQuestions h m (dns.Questions r) in
  if (length (dns.Answer m) =? 0)%nat
  then (with_stats h (nxdomain (stats h)), dns.with_Rcode m dns.RcodeNameError)
  else (h, m).

(** What the [select] of [listenForRecordUpdates] receives, in the
    order it takes them. *)
Inductive Event :=
| Done
| Message (Payload : string).

(** [server.DNSServer], as far as the subscriber loop uses it. *)
Record DNSServer := mkServer {
  s_redisClient : db.RedisClient;
  s_logger : list LogLine
}.

(** One received message: the body of [case msg := <-ch]. *)
Definition onMessage (s : DNSServer) (payload : string) : DNSServer :=
  match UnmarshalRecord payload with
  | None => mkServer (s_redisClient s)
              (s_logger s ++ [Errorf "Failed to parse record update" "json: cannot unmarshal"])
  | Some record =>
      let singleCacheKey := db.singleCacheKey (Zone record) (Name record) (Type_ record) in
      let '(rc, err) := db.Redis.Del (s_redisClient s) singleCacheKey in
      let l := warn_if (s_logger s) "Failed to invalidate single record cache" err in
      let multiCacheKey := db.multiCacheKey (Zone record) (Name record) (Type_ record) in
      let '(rc, err) := db.Redis.Del rc multiCacheKey in
      let l := warn_if l "Failed to invalidate multiple records cache" err in
      mkServer rc l
  end.

(** [listenForRecordUpdates]: the server after the events and whether
    the loop has returned. *)
Fixpoint listenForRecordUpdates (s : DNSServer) (events : list Event) : DNSServer * bool :=
  match events with
  | [] => (s, false)
  | Done :: _ => (s, true)
  | Message payload :: rest => listenForRecordUpdates (onMessage s payload) rest
  end.

End WithLibraries.

End server.

(** ** Package [api]: the record mutation handlers *)

Module api.

Definition StatusOK : Z := 200.
Definition StatusCreated : Z := 201.
Definition StatusBadRequest : Z := 400.
Definition StatusNotFound : Z := 404.
Definition StatusInternalServerError : Z := 500.

(** [api.Response]: [Success] with [Data], or [Error]. *)
Inductive Body :=
| DataRecord (record : DnsRecord)
| DataMessage (message : string)
| ErrorMessage (message : string).

Definition Response : Type := Z * Body.

Definition responseError (status : Z) (message : string) : Response :=
  (status, ErrorMessage message).

Record UpdateData := mkUpdateData {
  u_Name : string;
  u_Content : string;
  u_TTL : Z;
  u_Priority : Z
}.

Record APIServer := mkAPI {
  redisClient : db.RedisClient;
  mariadbClient : db.MariaDBClient;
  logger : list server.LogLine;
  config : config.Config
}.

Definition with_redis (a : APIServer) (r : db.RedisClient) : APIServer :=
  mkAPI r (mariadbClient a) (logger a) (config a).
Definition with_mariadb (a : APIServer) (d : db.MariaDBClient) : APIServer :=
  mkAPI (redisClient a) d (logger a) (config a).
Definition with_logger (a : APIServer) (l : list server.LogLine) : APIServer :=
  mkAPI (redisClient a) (mariadbClient a) l (config a).

Definition errorf (a : APIServer) (msg : string) (e : error) : APIServer :=
  with_logger a (logger a ++ [server.Errorf msg e]).
Definition warnf_if (a : APIServer) (msg : string) (e : option error) : APIServer :=
  with_logger a (server.warn_if (logger a) msg e).

Definition validTTLs : list Z :=
  [5; 10; 30; 60; 90; 120; 180; 300; 600; 900; 1800; 3600; 7200; 18000; 43200;
   86400; 172800; 432000; 1296000; 2592000].

(** [for _, ttl := range validTTLs { if x == ttl { isValid = true; break } }] *)
Fixpoint isValid (x : Z) (ttls : list Z) : bool :=
  match ttls with
  | [] => false
  | ttl :: rest => if Z.eqb x ttl then true else isValid x rest
  end.

Definition invalidTTL : string :=
  "Invalid TTL value. TTL must be one of: 5, 10, 30, 60, 90, 120, 180, 300, 600, 900, 1800, 3600, 7200, 18000, 43200, 86400, 172800, 432000, 1296000, 2592000 seconds".

Section WithJSON.
Context {J : JSON}.

(** [now] is [time.Now().Unix()] at the call. *)
Definition createDefaultSOARecord (a : APIServer) (now : Z) (zoneName : string)
  : APIServer * option error :=
  let soa := config.DNS_SOA (config a) in
  let primaryNameserver := config.PrimaryNameserver soa in
  let mailAddress := config.MailAddress soa in
  let refresh := uint32 (config.Refresh soa) in
  let retry := uint32 (config.Retry soa) in
  let expire := uint32 (config.Expire soa) in
  let minimum := uint32 (config.Minimum soa) in
  let serial := uint32 now in
  let soaData := mkSOA primaryNameserver mailAddress serial refresh retry expire minimum in
  let soaContent := MarshalSOA soaData in
  let record := mkRecord 0 zoneName zoneName models.TypeSOA soaContent 86400 0 in
  match db.MariaDB.CreateRecord (mariadbClient a) record with
  | Err e => (a, Some ("failed to create SOA record: " +:+ e))
  | Ok (d, _) => (with_mariadb a d, None)
  end.

Definition updateZoneSOASerial (a : APIServer) (now : Z) (zoneName : string)
  : APIServer * option error :=
  match db.MariaDB.GetRecordsByNameAndType (mariadbClient a) zoneName zoneName
          models.TypeSOA with
  | Err e => (a, Some ("failed to get SOA record: " +:+ e))
  | Ok [] => createDefaultSOARecord a now zoneName
  | Ok (soaRecord :: _) =>
      match UnmarshalSOA (Content soaRecord) with
      | None => (a, Some "failed to parse SOA record")
      | Some soaData =>
          let newSerial := uint32 now in
          let soaData := set_Serial soaData newSerial in
          let soaContent := MarshalSOA soaData in
          let soaRecord := set_Content soaRecord soaContent in
          match db.MariaDB.UpdateRecord (mariadbClient a) soaRecord with
          | Err e => (a, Some ("failed to update SOA record: " +:+ e))
          | Ok d =>
              let a := with_mariadb a d in
              let singleCacheKey :=
                db.singleCacheKey (Zone soaRecord) (Name soaRecord) (Type_ soaRecord) in
              let '(rc, _) := db.Redis.Del (redisClient a) singleCacheKey in
              let multiCacheKey :=
                db.multiCacheKey (Zone soaRecord) (Name soaRecord) (Type_ soaRecord) in
              let '(rc, _) := db.Redis.Del rc multiCacheKey in
              (with_redis a rc, None)
          end
      end
  end.

(** [if record.Type != models.TypeSOA { updateZoneSOASerial ... }] *)
Definition bumpUnlessSOA (a : APIServer) (now : Z) (zoneName : string)
    (record : DnsRecord) : APIServer :=
  if String.eqb (Type_ record) models.TypeSOA then a
  else
    let '(a, err) := updateZoneSOASerial a now zoneName in
    warnf_if a "Failed to update SOA serial" err.

(** The two [Del] calls after an update or a delete. *)
Definition invalidate (a : APIServer) (record : DnsRecord) : APIServer :=
  let singleCacheKey := db.singleCacheKey (Zone record) (Name record) (Type_ record) in
  let '(rc, _) := db.Redis.Del (redisClient a) singleCacheKey in
  let multiCacheKey := db.multiCacheKey (Zone record) (Name record) (Type_ record) in
  let '(rc, _) := db.Redis.Del rc multiCacheKey in
  with_redis a rc.

Definition publish (a : APIServer) (record : DnsRecord) : APIServer :=
  let '(rc, err) := db.Redis.PublishRecordUpdate (redisClient a) record in
  warnf_if (with_redis a rc) "Failed to publish record update" err.

(** [createRecordHandler]; [body] is the decoded request body. *)
Definition createRecordHandler (a : APIServer) (now : Z) (zoneName : string)
    (body : option DnsRecord) : APIServer * Response :=
  match db.MariaDB.GetZone (mariadbClient a) zoneName with
  | Err e => (errorf a "Error checking for zone" e,
              responseError StatusInternalServerError "Failed to check for zone")
  | Ok None => (a, responseError StatusNotFound "Zone not found")
  | Ok (Some _) =>
  match body with
  | None => (a, responseError StatusBadRequest "Invalid request body")
  | Some record =>
  let record := set_Zone record zoneName in
  if String.eqb (Name record) EmptyString then
    (a, responseError StatusBadRequest "Record name is required")
  else
  let record :=
    if String.eqb (Name record) "@" then set_Name record zoneName
    else if negb (strings.Contains (Name record))
         then set_Name record (Name record +:+ "." +:+ zoneName)
         else record in
  if String.eqb (Type_ record) EmptyString then
    (a, responseError StatusBadRequest "Record type is required")
  else if String.eqb (Content record) EmptyString then
    (a, responseError StatusBadRequest "Record content is required")
  else
  let checked :=
    if Z.leb (TTL record) 0 then Some (set_TTL record 120)
    else if isValid (TTL record) validTTLs then Some record
         else None in
  match checked with
  | None => (a, responseError StatusBadRequest invalidTTL)
  | Some record =>
  match db.MariaDB.CreateRecord (mariadbClient a) record with
  | Err e => (errorf a "Error creating record" e,
              responseError StatusInternalServerError "Failed to create record")
  | Ok (d, record) =>
      let a := with_mariadb a d in
      let a := bumpUnlessSOA a now zoneName record in
      let a := publish a record in
      (a, (StatusCreated, DataRecord record))
  end end end end.

(** [updateRecordHandler]; [recordID] is the parsed path id. *)
Definition updateRecordHandler (a : APIServer) (now : Z) (zoneName : string)
    (recordID : option Z) (body : option UpdateData) : APIServer * Response :=
  match recordID with
  | None => (a, responseError StatusBadRequest "Invalid record ID")
  | Some recordID =>
  match db.MariaDB.GetZone (mariadbClient a) zoneName with
  | Err e => (errorf a "Error checking for zone" e,
              responseError StatusInternalServerError "Failed to check for zone")
  | Ok None => (a, responseError StatusNotFound "Zone not found")
  | Ok (Some _) =>
  match body with
  | None => (a, responseError StatusBadRequest "Invalid request body")
  | Some updateData =>
  match db.MariaDB.GetRecordByID (mariadbClient a) recordID with
  | Err e => (errorf a "Error getting record" e,
              responseError StatusInternalServerError "Failed to get record")
  | Ok None => (a, responseError StatusNotFound "Record not found")
  | Ok (Some record) =>
  if negb (String.eqb (Zone record) zoneName) then
    (a, responseError StatusBadRequest "Record does not belong to the specified zone")
  else
  let record :=
    if negb (String.eqb (u_Content updateData) EmptyString)
    then set_Content record (u_Content updateData) else record in
  let checked :=
    if Z.ltb 0 (u_TTL updateData) then
      if isValid (u_TTL updateData) validTTLs
      then Some (set_TTL record (u_TTL updateData)) else None
    else Some record in
  match checked with
  | None => (a, responseError StatusBadRequest invalidTTL)
  | Some record =>
  let record := set_Priority record (u_Priority updateData) in
  match db.MariaDB.UpdateRecord (mariadbClient a) record with
  | Err e => (errorf a "Error updating record" e,
              responseError StatusInternalServerError "Failed to update record")
  | Ok d =>
      let a := with_mariadb a d in
      let a := bumpUnlessSOA a now zoneName record in
      let a := invalidate a record in
      let a := publish a record in
      (a, (StatusOK, DataRecord record))
  end end end end end end.

Definition deleteRecordHandler (a : APIServer) (now : Z) (zoneName : string)
    (recordID : option Z) : APIServer * Response :=
  match recordID with
  | None => (a, responseError StatusBadRequest "Invalid record ID")
  | Some recordID =>
  match db.MariaDB.GetZone (mariadbClient a) zoneName with
  | Err e => (errorf a "Error checking for zone" e,
              responseError StatusInternalServerError "Failed to check for zone")
  | Ok None => (a, responseError StatusNotFound "Zone not found")
  | Ok (Some _) =>
  match db.MariaDB.GetRecordByID (mariadbClient a) recordID with
  | Err e => (errorf a "Error getting record" e,
              responseError StatusInternalServerError "Failed to get record")
  | Ok None => (a, responseError StatusNotFound "Record not found")
  | Ok (Some record) =>
  match db.MariaDB.DeleteRecord (mariadbClient a) recordID with
  | Err e => (errorf a "Error deleting record" e,
              responseError StatusInternalServerError "Failed to delete record")
  | Ok d =>
      let a := with_mariadb a d in
      let a := bumpUnlessSOA a now zoneName record in
      let a := invalidate a record in
      let a := publish a record in
      (a, (StatusOK, DataMessage "Record deleted successfully"))
  end end end end.

(** The DNS handler of the same process: it shares both clients. *)
Definition handler_of (a : APIServer) (st : server.DNSStats) : server.DNSHandler :=
  server.mkHandler (redisClient a) (db.store_of (mariadbClient a)) (logger a) st.

End WithJSON.

End api.

(** ** A concrete codec

    An instance of the [JSON] interface for closed examples: a prefix
    code in which every string and integer is self-delimiting, so that
    decoding inverts encoding.  Text outside the image of the encoders
    (for instance plain prose) is rejected, as [json.Unmarshal] rejects
    it. *)

Module codec.

Fixpoint put_string (s : string) : string :=
  match s with
  | EmptyString => "."
  | String c s' => String "+"%char (String c (put_string s'))
  end.

Fixpoint get_string (s : string) : option (string * string) :=
  match s with
  | String "."%char rest => Some (EmptyString, rest)
  | String "+"%char (String c rest) =>
      match get_string rest with
      | Some (v, rest') => Some (String c v, rest')
      | None => None
      end
  | _ => None
  end.

Fixpoint put_pos (p : positive) : string :=
  match p with
  | xH => "!"
  | xO p' => String "0"%char (put_pos p')
  | xI p' => String "1"%char (put_pos p')
  end.

Fixpoint get_pos (s : string) : option (positive * string) :=
  match s with
  | String "!"%char rest => Some (xH, rest)
  | String "0"%char rest =>
      match get_pos rest with
      | Some (p, rest') => Some (xO p, rest')
      | None => None
      end
  | String "1"%char rest =>
      match get_pos rest with
      | Some (p, rest') => Some (xI p, rest')
      | None => None
      end
  | _ => None
  end.

Definition put_Z (z : Z) : string :=
  match z with
  | Z0 => "z"
  | Zpos p => String "p"%char (put_pos p)
  | Zneg p => String "n"%char (put_pos p)
  end.

Definition get_Z (s : string) : option (Z * string) :=
  match s with
  | String "z"%char rest => Some (0, rest)
  | String "p"%char rest =>
      match get_pos rest with
      | Some (p, rest') => Some (Zpos p, rest')
      | None => None
      end
  | String "n"%char rest =>
      match get_pos rest with
      | Some (p, rest') => Some (Zneg p, rest')
      | None => None
      end
  | _ => None
  end.

(** Sequencing of field decoders. *)
Definition andThen {A B : Type} (x : option (A * string))
    (k : A -> string -> option (B * string)) : option (B * string) :=
  match x with
  | Some (a, rest) => k a rest
  | None => None
  end.

(** A decoder succeeds on a whole text only. *)
Definition whole {A : Type} (x : option (A * string)) : option A :=
  match x with
  | Some (a, EmptyString) => Some a
  | _ => None
  end.

Definition put_record (r : DnsRecord) : string :=
  put_Z (ID r) +:+ put_string (Zone r) +:+ put_string (Name r) +:+ put_string (Type_ r)
    +:+ put_string (Content r) +:+ put_Z (TTL r) +:+ put_Z (Priority r).

Definition get_record (s : string) : option (DnsRecord * string) :=
  andThen (get_Z s) (fun id s =>
  andThen (get_string s) (fun zone s =>
  andThen (get_string s) (fun name s =>
  andThen (get_string s) (fun ty s =>
  andThen (get_string s) (fun content s =>
  andThen (get_Z s) (fun ttl s =>
  andThen (get_Z s) (fun prio s =>
  Some (mkRecord id zone name ty content ttl prio, s)))))))).

Fixpoint put_records (l : list DnsRecord) : string :=
  match l with
  | [] => "]"
  | r :: rest => String ","%char (put_record r +:+ put_records rest)
  end.

Fixpoint get_records (fuel : nat) (s : string) : option (list DnsRecord * string) :=
  match fuel with
  | O => None
  | S fuel' =>
      match s with
      | String "]"%char rest => Some ([], rest)
      | String ","%char rest =>
          andThen (get_record rest) (fun r s =>
          andThen (get_records fuel' s) (fun l s => Some (r :: l, s)))
      | _ => None
      end
  end.

Definition put_soa (x : SOARecord) : string :=
  put_string (Mname x) +:+ put_string (Rname x) +:+ put_Z (Serial x) +:+ put_Z (Refresh x)
    +:+ put_Z (Retry x) +:+ put_Z (Expire x) +:+ put_Z (Minimum x).

Definition get_soa (s : string) : option (SOARecord * string) :=
  andThen (get_string s) (fun mname s =>
  andThen (get_string s) (fun rname s =>
  andThen (get_Z s) (fun serial s =>
  andThen (get_Z s) (fun refresh s =>
  andThen (get_Z s) (fun retry s =>
  andThen (get_Z s) (fun expire s =>
  andThen (get_Z s) (fun minimum s =>
  Some (mkSOA mname rname serial refresh retry expire minimum, s)))))))).

Definition get_srv (s : string) : option (SRVRecord * string) :=
  andThen (get_Z s) (fun priority s =>
  andThen (get_Z s) (fun weight s =>
  andThen (get_Z s) (fun port s =>
  andThen (get_string s) (fun target s =>
  Some (mkSRV priority weight port target, s))))).

Definition get_caa (s : string) : option (CAARecord * string) :=
  andThen (get_Z s) (fun flag s =>
  andThen (get_string s) (fun tag s =>
  andThen (get_string s) (fun value s =>
  Some (mkCAA flag tag value, s)))).

#[export] Instance json : JSON := {|
  MarshalRecord := put_record;
  UnmarshalRecord := fun s => whole (get_record s);
  MarshalRecords := put_records;
  UnmarshalRecords := fun s => whole (get_records (S (String.length s)) s);
  MarshalSOA := put_soa;
  UnmarshalSOA := fun s => whole (get_soa s);
  UnmarshalSRV := fun s => whole (get_srv s);
  UnmarshalCAA := fun s => whole (get_caa s)
|}.

(** The rows of [dns.TypeToString] for the record types of [models]. *)
Definition TypeToString (t : Z) : string :=
  if Z.eqb t dns.TypeA then "A"
  else if Z.eqb t dns.TypeNS then "NS"
  else if Z.eqb t dns.TypeCNAME then "CNAME"
  else if Z.eqb t dns.TypeSOA then "SOA"
  else if Z.eqb t dns.TypePTR then "PTR"
  else if Z.eqb t dns.TypeMX then "MX"
  else if Z.eqb t dns.TypeTXT then "TXT"
  else if Z.eqb t dns.TypeAAAA then "AAAA"
  else if Z.eqb t dns.TypeSRV then "SRV"
  else if Z.eqb t dns.TypeCAA then "CAA"
  else EmptyString.

#[export] Instance tables : dns.Tables := {| dns.TypeToString := TypeToString |}.

End codec.

(** ** A deployment used in the closed examples

    Zones [example.com] and [sub.example.com]; an address record for
    [www.example.com]; cache entries live for 300 seconds. *)

Module example.
Import codec.

Definition cfg : config.Config :=
  config.mkConfig
    (config.mkSOAConfig "ns1.example.com" "hostmaster.example.com" 7200 3600 1209600 180)
    300.

Definition healthy {A : Type} : A -> bool := fun _ => false.

Definition www : DnsRecord :=
  mkRecord 1 "example.com" "www.example.com" "A" "192.0.2.1" 3600 0.
Definition www2 : DnsRecord :=
  mkRecord 2 "example.com" "www.example.com" "A" "192.0.2.2" 3600 0.

Definition soa0 : SOARecord :=
  mkSOA "ns1.example.com" "hostmaster.example.com" 1700000000 7200 3600 1209600 180.
Definition soa_row : DnsRecord :=
  mkRecord 2 "example.com" "example.com" "SOA" (MarshalSOA soa0) 86400 0.

Definition zones : list ZoneRow :=
  [mkZone 1 "example.com"; mkZone 2 "sub.example.com"].

(** The store with the address record only, and with the SOA record
    as well. *)
Definition store : db.MariaDBClient := db.mkDB zones [www] 2 healthy.
Definition store_soa : db.MariaDBClient := db.mkDB zones [www; soa_row] 3 healthy.

Definition redis (kv : gmap string db.Entry) : db.RedisClient :=
  db.mkRedis kv [] healthy cfg.

Definition stats0 : server.DNSStats := server.mkStats 0 0 0 0 0.

Definition handler (kv : gmap string db.Entry) (d : db.MariaDBClient) : server.DNSHandler :=
  server.mkHandler (redis kv) (db.store_of d) [] stats0.

Definition apiServer (kv : gmap string db.Entry) (d : db.MariaDBClient) : api.APIServer :=
  api.mkAPI (redis kv) d [] cfg.

Definition q_www : dns.Question := dns.mkQuestion "www.example.com." dns.TypeA.

Definition request (qs : list dns.Question) : dns.Msg :=
  dns.mkMsg qs [] dns.RcodeSuccess false.
Definition reply : dns.Msg := dns.mkMsg [] [] dns.RcodeSuccess true.

(** A subscriber whose cache holds both key shapes of the address
    record. *)
Definition subscriber : server.DNSServer :=
  server.mkServer
    (redis
       (<[db.singleCacheKey "example.com" "www.example.com" "A"
          := db.mkEntry (MarshalRecord www) 0]>
          (<[db.multiCacheKey "example.com" "www.example.com" "A"
             := db.mkEntry (MarshalRecords [www]) 0]> ∅)))
    [].

(** A creation request for [mail.example.com] with the given TTL. *)
Definition mail_request (ttl : Z) : DnsRecord :=
  mkRecord 0 EmptyString "mail" "A" "192.0.2.25" ttl 0.

(** The answer synthesized for an address record of [www.example.com]. *)
Definition www_answer (ip : string) : dns.RR :=
  dns.A (dns.mkHdr "www.example.com." dns.TypeA dns.ClassINET 3600) (dns.ParseIP ip).

(** An SOA record whose content is not a structured payload. *)
Definition bad_soa : DnsRecord :=
  mkRecord 9 "example.com" "example.com" "SOA" "not json" 86400 0.

End example.


(** ** Vocabulary of the statements *)

(** The non-empty suffixes of a list, longest first: [parts[i:]] for
    [i = 0 .. len(parts)-1]. *)
Fixpoint tails {A : Type} (l : list A) : list (list A) :=
  match l with
  | [] => []
  | _ :: rest => l :: tails rest
  end.

(** The zone names [findZone] probes for a query name, in order. *)
Definition candidates (name : string) : list string :=
  List.map strings.Join (tails (strings.Split name)).


Section Vocabulary.
Context {J : JSON} {T : dns.Tables}.

(** A hit on the record-set key: the read works, the key is present and
    its value decodes to a non-empty list. *)
Definition multi_hit (r : db.RedisClient) (zone name : string) (ty : RecordType)
    (rs : list DnsRecord) : Prop :=
  db.unavailable r (db.GET (db.multiCacheKey zone name ty)) = false
  /\ exists e, db.kv r !! db.multiCacheKey zone name ty = Some e
               /\ UnmarshalRecords (db.data e) = Some rs
               /\ rs <> [].

(** A hit on the legacy single-record key. *)
Definition single_hit (r : db.RedisClient) (zone name : string) (ty : RecordType)
    (rec : DnsRecord) : Prop :=
  db.unavailable r (db.GET (db.singleCacheKey zone name ty)) = false
  /\ exists e, db.kv r !! db.singleCacheKey zone name ty = Some e
               /\ UnmarshalRecord (db.data e) = Some rec.

Definition cache_miss (r : db.RedisClient) (zone name : string) (ty : RecordType) : Prop :=
  (forall rs, ~ multi_hit r zone name ty rs) /\ (forall rec, ~ single_hit r zone name ty rec).

(** The answer [addAnswerFromRecord] synthesizes for a record, or its error. *)
Definition synthesize (record : DnsRecord) (q : dns.Question) : result dns.RR :=
  match server.addAnswerFromRecord (dns.mkMsg [] [] dns.RcodeSuccess false) record q with
  | (m, None) => match dns.Answer m with
                 | rr :: _ => Ok rr
                 | [] => Err EmptyString
                 end
  | (_, Some e) => Err e
  end.

(** The answers of the records that synthesize, in order, and the
    warnings of those that do not. *)
Fixpoint answers (q : dns.Question) (rs : list DnsRecord) : list dns.RR :=
  match rs with
  | [] => []
  | r :: rest =>
      match synthesize r q with
      | Ok rr => rr :: answers q rest
      | Err _ => answers q rest
      end
  end.

Fixpoint warnings (q : dns.Question) (rs : list DnsRecord) : list server.LogLine :=
  match rs with
  | [] => []
  | r :: rest =>
      match synthesize r q with
      | Ok _ => warnings q rest
      | Err e => server.Warnf "Failed to add answer from record" e :: warnings q rest
      end
  end.

End Vocabulary.

(** The serial a reader of the store observes for a zone: that of the
    first SOA record at the apex. *)
Definition zone_serial {J : JSON} (d : db.MariaDBClient) (zone : string) : option Z :=
  match db.MariaDB.GetRecordsByNameAndType d zone zone models.TypeSOA with
  | Ok (soa :: _) => Serial <$> UnmarshalSOA (Content soa)
  | _ => None
  end.

(** The default SOA record [createDefaultSOARecord] builds at [now]. *)
Definition default_soa {J : JSON} (c : config.Config) (now : Z) (zone : string) : DnsRecord :=
  mkRecord 0 zone zone models.TypeSOA
    (MarshalSOA (mkSOA (config.PrimaryNameserver (config.DNS_SOA c))
                   (config.MailAddress (config.DNS_SOA c))
                   (uint32 now)
                   (uint32 (config.Refresh (config.DNS_SOA c)))
                   (uint32 (config.Retry (config.DNS_SOA c)))
                   (uint32 (config.Expire (config.DNS_SOA c)))
                   (uint32 (config.Minimum (config.DNS_SOA c)))))
    86400 0.

(** The expiration both cache writers hand to [SET]: none when the
    configured cache TTL is 0, else the configured number of seconds. *)
Definition cache_expiration (c : config.Config) : Duration :=
  if Z.eqb (config.Redis_Cache_TTL c) 0 then 0
  else Duration_mul (config.Redis_Cache_TTL c) Second.



(** ** Further code of the repository

    The remaining cache and store methods, the zone handlers and the
    name formatter of package [util]. *)

(** *** Package [util] *)

Module util.

(** [strings.HasSuffix(s, suffix)] *)
Fixpoint HasSuffix (s suffix : string) : bool :=
  if String.eqb s suffix then true
  else match s with
       | EmptyString => false
       | String _ s' => HasSuffix s' suffix
       end.

Definition FormatRecordName (recordName zoneName : string) : string :=
  if String.eqb recordName "@" then zoneName
  else if HasSuffix recordName zoneName then recordName
  else if strings.Contains recordName then recordName
  else recordName +:+ "." +:+ zoneName.

End util.

(** *** Package [db]: the remaining cache methods *)

Module cache.
Section WithJSON.
Context {J : JSON}.

(** The pattern matching of the [KEYS] command is Redis code: [glob
    pattern key] says whether [key] matches. *)
Variable glob : string -> string -> bool.

Definition DeleteRecordsByNameAndType (r : db.RedisClient) (zone name : string)
    (recordType : RecordType) : db.RedisClient * option error :=
  let key := db.multiCacheKey zone name recordType in
  db.Redis.Del r key.

Definition DeleteRecord (r : db.RedisClient) (zone name : string)
    (recordType : RecordType) : db.RedisClient * option error :=
  let key := db.singleCacheKey zone name recordType in
  db.Redis.Del r key.

(** [Keys]: the keys that match, or the error of the command
    ([keys_down] says whether [KEYS] fails now). *)
Definition Keys (keys_down : bool) (r : db.RedisClient) (pattern : string)
  : result (list string) :=
  if keys_down then Err db.redis_down
  else Ok (List.filter (glob pattern) (List.map fst (map_to_list (db.kv r)))).

(** [for _, key := range keys] of [GetRecordsByZone]: entries that
    cannot be read or decoded are skipped. *)
Fixpoint collect (r : db.RedisClient) (keys : list string) : list DnsRecord :=
  match keys with
  | [] => []
  | key :: rest =>
      match db.Redis.client_Get r key with
      | Err _ => collect r rest
      | Ok data =>
          match UnmarshalRecord data with
          | None => collect r rest
          | Some record => record :: collect r rest
          end
      end
  end.

Definition GetRecordsByZone (keys_down : bool) (r : db.RedisClient) (zone : string)
  : result (list DnsRecord) :=
  let pattern := "dns:record:" +:+ zone +:+ ":*" in
  match Keys keys_down r pattern with
  | Err e => Err e
  | Ok keys => Ok (collect r keys)
  end.

(** [Del(ctx, keys...)] with several keys is one command: it deletes
    them all or fails ([del_down]). *)
Definition DelMany (del_down : bool) (r : db.RedisClient) (keys : list string)
  : db.RedisClient * option error :=
  if del_down then (r, Some db.redis_down)
  else (db.with_kv r (List.fold_right (fun k m => delete k m) (db.kv r) keys), None).

End WithJSON.
End cache.

(** *** Package [db]: the statements on zones *)

Module zonedb.

Inductive Stmt :=
| SelectZones
| InsertZone
| DeleteZoneStmt
| SelectRecordsByZone.

Definition sql_duplicate : error := "sql: duplicate entry".

Definition with_zones (d : db.MariaDBClient) (zs : list ZoneRow) (rs : list DnsRecord)
  : db.MariaDBClient :=
  db.mkDB zs rs (db.next_id d) (db.failing d).

(** [INSERT INTO zones (name)]: the name is [UNIQUE]; [id] is the value
    of [LastInsertId]. *)
Definition CreateZone (failing : Stmt -> bool) (d : db.MariaDBClient) (id : Z)
    (name : string) : result (db.MariaDBClient * ZoneRow) :=
  if failing InsertZone then Err db.sql_down
  else if existsb (fun z => String.eqb (zone_Name z) name) (db.zones d)
  then Err sql_duplicate
  else Ok (with_zones d (db.zones d ++ [mkZone id name]) (db.records d), mkZone id name).

(** [DELETE FROM zones WHERE name = ?]; the foreign key of [records]
    cascades. *)
Definition DeleteZone (failing : Stmt -> bool) (d : db.MariaDBClient) (name : string)
  : result db.MariaDBClient :=
  if failing DeleteZoneStmt then Err db.sql_down
  else Ok (with_zones d
             (List.filter (fun z => negb (String.eqb (zone_Name z) name)) (db.zones d))
             (List.filter (fun r => negb (String.eqb (Zone r) name)) (db.records d))).

Definition GetRecordsByZone (failing : Stmt -> bool) (d : db.MariaDBClient) (zone : string)
  : result (list DnsRecord) :=
  if failing SelectRecordsByZone then Err db.sql_down
  else Ok (List.filter (fun r => String.eqb (Zone r) zone) (db.records d)).

Definition GetAllZones (failing : Stmt -> bool) (d : db.MariaDBClient)
  : result (list ZoneRow) :=
  if failing SelectZones then Err db.sql_down
  else Ok (db.zones d).

End zonedb.

(** *** Package [api]: the zone handlers and the record listing *)

Module zoneapi.

Definition StatusConflict : Z := 409.

Inductive Body :=
| DataZone (zone : ZoneRow)
| DataZones (zones : list ZoneRow)
| DataRecords (records : list DnsRecord)
| DataMessage (message : string)
| ErrorMessage (message : string).

Definition Response : Type := Z * Body.

Definition responseError (status : Z) (message : string) : Response :=
  (status, ErrorMessage message).

(** What fails around a zone request: the zone statements, [KEYS] and
    the several-key [DEL]. *)
Record Faults := mkFaults {
  stmt_down : zonedb.Stmt -> bool;
  keys_down : bool;
  del_down : bool
}.

Section WithJSON.
Context {J : JSON}.
Variable glob : string -> string -> bool.

Definition listZonesHandler (a : api.APIServer) (f : Faults) : api.APIServer * Response :=
  match zonedb.GetAllZones (stmt_down f) (api.mariadbClient a) with
  | Err e => (api.errorf a "Error getting zones" e,
              responseError api.StatusInternalServerError "Failed to get zones")
  | Ok zones => (a, (api.StatusOK, DataZones zones))
  end.

(** [createZoneHandler]; [name] is the decoded body, [id] the value of
    [LastInsertId] and [now] the clock reading. *)
Definition createZoneHandler (a : api.APIServer) (f : Faults) (now id : Z)
    (name : option string) : api.APIServer * Response :=
  match name with
  | None => (a, responseError api.StatusBadRequest "Invalid request body")
  | Some name =>
  if String.eqb name EmptyString then
    (a, responseError api.StatusBadRequest "Zone name is required")
  else
  match db.MariaDB.GetZone (api.mariadbClient a) name with
  | Err e => (api.errorf a "Error checking for existing zone" e,
              responseError api.StatusInternalServerError "Failed to check for existing zone")
  | Ok (Some _) => (a, responseError StatusConflict "Zone already exists")
  | Ok None =>
  match zonedb.CreateZone (stmt_down f) (api.mariadbClient a) id name with
  | Err e => (api.errorf a "Error creating zone" e,
              responseError api.StatusInternalServerError "Failed to create zone")
  | Ok (d, zone) =>
      let a := api.with_mariadb a d in
      let '(a, err) := api.createDefaultSOARecord a now (zone_Name zone) in
      let a := match err with
               | Some e => api.errorf a "Error creating default SOA record" e
               | None => a
               end in
      (a, (api.StatusCreated, DataZone zone))
  end end end.

Definition getZoneHandler (a : api.APIServer) (name : string) : api.APIServer * Response :=
  match db.MariaDB.GetZone (api.mariadbClient a) name with
  | Err e => (api.errorf a "Error getting zone" e,
              responseError api.StatusInternalServerError "Failed to get zone")
  | Ok None => (a, responseError api.StatusNotFound "Zone not found")
  | Ok (Some zone) => (a, (api.StatusOK, DataZone zone))
  end.

Definition deleteZoneHandler (a : api.APIServer) (f : Faults) (name : string)
  : api.APIServer * Response :=
  match db.MariaDB.GetZone (api.mariadbClient a) name with
  | Err e => (api.errorf a "Error checking for zone" e,
              responseError api.StatusInternalServerError "Failed to check for zone")
  | Ok None => (a, responseError api.StatusNotFound "Zone not found")
  | Ok (Some _) =>
  match zonedb.DeleteZone (stmt_down f) (api.mariadbClient a) name with
  | Err e => (api.errorf a "Error deleting zone" e,
              responseError api.StatusInternalServerError "Failed to delete zone")
  | Ok d =>
      let a := api.with_mariadb a d in
      let pattern := "dns:record:" +:+ name +:+ ":*" in
      let keys := match cache.Keys glob (keys_down f) (api.redisClient a) pattern with
                  | Ok keys => keys
                  | Err _ => []
                  end in
      let a := if (0 <? length keys)%nat
               then api.with_redis a (cache.DelMany (del_down f) (api.redisClient a) keys).1
               else a in
      (a, (api.StatusOK, DataMessage "Zone deleted successfully"))
  end end.

Definition listRecordsHandler (a : api.APIServer) (f : Faults) (zoneName : string)
  : api.APIServer * Response :=
  match db.MariaDB.GetZone (api.mariadbClient a) zoneName with
  | Err e => (api.errorf a "Error checking for zone" e,
              responseError api.StatusInternalServerError "Failed to check for zone")
  | Ok None => (a, responseError api.StatusNotFound "Zone not found")
  | Ok (Some _) =>
  match zonedb.GetRecordsByZone (stmt_down f) (api.mariadbClient a) zoneName with
  | Err e => (api.errorf a "Error getting records" e,
              responseError api.StatusInternalServerError "Failed to get records")
  | Ok records => (a, (api.StatusOK, DataRecords records))
  end end.

End WithJSON.
End zoneapi.

(** ** Vocabulary of the further statements *)

(** The header of an answer. *)
Definition rr_Hdr (rr : dns.RR) : dns.RR_Header :=
  match rr with
  | dns.A h _ | dns.AAAA h _ | dns.CNAME h _ | dns.MX h _ _ | dns.NS h _ | dns.PTR h _
  | dns.TXT h _ | dns.SOA h _ _ _ _ _ _ _ | dns.SRV h _ _ _ _ | dns.CAA h _ _ _ => h
  end.

(** The wire type code of a record type name, for the ten names of
    [models]. *)
Definition type_code (ty : RecordType) : option Z :=
  if String.eqb ty "A" then Some 1
  else if String.eqb ty "AAAA" then Some 28
  else if String.eqb ty "CNAME" then Some 5
  else if String.eqb ty "MX" then Some 15
  else if String.eqb ty "NS" then Some 2
  else if String.eqb ty "PTR" then Some 12
  else if String.eqb ty "TXT" then Some 16
  else if String.eqb ty "SOA" then Some 6
  else if String.eqb ty "SRV" then Some 33
  else if String.eqb ty "CAA" then Some 257
  else None.

(** The record types whose content is a structured payload. *)
Definition structured (ty : RecordType) : bool :=
  String.eqb ty "SOA" || String.eqb ty "SRV" || String.eqb ty "CAA".

(** Whether the structured content of a record decodes. *)
Definition decodes {J : JSON} (r : DnsRecord) : bool :=
  if String.eqb (Type_ r) "SOA" then bool_decide (is_Some (UnmarshalSOA (Content r)))
  else if String.eqb (Type_ r) "SRV" then bool_decide (is_Some (UnmarshalSRV (Content r)))
  else if String.eqb (Type_ r) "CAA" then bool_decide (is_Some (UnmarshalCAA (Content r)))
  else true.

(** The rows of the store that a query for (zone, name, type) selects. *)
Definition selected (d : db.MariaDBClient) (zone name : string) (ty : RecordType)
  : list DnsRecord :=
  List.filter (db.matches zone name ty) (db.records d).

(** Every id in the table is below the next [AUTO_INCREMENT] value. *)
Definition ids_below (d : db.MariaDBClient) : Prop :=
  forall r, In r (db.records d) -> ID r < db.next_id d.

(** No two rows of the table share an id. *)
Definition ids_unique (d : db.MariaDBClient) : Prop :=
  List.NoDup (List.map ID (db.records d)).

(** The name [createRecordHandler] stores for a requested name. *)
Definition qualified (name zoneName : string) : string :=
  if String.eqb name "@" then zoneName
  else if negb (strings.Contains name) then name +:+ "." +:+ zoneName
  else name.

(** A [KEYS] matcher for the closed examples: a pattern that ends in a
    star matches the keys that start with what precedes the star. *)
Fixpoint prefix_glob (pattern key : string) : bool :=
  match pattern with
  | EmptyString => match key with EmptyString => true | _ => false end
  | String c p' =>
      if Ascii.eqb c "*" && String.eqb p' EmptyString then true
      else match key with
           | EmptyString => false
           | String k key' => Ascii.eqb c k && prefix_glob p' key'
           end
  end.

(** What the literal head of a pattern forces, whatever follows it: a
    key matched by a pattern that starts with [dns:record:] starts with
    [dns:record:]. *)
Definition literal_head (glob : string -> string -> bool) : Prop :=
  forall rest key : string,
    glob ("dns:record:" +:+ rest) key = true ->
    exists tail : string, key = "dns:record:" +:+ tail.

(** What one question does to the reply and the counters. *)
Definition question_effect (h h' : server.DNSHandler) (m m' : dns.Msg) : Prop :=
  (exists added, m' = dns.with_Answer m (dns.Answer m ++ added))
  /\ server.mariadbClient h' = server.mariadbClient h
  /\ server.Queries (server.stats h') = server.Queries (server.stats h)
  /\ server.NXDomain (server.stats h') = server.NXDomain (server.stats h)
  /\ server.ServerFailure (server.stats h') = server.ServerFailure (server.stats h)
  /\ server.CacheHits (server.stats h) <= server.CacheHits (server.stats h')
  /\ server.CacheMisses (server.stats h) <= server.CacheMisses (server.stats h')
  /\ server.CacheHits (server.stats h') + server.CacheMisses (server.stats h')
     <= server.CacheHits (server.stats h) + server.CacheMisses (server.stats h) + 1.

(** The foreign key of the records table: the zone of every record is
    the name of a row of the zones table. *)
Definition referential (d : db.MariaDBClient) : Prop :=
  forall r, In r (db.records d) -> exists z, In z (db.zones d) /\ zone_Name z = Zone r.

(** * Properties *)

(** Destructs the scrutinees of the handler under scrutiny, one after
    the other. *)
Ltac step_handler :=
  match goal with
  | H : context [match ?x with _ => _ end] |- _ =>
      lazymatch x with
      | context [match _ with _ => _ end] => fail
      | _ => destruct x eqn:?
      end
  end.

Local Close Scope string_scope.

(** ** Strings *)

Lemma length_append (a b : string) :
  String.length (a +:+ b) = (String.length a + String.length b)%nat.
Proof.
  induction a as [|c a IH]; [reflexivity|].
  change (S (String.length (a +:+ b)) = S (String.length a + String.length b)).
  congruence.
Qed.

Lemma append_nil_r (a : string) : a +:+ EmptyString = a.
Proof.
  induction a as [|c a IH]; [reflexivity|].
  change (String c (a +:+ EmptyString) = String c a). congruence.
Qed.

Lemma Split_nonempty (s : string) : strings.Split s <> [].
Proof.
  destruct s as [|c s]; simpl; [discriminate|].
  destruct (Ascii.eqb c strings.dot); [discriminate|].
  destruct (strings.Split s); discriminate.
Qed.

(** [strings.Join(strings.Split(s, "."), ".") = s] *)
Lemma Join_Split (s : string) : strings.Join (strings.Split s) = s.
Proof.
  induction s as [|c s IH]; simpl; [reflexivity|].
  destruct (Ascii.eqb c strings.dot) eqn:Hc.
  - apply Ascii.eqb_eq in Hc; subst c.
    pose proof (Split_nonempty s) as Hne.
    destruct (strings.Split s) as [|h t] eqn:Hs; [congruence|].
    simpl in *. now rewrite IH.
  - destruct (strings.Split s) as [|h t] eqn:Hs.
    + now destruct (Split_nonempty s).
    + destruct t as [|h' t']; simpl in *; now rewrite <- IH.
Qed.

Lemma tails_lookup {A : Type} (l : list A) (i : nat) :
  (i < length l)%nat -> tails l !! i = Some (drop i l).
Proof.
  revert i; induction l as [|x l IH]; intros i Hi; simpl in *; [lia|].
  destruct i as [|i]; simpl; [reflexivity|]. apply IH; lia.
Qed.

Lemma Join_cons_longer (x : string) (l : list string) :
  l <> [] -> (String.length (strings.Join l) < String.length (strings.Join (x :: l)))%nat.
Proof.
  destruct l as [|y l]; [congruence|]. intros _.
  change (strings.Join (x :: y :: l))
    with (x +:+ String strings.dot (strings.Join (y :: l))).
  rewrite length_append. simpl. lia.
Qed.

Lemma tails_Join_le (l : list string) (c : string) :
  In c (List.map strings.Join (tails l)) ->
  (String.length c <= String.length (strings.Join l))%nat.
Proof.
  induction l as [|x l IH]; simpl; [tauto|].
  intros [<-|Hin]; [destruct l; lia|].
  specialize (IH Hin).
  destruct l as [|y l]; [simpl in Hin; tauto|].
  pose proof (Join_cons_longer x (y :: l)) as Hlt.
  assert (y :: l <> []) as Hne by discriminate.
  specialize (Hlt Hne). simpl in *. lia.
Qed.

Lemma tails_Join_shorter (l : list string) (pre post : list string) (c c' : string) :
  List.map strings.Join (tails l) = pre ++ c :: post ->
  In c' post -> (String.length c' < String.length c)%nat.
Proof.
  revert pre; induction l as [|x l IH]; intros pre Heq Hin;
    cbn [tails List.map] in Heq.
  - destruct pre; discriminate.
  - destruct pre as [|p pre]; cbn [app] in Heq.
    + injection Heq as Hc Hpost. subst c post.
      pose proof (tails_Join_le l c' Hin) as Hle.
      destruct l as [|y l]; [simpl in Hin; tauto|].
      pose proof (Join_cons_longer x (y :: l) ltac:(discriminate)) as Hlt.
      exact (Nat.le_lt_trans _ _ _ Hle Hlt).
    + injection Heq as _ Hrest. eapply IH; eauto.
Qed.

Section FindZone.
Context {J : JSON} {T : dns.Tables}.
Variable s : db.Store.

Lemma findZone_from_none (parts : list string) :
  (forall c, In c (List.map strings.Join (tails parts)) -> db.GetZone s c = Ok None) ->
  server.findZone_from s parts = Ok EmptyString.
Proof.
  induction parts as [|p parts IH]; intros Hall; [reflexivity|].
  cbn [server.findZone_from].
  rewrite (Hall (strings.Join (p :: parts))) by (cbn [tails List.map]; left; reflexivity).
  apply IH. intros c Hc. apply Hall. cbn [tails List.map]. right. exact Hc.
Qed.

Lemma findZone_from_first (parts : list string) (pre post : list string) (c : string) :
  List.map strings.Join (tails parts) = pre ++ c :: post ->
  (forall p, In p pre -> db.GetZone s p = Ok None) ->
  server.findZone_from s parts =
    match db.GetZone s c with
    | Err e => Err e
    | Ok (Some zone) => Ok (zone_Name zone)
    | Ok None => server.findZone_from s (drop (S (length pre)) parts)
    end.
Proof.
  revert pre; induction parts as [|p parts IH]; intros pre Heq Hpre;
    cbn [tails List.map] in Heq.
  - destruct pre; discriminate.
  - destruct pre as [|p0 pre]; cbn [app] in Heq.
    + injection Heq as Hc _. change (strings.Join (p :: parts) = c) in Hc.
      cbn [server.findZone_from]. rewrite Hc. reflexivity.
    + injection Heq as Hp0 Hrest. change (strings.Join (p :: parts) = p0) in Hp0.
      cbn [server.findZone_from].
      rewrite Hp0, (Hpre p0) by (simpl; auto).
      rewrite (IH pre Hrest) by (intros; apply Hpre; simpl; auto).
      reflexivity.
Qed.

End FindZone.

(** ** The zone resolver *)

(** C3.  For every query name, [findZone] probes the store with the
    suffixes of the dot-separated labels of the name, the full name first
    and one leftmost label less at every step (the [i]-th probe joins
    [parts[i:]]).  It returns the name of the first zone a probe finds,
    and every later candidate is strictly shorter, so the zone returned is
    the longest suffix of the name that is a stored zone.  When no
    candidate is a stored zone the result is the empty string and no
    error.  With the zones [example.com] and [sub.example.com] stored, the
    name [host.sub.example.com] resolves to [sub.example.com]. *)
Theorem findZone_longest_suffix (h : server.DNSHandler) (name : string) :
  candidates name !! 0%nat = Some name
  /\ (forall i : nat, (i < length (strings.Split name))%nat ->
        candidates name !! i = Some (strings.Join (drop i (strings.Split name))))
  /\ (forall (pre post : list string) (c : string) (zone : ZoneRow),
        candidates name = pre ++ c :: post ->
        (forall p, In p pre -> db.GetZone (server.mariadbClient h) p = Ok None) ->
        db.GetZone (server.mariadbClient h) c = Ok (Some zone) ->
        server.findZone h name = Ok (zone_Name zone)
        /\ forall c', In c' post -> (String.length c' < String.length c)%nat)
  /\ ((forall c, In c (candidates name) -> db.GetZone (server.mariadbClient h) c = Ok None) ->
      server.findZone h name = Ok EmptyString)
  /\ server.findZone (example.handler ∅ example.store) "host.sub.example.com"
     = Ok "sub.example.com".
Proof.
  assert (Hidx : forall i : nat, (i < length (strings.Split name))%nat ->
            candidates name !! i = Some (strings.Join (drop i (strings.Split name)))).
  { intros i Hi. unfold candidates. rewrite list_lookup_fmap, (tails_lookup _ _ Hi).
    reflexivity. }
  split; [|split; [exact Hidx|split; [|split]]].
  - pose proof (Split_nonempty name) as Hne.
    rewrite Hidx by (destruct (strings.Split name); [congruence | simpl; lia]).
    rewrite drop_0, Join_Split. reflexivity.
  - intros pre post c zone Heq Hpre Hc. split.
    + unfold server.findZone. rewrite (findZone_from_first _ _ pre post c Heq Hpre), Hc.
      reflexivity.
    + intros c' Hin. exact (tails_Join_shorter _ _ _ _ _ Heq Hin).
  - intros Hall. apply findZone_from_none. exact Hall.
  - vm_compute. reflexivity.
Qed.

(** The example of C3, read off the general statement: the full name is
    no zone, the next candidate is. *)
Lemma findZone_longest_suffix_witness :
  server.findZone (example.handler ∅ example.store) "host.sub.example.com"
  = Ok "sub.example.com"
  /\ forall c', In c' ["example.com"; "com"] ->
       (String.length c' < String.length "sub.example.com")%nat.
Proof.
  destruct (findZone_longest_suffix (example.handler ∅ example.store) "host.sub.example.com")
    as (_ & _ & Hfirst & _).
  apply (Hfirst ["host.sub.example.com"] ["example.com"; "com"] "sub.example.com"
           (mkZone 2 "sub.example.com")).
  - reflexivity.
  - intros p [<-|[]]. reflexivity.
  - reflexivity.
Defined.

(** ** The resolution engine *)

Section ReadPath.
Context {J : JSON} {T : dns.Tables}.

Lemma multi_hit_iff r zone name ty rs :
  multi_hit r zone name ty rs <->
  db.Redis.GetRecordsByNameAndType r zone name ty = Ok rs /\ rs <> [].
Proof.
  unfold multi_hit, db.Redis.GetRecordsByNameAndType, db.Redis.client_Get.
  destruct (db.unavailable r _); [split; [intros [? _]; discriminate|]|].
  - intros [Heq Hne]. injection Heq as <-. congruence.
  - destruct (db.kv r !! _) as [e|].
    + destruct (UnmarshalRecords (db.data e)) as [rs'|] eqn:Hd; split.
      * intros (_ & e' & He & Hu & Hne). injection He as <-. split; congruence.
      * intros [Heq Hne]. injection Heq as <-. split; [reflexivity|]. eauto.
      * intros (_ & e' & He & Hu & Hne). injection He as <-. congruence.
      * intros [Heq _]. discriminate.
    + split.
      * intros (_ & e' & He & _). discriminate.
      * intros [Heq Hne]. injection Heq as <-. congruence.
Qed.

Lemma single_hit_iff r zone name ty rec :
  single_hit r zone name ty rec <->
  db.Redis.GetRecord r zone name ty = Ok (Some rec).
Proof.
  unfold single_hit, db.Redis.GetRecord, db.Redis.client_Get.
  destruct (db.unavailable r _).
  - split; [intros [? _]; discriminate | discriminate].
  - destruct (db.kv r !! _) as [e|].
    + destruct (UnmarshalRecord (db.data e)) as [rec'|] eqn:Hd; split.
      * intros (_ & e' & He & Hu). injection He as <-. congruence.
      * intros Heq. injection Heq as <-. split; [reflexivity|]. eauto.
      * intros (_ & e' & He & Hu). injection He as <-. congruence.
      * discriminate.
    + split.
      * intros (_ & e' & He & _). discriminate.
      * cbn. discriminate.
Qed.

Variables (h : server.DNSHandler) (m : dns.Msg) (q : dns.Question) (zone name : string).
Let ty := dns.TypeToString (dns.Qtype q).
Let rc := server.redisClient h.

(** Step 1: a hit on the record-set key answers from the cached set. *)
Lemma resolve_multi_hit (rs : list DnsRecord) :
  multi_hit rc zone name ty rs ->
  server.handleQuery_in_zone h m q zone name =
    (server.with_logger (server.with_stats h (server.hit (server.stats h)))
       (server.addAnswers m (server.logger h) rs q).2,
     (server.addAnswers m (server.logger h) rs q).1, None).
Proof.
  intros Hhit. apply multi_hit_iff in Hhit as [Hget Hne].
  unfold server.handleQuery_in_zone. fold ty. fold rc. rewrite Hget.
  destruct rs as [|r0 rs]; [congruence|].
  cbn [server.logger server.with_stats].
  destruct (server.addAnswers m (server.logger h) (r0 :: rs) q). reflexivity.
Qed.


(** On a miss of both keys the first two lookups fall through. *)
Lemma resolve_miss :
  cache_miss rc zone name ty ->
  server.handleQuery_in_zone h m q zone name =
    let h := server.with_stats h (server.miss (server.stats h)) in
    match db.GetRecordsByNameAndType (server.mariadbClient h) zone name ty with
    | Err e => (h, m, Some e)
    | Ok ((r0 :: _) as records) =>
        let '(rc, err) := db.Redis.SetRecords (server.redisClient h) records
                            (Duration_mul (TTL r0) Second) in
        let h := server.with_logger (server.with_redis h rc)
                   (server.warn_if (server.logger h) "Failed to cache records" err) in
        let '(m', l) := server.addAnswers m (server.logger h) records q in
        (server.with_logger h l, m', None)
    | Ok [] =>
        match db.GetRecord (server.mariadbClient h) zone name ty with
        | Err e => (h, m, Some e)
        | Ok (Some record) =>
            let '(rc, err) := db.Redis.SetRecord (server.redisClient h) record
                                (Duration_mul (TTL record) Second) in
            let h := server.with_logger (server.with_redis h rc)
                       (server.warn_if (server.logger h) "Failed to cache record" err) in
            let '(m', err') := server.addAnswerFromRecord m record q in
            (h, m', err')
        | Ok None => (h, m, None)
        end
    end.
Proof.
  intros [Hmulti Hsingle].
  unfold server.handleQuery_in_zone. fold ty. fold rc.
  destruct (db.Redis.GetRecordsByNameAndType rc zone name ty) as [[|r0 rs]|e] eqn:Hm.
  2: { exfalso. apply (Hmulti (r0 :: rs)). apply multi_hit_iff.
       split; [exact Hm | discriminate]. }
  all: destruct (db.Redis.GetRecord rc zone name ty) as [[rec|]|e'] eqn:Hs;
    try reflexivity;
    exfalso; apply (Hsingle rec); apply single_hit_iff; exact Hs.
Qed.

End ReadPath.

Section Answers.
Context {J : JSON} {T : dns.Tables}.

Lemma addAnswerFromRecord_spec (m : dns.Msg) (record : DnsRecord) (q : dns.Question) :
  server.addAnswerFromRecord m record q =
    match synthesize record q with
    | Ok rr => (dns.with_Answer m (dns.Answer m ++ [rr]), None)
    | Err e => (m, Some e)
    end.
Proof.
  unfold synthesize, server.addAnswerFromRecord.
  repeat (match goal with
          | |- context [if ?b then _ else _] => destruct b
          | |- context [match ?o with Some _ => _ | None => _ end] => destruct o
          end; cbn [dns.Answer dns.with_Answer app]; try reflexivity).
Qed.

Lemma with_Answer_id (m : dns.Msg) : dns.with_Answer m (dns.Answer m) = m.
Proof. destruct m; reflexivity. Qed.

Lemma addAnswers_spec (rs : list DnsRecord) (m : dns.Msg) (l : list server.LogLine)
    (q : dns.Question) :
  server.addAnswers m l rs q =
    (dns.with_Answer m (dns.Answer m ++ answers q rs), l ++ warnings q rs).
Proof.
  revert m l; induction rs as [|r rs IH]; intros m l; cbn [server.addAnswers answers warnings].
  - now rewrite !app_nil_r, with_Answer_id.
  - rewrite addAnswerFromRecord_spec.
    destruct (synthesize r q) as [rr|e]; rewrite IH; cbn [server.warn_if].
    + destruct m; cbn. now rewrite <- app_assoc.
    + now rewrite <- app_assoc.
Qed.

End Answers.

Lemma matches_fields (zone name : string) (ty : RecordType) (r : DnsRecord) :
  db.matches zone name ty r = true -> Zone r = zone /\ Name r = name /\ Type_ r = ty.
Proof.
  unfold db.matches. rewrite !andb_true_iff, !String.eqb_eq. tauto.
Qed.


Section CacheWrites.
Context {J : JSON}.

Lemma SetRecords_kv (r : db.RedisClient) (r0 : DnsRecord) (rs : list DnsRecord)
    (ttl : Duration) :
  let key := db.multiCacheKey (Zone r0) (Name r0) (Type_ r0) in
  db.Redis.SetRecords r (r0 :: rs) ttl =
    if db.unavailable r (db.SET key) then (r, Some db.redis_down)
    else (db.with_kv r (<[key := db.mkEntry (MarshalRecords (r0 :: rs))
                                   (cache_expiration (db.cfg r))]> (db.kv r)), None).
Proof.
  cbn. unfold db.Redis.SetRecords, db.Redis.client_Set, cache_expiration.
  destruct (Z.eqb _ 0); destruct (db.unavailable r _); reflexivity.
Qed.

Lemma SetRecord_kv (r : db.RedisClient) (rec : DnsRecord) (ttl : Duration) :
  let key := db.singleCacheKey (Zone rec) (Name rec) (Type_ rec) in
  db.Redis.SetRecord r rec ttl =
    if db.unavailable r (db.SET key) then (r, Some db.redis_down)
    else (db.with_kv r (<[key := db.mkEntry (MarshalRecord rec)
                                   (cache_expiration (db.cfg r))]> (db.kv r)), None).
Proof.
  cbn. unfold db.Redis.SetRecord, db.Redis.client_Set, cache_expiration.
  destruct (Z.eqb _ 0); destruct (db.unavailable r _); reflexivity.
Qed.

End CacheWrites.


Section ClosedExamples.
#[local] Existing Instance codec.json.
#[local] Existing Instance codec.tables.

Lemma empty_cache_miss (r : db.RedisClient) (zone name : string) (ty : RecordType) :
  db.kv r = ∅ -> cache_miss r zone name ty.
Proof.
  intros Hkv. split.
  - intros rs (_ & e & He & _). rewrite Hkv, lookup_empty in He. discriminate.
  - intros rec (_ & e & He & _). rewrite Hkv, lookup_empty in He. discriminate.
Qed.


End ClosedExamples.

(** ** Retention of a cache fill *)

(** C2, as the code has it.  When a cache-miss read obtains one or more
    records from the store and the write of the record-set entry goes
    through, the entry holds the encoded records and its expiration is
    the configured cache TTL in seconds, or none when the configured TTL
    is 0.  The TTL of the first record is handed to [SetRecords] and has
    no influence on the entry. *)
Theorem cache_fill_expiration {J : JSON} {T : dns.Tables}
    (h : server.DNSHandler) (m : dns.Msg) (q : dns.Question) (zone name : string)
    (r0 : DnsRecord) (rs : list DnsRecord) :
  let ty := dns.TypeToString (dns.Qtype q) in
  let rc := server.redisClient h in
  let key := db.multiCacheKey (Zone r0) (Name r0) (Type_ r0) in
  let out := server.handleQuery_in_zone h m q zone name in
  cache_miss rc zone name ty ->
  db.GetRecordsByNameAndType (server.mariadbClient h) zone name ty = Ok (r0 :: rs) ->
  db.unavailable rc (db.SET key) = false ->
  db.kv (server.redisClient out.1.1) !! key
  = Some (db.mkEntry (MarshalRecords (r0 :: rs))
            (if Z.eqb (config.Redis_Cache_TTL (db.cfg rc)) 0 then 0
             else Duration_mul (config.Redis_Cache_TTL (db.cfg rc)) Second))
  /\ (0 < config.Redis_Cache_TTL (db.cfg rc) < 2 ^ 33 ->
      db.expiration <$> db.kv (server.redisClient out.1.1) !! key
      = Some (config.Redis_Cache_TTL (db.cfg rc) * 1000000000))
  /\ (forall ttl ttl' : Duration,
        db.Redis.SetRecords rc (r0 :: rs) ttl = db.Redis.SetRecords rc (r0 :: rs) ttl').
Proof.
  intros ty rc key out Hmiss Hstore Hset.
  assert (Hkv : db.kv (server.redisClient out.1.1)
                = <[key := db.mkEntry (MarshalRecords (r0 :: rs))
                             (cache_expiration (db.cfg rc))]> (db.kv rc)).
  { subst out. rewrite (resolve_miss h m q zone name Hmiss). cbn zeta. fold ty.
    cbn [server.mariadbClient server.with_stats server.redisClient]. rewrite Hstore.
    rewrite SetRecords_kv. cbn zeta. fold rc. fold key. rewrite Hset.
    now rewrite addAnswers_spec. }
  rewrite Hkv, lookup_insert_eq. split; [reflexivity|split].
  - intros Hrange. cbn. unfold cache_expiration.
    destruct (Z.eqb_spec (config.Redis_Cache_TTL (db.cfg rc)) 0) as [E|_]; [lia|].
    unfold Duration_mul, wrap_int64, Second. f_equal.
    rewrite Z.mod_small; lia.
  - reflexivity.
Qed.

Section ClosedExamples2.
#[local] Existing Instance codec.json.
#[local] Existing Instance codec.tables.

(** C2 as stated fails: the deployment keeps entries for 300 seconds,
    the first (and only) record returned has TTL 3600, and the entry
    written by the cache fill expires after 300 seconds, not 3600. *)
Lemma cache_fill_ttl_counterexample :
  let out := server.handleQuery_in_zone (example.handler ∅ example.store)
               example.reply example.q_www "example.com" "www.example.com" in
  db.GetRecordsByNameAndType (db.store_of example.store) "example.com" "www.example.com" "A"
  = Ok [example.www]
  /\ config.Redis_Cache_TTL example.cfg = 300
  /\ TTL example.www = 3600
  /\ db.expiration <$> db.kv (server.redisClient out.1.1)
                         !! db.multiCacheKey "example.com" "www.example.com" "A"
     = Some (300 * Second)
  /\ 300 * Second <> Duration_mul (TTL example.www) Second.
Proof.
  cbv zeta. repeat split; try reflexivity. vm_compute. discriminate.
Qed.

Lemma cache_fill_expiration_witness :
  let out := server.handleQuery_in_zone (example.handler ∅ example.store)
               example.reply example.q_www "example.com" "www.example.com" in
  db.expiration <$> db.kv (server.redisClient out.1.1)
                      !! db.multiCacheKey "example.com" "www.example.com" "A"
  = Some (300 * 1000000000).
Proof.
  intros out.
  destruct (cache_fill_expiration (example.handler ∅ example.store) example.reply
              example.q_www "example.com" "www.example.com" example.www [])
    as (_ & Hexp & _).
  - now apply empty_cache_miss.
  - reflexivity.
  - reflexivity.
  - apply Hexp. cbn. lia.
Defined.

End ClosedExamples2.

(** ** The invalidation bus *)

Section Subscriber.
Context {J : JSON}.

Lemma listen_until_done (payloads : list string) (later : list server.Event)
    (s : server.DNSServer) :
  server.listenForRecordUpdates s (List.map server.Message payloads ++ server.Done :: later)
  = (foldl server.onMessage s payloads, true).
Proof.
  revert s; induction payloads as [|p ps IH]; intros s; [reflexivity|].
  cbn [List.map app server.listenForRecordUpdates foldl]. apply IH.
Qed.

Lemma listen_pending (payloads : list string) (s : server.DNSServer) :
  server.listenForRecordUpdates s (List.map server.Message payloads)
  = (foldl server.onMessage s payloads, false).
Proof.
  revert s; induction payloads as [|p ps IH]; intros s; [reflexivity|].
  cbn [List.map server.listenForRecordUpdates foldl]. apply IH.
Qed.

Lemma Del_kv (r : db.RedisClient) (key : string) :
  db.Redis.Del r key =
    if db.unavailable r (db.DEL key) then (r, Some db.redis_down)
    else (db.with_kv r (delete key (db.kv r)), None).
Proof. reflexivity. Qed.

Lemma onMessage_deletes (s : server.DNSServer) (payload : string) (record : DnsRecord) :
  UnmarshalRecord payload = Some record ->
  let single := db.singleCacheKey (Zone record) (Name record) (Type_ record) in
  let multi := db.multiCacheKey (Zone record) (Name record) (Type_ record) in
  db.unavailable (server.s_redisClient s) (db.DEL single) = false ->
  db.unavailable (server.s_redisClient s) (db.DEL multi) = false ->
  db.kv (server.s_redisClient (server.onMessage s payload))
  = delete multi (delete single (db.kv (server.s_redisClient s))).
Proof.
  intros Hdec single multi Hs Hm. unfold server.onMessage. rewrite Hdec.
  rewrite Del_kv. fold single. rewrite Hs. cbv beta iota zeta.
  rewrite Del_kv. cbn [db.with_kv db.unavailable db.kv]. fold multi. rewrite Hm.
  reflexivity.
Qed.

End Subscriber.

(** C9.  The record-set cache key is [dns:records:{zone}:{name}:{type}],
    the legacy single-record key is [dns:record:{zone}:{name}:{type}] and
    the channel is [dns:record:update]; a publication appends the encoded
    record to that channel.  On a message that decodes to a record the
    example.subscriber deletes both key shapes of the record's zone, name and
    type (the cache accepting the deletions); a message that does not
    decode changes nothing in the cache and the loop goes on with the
    next event; the loop handles every message in turn and returns at the
    cancellation signal and not before. *)
Theorem invalidation_protocol {J : JSON} (s : server.DNSServer) :
  (forall zone name ty : string,
     db.multiCacheKey zone name ty = "dns:records:" +:+ zone +:+ ":" +:+ name +:+ ":" +:+ ty
     /\ db.singleCacheKey zone name ty = "dns:record:" +:+ zone +:+ ":" +:+ name +:+ ":" +:+ ty)
  /\ db.updateChannel = "dns:record:update"
  /\ (forall (r : db.RedisClient) (record : DnsRecord),
        db.unavailable r (db.PUBLISH "dns:record:update") = false ->
        db.published (db.Redis.PublishRecordUpdate r record).1
        = db.published r ++ [("dns:record:update", MarshalRecord record)])
  /\ (forall (payload : string) (record : DnsRecord),
        UnmarshalRecord payload = Some record ->
        let single := db.singleCacheKey (Zone record) (Name record) (Type_ record) in
        let multi := db.multiCacheKey (Zone record) (Name record) (Type_ record) in
        db.unavailable (server.s_redisClient s) (db.DEL single) = false ->
        db.unavailable (server.s_redisClient s) (db.DEL multi) = false ->
        let kv' := db.kv (server.s_redisClient (server.onMessage s payload)) in
        kv' = delete multi (delete single (db.kv (server.s_redisClient s)))
        /\ kv' !! single = None /\ kv' !! multi = None)
  /\ (forall (payload : string) (rest : list server.Event),
        UnmarshalRecord payload = None ->
        server.s_redisClient (server.onMessage s payload) = server.s_redisClient s
        /\ server.listenForRecordUpdates s (server.Message payload :: rest)
           = server.listenForRecordUpdates (server.onMessage s payload) rest)
  /\ (forall (payloads : list string) (later : list server.Event),
        server.listenForRecordUpdates s
          (List.map server.Message payloads ++ server.Done :: later)
        = (foldl server.onMessage s payloads, true))
  /\ (forall payloads : list string,
        server.listenForRecordUpdates s (List.map server.Message payloads)
        = (foldl server.onMessage s payloads, false)).
Proof.
  split; [|split; [|split; [|split; [|split; [|split]]]]].
  - intros zone name ty. split; reflexivity.
  - reflexivity.
  - intros r record Hp. unfold db.Redis.PublishRecordUpdate.
    change db.updateChannel with "dns:record:update". rewrite Hp. reflexivity.
  - intros payload record Hdec single multi Hs Hm kv'. subst kv'.
    rewrite (onMessage_deletes s payload record Hdec Hs Hm). fold single. fold multi.
    split; [reflexivity|split].
    + destruct (decide (multi = single)) as [->|Hne].
      * apply lookup_delete_eq.
      * rewrite lookup_delete_ne by exact Hne. apply lookup_delete_eq.
    + apply lookup_delete_eq.
  - intros payload rest Hdec. split; [|reflexivity].
    unfold server.onMessage. rewrite Hdec. reflexivity.
  - intros payloads later. apply listen_until_done.
  - intros payloads. apply listen_pending.
Qed.

Section ClosedExamples3.
#[local] Existing Instance codec.json.
#[local] Existing Instance codec.tables.

(** C9 at the example: the update message of the address record
    empties the subscriber's cache of both keys. *)
Lemma invalidation_protocol_witness :
  let kv' := db.kv (server.s_redisClient
                      (server.onMessage example.subscriber (MarshalRecord example.www))) in
  kv' !! db.singleCacheKey "example.com" "www.example.com" "A" = None
  /\ kv' !! db.multiCacheKey "example.com" "www.example.com" "A" = None.
Proof.
  intros kv'.
  destruct (invalidation_protocol example.subscriber) as (_ & _ & _ & Hrecv & _).
  destruct (Hrecv (MarshalRecord example.www) example.www) as (_ & Hs & Hm);
    [reflexivity | reflexivity | reflexivity |].
  split; [exact Hs | exact Hm].
Defined.

End ClosedExamples3.

(** ** TTL validation on the mutation entry points *)


Section TTL.
Context {J : JSON}.





End TTL.


Section ClosedExamples4.
#[local] Existing Instance codec.json.
#[local] Existing Instance codec.tables.


Example create_defaults_ttl :
  (api.createRecordHandler (example.apiServer ∅ example.store) 1700000000 "example.com"
     (Some (example.mail_request 0))).2
  = (api.StatusCreated,
     api.DataRecord (mkRecord 2 "example.com" "mail.example.com" "A" "192.0.2.25" 120 0)).
Proof. vm_compute. reflexivity. Qed.

End ClosedExamples4.

(** ** The SOA serial manager *)

Section Mutations.
Context {J : JSON}.


Lemma update_success (a a' : api.APIServer) (now : Z) (zoneName : string)
    (recordID : option Z) (body : option api.UpdateData) (b : api.Body) :
  api.updateRecordHandler a now zoneName recordID body = (a', (api.StatusOK, b)) ->
  exists (record : DnsRecord) (d : db.MariaDBClient),
    db.MariaDB.UpdateRecord (api.mariadbClient a) record = Ok d
    /\ b = api.DataRecord record
    /\ a' = api.publish
              (api.invalidate
                 (api.bumpUnlessSOA (api.with_mariadb a d) now zoneName record) record)
              record.
Proof.
  unfold api.updateRecordHandler, api.responseError. intros H.
  cbv zeta in H. repeat step_handler; try discriminate.
  all: injection H as <- <-.
  all: eexists _, _; split; [eassumption|]; split; reflexivity.
Qed.

Lemma delete_success (a a' : api.APIServer) (now : Z) (zoneName : string)
    (recordID : option Z) (b : api.Body) :
  api.deleteRecordHandler a now zoneName recordID = (a', (api.StatusOK, b)) ->
  exists (id : Z) (record : DnsRecord) (d : db.MariaDBClient),
    recordID = Some id
    /\ db.MariaDB.GetRecordByID (api.mariadbClient a) id = Ok (Some record)
    /\ db.MariaDB.DeleteRecord (api.mariadbClient a) id = Ok d
    /\ a' = api.publish
              (api.invalidate
                 (api.bumpUnlessSOA (api.with_mariadb a d) now zoneName record) record)
              record.
Proof.
  unfold api.deleteRecordHandler, api.responseError. intros H.
  repeat step_handler; try discriminate.
  all: injection H as <- <-.
  all: eexists _, _, _; split; [reflexivity|]; split; [eassumption|];
    split; [eassumption | reflexivity].
Qed.


Lemma bumpUnlessSOA_other (a : api.APIServer) (now : Z) (zoneName : string)
    (record : DnsRecord) :
  Type_ record <> models.TypeSOA ->
  api.bumpUnlessSOA a now zoneName record
  = api.warnf_if (api.updateZoneSOASerial a now zoneName).1
      "Failed to update SOA serial" (api.updateZoneSOASerial a now zoneName).2.
Proof.
  intros Hty. unfold api.bumpUnlessSOA.
  destruct (String.eqb_spec (Type_ record) models.TypeSOA) as [E|_]; [congruence|].
  now destruct (api.updateZoneSOASerial a now zoneName).
Qed.


Lemma CreateRecord_rows (d d' : db.MariaDBClient) (record stored : DnsRecord) :
  db.MariaDB.CreateRecord d record = Ok (d', stored) ->
  stored = set_ID record (db.next_id d)
  /\ db.records d' = db.records d ++ [stored]
  /\ db.zones d' = db.zones d /\ db.failing d' = db.failing d.
Proof.
  unfold db.MariaDB.CreateRecord.
  destruct (db.failing d db.InsertRecord); [discriminate|].
  destruct (existsb _ _); [|discriminate].
  intros H. injection H as <- <-. repeat split.
Qed.


End Mutations.


(** ** The codec of the examples inverts itself on SOA payloads *)

Lemma append_assoc (a b c : string) : (a +:+ b) +:+ c = a +:+ (b +:+ c).
Proof.
  induction a as [|x a IH]; [reflexivity|].
  change (String x ((a +:+ b) +:+ c) = String x (a +:+ (b +:+ c))). congruence.
Qed.

Lemma get_put_string (s rest : string) :
  codec.get_string (codec.put_string s +:+ rest) = Some (s, rest).
Proof.
  induction s as [|c s IH]; [reflexivity|].
  change (codec.get_string (String "+" (String c (codec.put_string s +:+ rest)))
          = Some (String c s, rest)).
  cbn [codec.get_string]. now rewrite IH.
Qed.

Lemma get_put_pos (p : positive) (rest : string) :
  codec.get_pos (codec.put_pos p +:+ rest) = Some (p, rest).
Proof.
  induction p as [p IH|p IH|]; [| |reflexivity].
  - change (codec.get_pos (String "1" (codec.put_pos p +:+ rest)) = Some (xI p, rest)).
    cbn [codec.get_pos]. now rewrite IH.
  - change (codec.get_pos (String "0" (codec.put_pos p +:+ rest)) = Some (xO p, rest)).
    cbn [codec.get_pos]. now rewrite IH.
Qed.

Lemma get_put_Z (z : Z) (rest : string) :
  codec.get_Z (codec.put_Z z +:+ rest) = Some (z, rest).
Proof.
  destruct z as [|p|p]; [reflexivity| |].
  - change (codec.get_Z (String "p" (codec.put_pos p +:+ rest)) = Some (Zpos p, rest)).
    cbn [codec.get_Z]. now rewrite get_put_pos.
  - change (codec.get_Z (String "n" (codec.put_pos p +:+ rest)) = Some (Zneg p, rest)).
    cbn [codec.get_Z]. now rewrite get_put_pos.
Qed.

Lemma codec_soa_roundtrip : soa_roundtrip codec.json.
Proof.
  intros [mname rname serial refresh retry expire minimum].
  cbn [UnmarshalSOA MarshalSOA codec.json]. unfold codec.get_soa, codec.put_soa.
  cbn [Mname Rname Serial Refresh Retry Expire Minimum].
  rewrite <- (append_nil_r (codec.put_Z minimum)).
  unfold codec.andThen, codec.whole.
  repeat (first [rewrite get_put_string | rewrite get_put_Z]; cbv beta iota).
  reflexivity.
Qed.


Section Serial.
Context {J : JSON}.
Hypothesis Hrt : soa_roundtrip J.


End Serial.




Section ClosedExamples5.
#[local] Existing Instance codec.json.
#[local] Existing Instance codec.tables.




End ClosedExamples5.

(** ** Invalidation by the mutating instance *)

Section LocalInvalidation.
Context {J : JSON} {T : dns.Tables}.

(** The two deletions of the update and delete handlers. *)
Lemma invalidate_kv (a : api.APIServer) (record : DnsRecord) :
  let single := db.singleCacheKey (Zone record) (Name record) (Type_ record) in
  let multi := db.multiCacheKey (Zone record) (Name record) (Type_ record) in
  db.unavailable (api.redisClient a) (db.DEL single) = false ->
  db.unavailable (api.redisClient a) (db.DEL multi) = false ->
  db.kv (api.redisClient (api.invalidate a record))
  = delete multi (delete single (db.kv (api.redisClient a))).
Proof.
  intros single multi Hs Hm. unfold api.invalidate.
  rewrite Del_kv. fold single. rewrite Hs. cbv beta iota zeta.
  rewrite Del_kv. cbn [db.with_kv db.unavailable db.kv]. fold multi. rewrite Hm.
  reflexivity.
Qed.

Lemma publish_keeps_kv (a : api.APIServer) (record : DnsRecord) :
  db.kv (api.redisClient (api.publish a record)) = db.kv (api.redisClient a)
  /\ db.unavailable (api.redisClient (api.publish a record))
     = db.unavailable (api.redisClient a).
Proof.
  unfold api.publish, db.Redis.PublishRecordUpdate.
  destruct (db.unavailable (api.redisClient a) (db.PUBLISH db.updateChannel));
    split; reflexivity.
Qed.

(** After the update and delete handlers' tail both keys of the record
    miss, so the next read of that (zone, name, type) goes to the
    store. *)
Lemma invalidated_then_miss (a : api.APIServer) (record : DnsRecord) :
  db.unavailable (api.redisClient a)
    (db.DEL (db.singleCacheKey (Zone record) (Name record) (Type_ record))) = false ->
  db.unavailable (api.redisClient a)
    (db.DEL (db.multiCacheKey (Zone record) (Name record) (Type_ record))) = false ->
  cache_miss (api.redisClient (api.publish (api.invalidate a record) record))
    (Zone record) (Name record) (Type_ record).
Proof.
  intros Hs Hm.
  pose proof (invalidate_kv a record Hs Hm) as Hkv. cbv zeta in Hkv.
  destruct (publish_keeps_kv (api.invalidate a record) record) as [Hp _].
  split.
  - intros rs (_ & e & He & _). rewrite Hp, Hkv, lookup_delete_eq in He. discriminate.
  - intros rec (_ & e & He & _). rewrite Hp, Hkv in He.
    destruct (decide (db.multiCacheKey (Zone record) (Name record) (Type_ record)
                      = db.singleCacheKey (Zone record) (Name record) (Type_ record)))
      as [E|Hne].
    + rewrite E, lookup_delete_eq in He. discriminate.
    + rewrite lookup_delete_ne, lookup_delete_eq in He by exact Hne. discriminate.
Qed.

(** ** Cache failures on the read path *)

(** A failed read of both keys is a miss. *)
Lemma failed_read_is_miss (r : db.RedisClient) (zone name : string) (ty : RecordType) :
  db.unavailable r (db.GET (db.multiCacheKey zone name ty)) = true ->
  db.unavailable r (db.GET (db.singleCacheKey zone name ty)) = true ->
  cache_miss r zone name ty.
Proof.
  intros Hm Hs. split.
  - intros rs (Hu & _). congruence.
  - intros rec (Hu & _). congruence.
Qed.

(** A failed write is logged and the records of the store are still
    answered, without an error. *)
Lemma failed_write_is_skipped (h : server.DNSHandler) (m : dns.Msg) (q : dns.Question)
    (zone name : string) (r0 : DnsRecord) (rs : list DnsRecord) :
  let ty := dns.TypeToString (dns.Qtype q) in
  let out := server.handleQuery_in_zone h m q zone name in
  cache_miss (server.redisClient h) zone name ty ->
  db.GetRecordsByNameAndType (server.mariadbClient h) zone name ty = Ok (r0 :: rs) ->
  db.unavailable (server.redisClient h)
    (db.SET (db.multiCacheKey (Zone r0) (Name r0) (Type_ r0))) = true ->
  dns.Answer out.1.2 = dns.Answer m ++ answers q (r0 :: rs)
  /\ out.2 = None
  /\ server.redisClient out.1.1 = server.redisClient h
  /\ In (server.Warnf "Failed to cache records" db.redis_down) (server.logger out.1.1).
Proof.
  intros ty out Hmiss Hstore Hset. subst out.
  rewrite (resolve_miss h m q zone name Hmiss). cbn zeta. fold ty.
  cbn [server.mariadbClient server.with_stats server.redisClient]. rewrite Hstore.
  rewrite SetRecords_kv. cbn zeta. rewrite Hset. rewrite addAnswers_spec.
  cbn [fst snd dns.Answer dns.with_Answer server.redisClient server.with_logger
         server.with_redis server.logger server.warn_if].
  repeat split. apply in_or_app. left. apply in_or_app. right. left. reflexivity.
Qed.

End LocalInvalidation.

Section ClosedExamples6.
#[local] Existing Instance codec.json.
#[local] Existing Instance codec.tables.

(** C6 at a failing input.  The cache holds the record set of
    [www.example.com]; a second address record for the same name is
    created.  The request succeeds and the store holds both records,
    yet [createRecordHandler] deletes neither cache key, and the next
    query on the same instance is answered from the cached set with the
    first address only. *)
Lemma create_leaves_cached_set :
  let key := db.multiCacheKey "example.com" "www.example.com" "A" in
  let cached := db.mkEntry (MarshalRecords [example.www]) 0 in
  let a := example.apiServer (<[key := cached]> ∅) example.store in
  let out := api.createRecordHandler a 1700000100 "example.com"
               (Some (mkRecord 0 EmptyString "www" "A" "192.0.2.2" 3600 0)) in
  let read := server.ServeDNS (api.handler_of out.1 example.stats0)
                (example.request [example.q_www]) in
  out.2 = (api.StatusCreated, api.DataRecord example.www2)
  /\ db.MariaDB.GetRecordsByNameAndType (api.mariadbClient out.1)
       "example.com" "www.example.com" "A" = Ok [example.www; example.www2]
  /\ db.kv (api.redisClient out.1) !! key = Some cached
  /\ dns.Answer read.2 = [example.www_answer "192.0.2.1"]
  /\ server.CacheHits (server.stats read.1) = 1.
Proof.
  cbv zeta. repeat split; vm_compute; reflexivity.
Qed.

(** C7 at a failing input.  The store is unreachable and one question
    is asked: [handleQuery] returns the store's error and [ServeDNS]
    counts a server failure, but the response carries the name-error
    code, because the reply has no answer. *)
Lemma store_failure_answers_name_error :
  let down := db.mkDB example.zones [example.www] 2 (fun _ => true) in
  let out := server.ServeDNS (example.handler ∅ down) (example.request [example.q_www]) in
  (server.handleQuery (example.handler ∅ down) example.reply example.q_www).2
  = Some db.sql_down
  /\ server.ServerFailure (server.stats out.1) = 1
  /\ dns.Answer out.2 = []
  /\ dns.Rcode out.2 = dns.RcodeNameError
  /\ dns.RcodeNameError <> dns.RcodeServerFailure.
Proof.
  cbv zeta. repeat split; try (vm_compute; reflexivity). discriminate.
Qed.


End ClosedExamples6.

(** * Properties of the further code and of how the parts compose *)

(** ** The read path against the SQL store *)

Lemma find_filter_nil {A : Type} (p : A -> bool) (l : list A) :
  List.filter p l = [] -> List.find p l = None.
Proof.
  induction l as [|x l IH]; [reflexivity|]. cbn [List.filter List.find].
  destruct (p x); [discriminate | exact IH].
Qed.

Section ReadPathSQL.
Context {J : JSON} {T : dns.Tables}.

Lemma store_of_records (d : db.MariaDBClient) (zone name : string) (ty : RecordType) :
  db.failing d db.SelectRecords = false ->
  db.GetRecordsByNameAndType (db.store_of d) zone name ty = Ok (selected d zone name ty).
Proof.
  intros Hf. cbn. unfold db.MariaDB.GetRecordsByNameAndType. now rewrite Hf.
Qed.


End ReadPathSQL.

(** X1.  On a miss of both cache keys, with the two record queries of
    the store working, the answers added to the reply are those of the
    rows the store holds for (zone, name, type) at that moment, in table
    order; no error is returned and one miss is counted. *)
Theorem miss_answers_from_store {J : JSON} {T : dns.Tables}
    (d : db.MariaDBClient) (h : server.DNSHandler) (m : dns.Msg) (q : dns.Question)
    (zone name : string) :
  let ty := dns.TypeToString (dns.Qtype q) in
  let out := server.handleQuery_in_zone h m q zone name in
  server.mariadbClient h = db.store_of d ->
  cache_miss (server.redisClient h) zone name ty ->
  db.failing d db.SelectRecords = false ->
  db.failing d db.SelectRecord = false ->
  dns.Answer out.1.2 = dns.Answer m ++ answers q (selected d zone name ty)
  /\ out.2 = None
  /\ server.stats out.1.1 = server.miss (server.stats h).
Proof.
  intros ty out Hd Hmiss Hrs Hr. subst out.
  rewrite (resolve_miss h m q zone name Hmiss). cbn zeta. fold ty.
  cbn [server.mariadbClient server.with_stats server.redisClient].
  rewrite Hd, (store_of_records d zone name ty Hrs).
  destruct (selected d zone name ty) as [|r0 rs] eqn:Hsel.
  - cbn [db.GetRecord db.store_of]. unfold db.MariaDB.GetRecord. rewrite Hr.
    rewrite (find_filter_nil _ _ Hsel). cbn. now rewrite app_nil_r.
  - destruct (db.Redis.SetRecords _ _ _) as [rc' err].
    rewrite addAnswers_spec. repeat split.
Qed.


Section ClosedExamplesA.
#[local] Existing Instance codec.json.
#[local] Existing Instance codec.tables.

Lemma miss_answers_from_store_witness :
  dns.Answer (server.handleQuery_in_zone (example.handler ∅ example.store) example.reply
                example.q_www "example.com" "www.example.com").1.2
  = [example.www_answer "192.0.2.1"].
Proof.
  destruct (miss_answers_from_store example.store (example.handler ∅ example.store)
              example.reply example.q_www "example.com" "www.example.com")
    as (Ha & _); [reflexivity | now apply empty_cache_miss | reflexivity | reflexivity |].
  rewrite Ha. reflexivity.
Defined.


End ClosedExamplesA.

(** ** Answer synthesis *)

Section Synthesis.
Context {J : JSON} {T : dns.Tables}.

Lemma answers_warnings_length (q : dns.Question) (rs : list DnsRecord) :
  (length (answers q rs) + length (warnings q rs) = length rs)%nat.
Proof.
  induction rs as [|r rs IH]; [reflexivity|]. cbn [answers warnings].
  destruct (synthesize r q); cbn [length]; lia.
Qed.

Lemma answered_or_logged (q : dns.Question) (rs : list DnsRecord) (r : DnsRecord) :
  In r rs ->
  (exists rr, synthesize r q = Ok rr /\ In rr (answers q rs))
  \/ (exists e, synthesize r q = Err e
                /\ In (server.Warnf "Failed to add answer from record" e) (warnings q rs)).
Proof.
  induction rs as [|r' rs IH]; [intros []|]. intros [->|Hin].
  - cbn [answers warnings]. destruct (synthesize r q) as [rr|e] eqn:Hs.
    + left. exists rr. split; [reflexivity | now left].
    + right. exists e. split; [reflexivity | now left].
  - destruct (IH Hin) as [(rr & Hs & Hrr)|(e & Hs & He)].
    + left. exists rr. split; [exact Hs|]. cbn [answers].
      destruct (synthesize r' q); [now right | exact Hrr].
    + right. exists e. split; [exact Hs|]. cbn [warnings].
      destruct (synthesize r' q); [exact He | now right].
Qed.

End Synthesis.

(** X3.  The loop over an answer set turns every record into exactly
    one of an answer or a warning: the answers and the log grow together
    by the number of records, what was in the reply and in the log stays
    in front, the response code, the question and the authoritative flag
    of the reply are not touched, and each record is found either among
    the answers or among the warnings with its own error. *)
Theorem every_record_answered_or_logged {J : JSON} {T : dns.Tables}
    (m : dns.Msg) (l : list server.LogLine) (rs : list DnsRecord) (q : dns.Question) :
  let out := server.addAnswers m l rs q in
  dns.Answer out.1 = dns.Answer m ++ answers q rs
  /\ out.2 = l ++ warnings q rs
  /\ (length (answers q rs) + length (warnings q rs) = length rs)%nat
  /\ dns.Rcode out.1 = dns.Rcode m
  /\ dns.Questions out.1 = dns.Questions m
  /\ dns.Authoritative out.1 = dns.Authoritative m
  /\ (forall r, In r rs ->
        (exists rr, synthesize r q = Ok rr /\ In rr (dns.Answer out.1))
        \/ (exists e, synthesize r q = Err e
                      /\ In (server.Warnf "Failed to add answer from record" e) out.2)).
Proof.
  intros out. subst out. rewrite addAnswers_spec.
  cbn [fst snd dns.Answer dns.Rcode dns.Questions dns.Authoritative dns.with_Answer].
  repeat split; try apply answers_warnings_length.
  intros r Hin. destruct (answered_or_logged q rs r Hin) as [(rr & Hs & Hrr)|(e & Hs & He)].
  - left. exists rr. split; [exact Hs | apply in_or_app; now right].
  - right. exists e. split; [exact Hs | apply in_or_app; now right].
Qed.

(** X4.  An answer synthesized for a record carries the name of the
    question as asked, class IN, the type code of the record's own type
    and the record's TTL reduced modulo 2^32 (so within the unsigned
    32-bit range whatever the stored integer is).  Synthesis fails in
    two cases only: the type is none of the ten supported names, with
    the error naming the type, or the type is SOA, SRV or CAA and the
    content does not decode. *)
Theorem answer_header {J : JSON} {T : dns.Tables} (record : DnsRecord) (q : dns.Question) :
  match synthesize record q with
  | Ok rr =>
      type_code (Type_ record) = Some (dns.Rrtype (rr_Hdr rr))
      /\ rr_Hdr rr = dns.mkHdr (dns.q_Name q) (dns.Rrtype (rr_Hdr rr)) dns.ClassINET
                       (TTL record mod 2 ^ 32)
      /\ 0 <= dns.Ttl (rr_Hdr rr) < 2 ^ 32
      /\ decodes record = true
  | Err e =>
      (type_code (Type_ record) = None
       /\ e = "unsupported record type: " +:+ Type_ record)
      \/ (structured (Type_ record) = true /\ decodes record = false)
  end.
Proof.
  assert (Hb : 0 <= TTL record mod 2 ^ 32 < 2 ^ 32) by (apply Z.mod_pos_bound; lia).
  unfold synthesize, server.addAnswerFromRecord, type_code, structured, decodes, uint32.
  unfold models.TypeA, models.TypeAAAA, models.TypeCNAME, models.TypeMX, models.TypeNS,
    models.TypePTR, models.TypeTXT, models.TypeSOA, models.TypeSRV, models.TypeCAA.
  repeat match goal with
         | |- context [String.eqb (Type_ record) ?s] =>
             destruct (String.eqb (Type_ record) s) eqn:?
         end;
    repeat match goal with
           | |- context [UnmarshalSOA ?c] => destruct (UnmarshalSOA c)
           | |- context [UnmarshalSRV ?c] => destruct (UnmarshalSRV c)
           | |- context [UnmarshalCAA ?c] => destruct (UnmarshalCAA c)
           end;
    repeat match goal with
           | H : String.eqb _ _ = true |- _ => apply String.eqb_eq in H
           end;
    try (exfalso; congruence);
    cbn; try (repeat split; first [reflexivity | exact (proj1 Hb) | exact (proj2 Hb)]);
    try (right; split; reflexivity); try (left; split; reflexivity).
Qed.

(** ** The serving loop *)

(** Opens the case analysis of [handleQuery_in_zone]. *)
Ltac crack_query :=
  repeat first
    [ rewrite addAnswers_spec
    | rewrite addAnswerFromRecord_spec
    | match goal with
      | |- context [match ?x with _ => _ end] =>
          lazymatch x with
          | context [match _ with _ => _ end] => fail
          | _ => destruct x eqn:?
          end
      end ].

Section Serving.
Context {J : JSON} {T : dns.Tables}.

Lemma unchanged_answer (m : dns.Msg) :
  exists added, m = dns.with_Answer m (dns.Answer m ++ added).
Proof. exists []. now rewrite app_nil_r, with_Answer_id. Qed.

Lemma in_zone_effect (h : server.DNSHandler) (m : dns.Msg) (q : dns.Question)
    (zone name : string) :
  question_effect h (server.handleQuery_in_zone h m q zone name).1.1 m
    (server.handleQuery_in_zone h m q zone name).1.2.
Proof.
  unfold question_effect, server.handleQuery_in_zone. crack_query.
  all: cbn [fst snd server.stats server.with_stats server.with_logger server.with_redis
              server.mariadbClient server.hit server.miss server.Queries server.NXDomain
              server.ServerFailure server.CacheHits server.CacheMisses].
  all: split; [first [apply unchanged_answer | eexists; reflexivity]|].
  all: repeat split; lia.
Qed.

Lemma handleQuery_effect (h : server.DNSHandler) (m : dns.Msg) (q : dns.Question) :
  question_effect h (server.handleQuery h m q).1.1 m (server.handleQuery h m q).1.2.
Proof.
  unfold server.handleQuery.
  destruct (server.findZone h _) as [zone|e].
  - destruct (String.eqb zone EmptyString); [|apply in_zone_effect].
    unfold question_effect. cbn. split; [apply unchanged_answer | repeat split; lia].
  - unfold question_effect. cbn. split; [apply unchanged_answer | repeat split; lia].
Qed.

(** The loop over the questions of a message. *)
Lemma serveQuestions_effect (qs : list dns.Question) (h : server.DNSHandler) (m : dns.Msg) :
  let out := server.serveQuestions h m qs in
  (exists added, dns.Answer out.2 = dns.Answer m ++ added)
  /\ dns.Authoritative out.2 = dns.Authoritative m
  /\ dns.Questions out.2 = dns.Questions m
  /\ (dns.Rcode out.2 = dns.Rcode m
      /\ server.ServerFailure (server.stats out.1) = server.ServerFailure (server.stats h)
      \/ dns.Rcode out.2 = dns.RcodeServerFailure
         /\ server.ServerFailure (server.stats h) < server.ServerFailure (server.stats out.1))
  /\ server.mariadbClient out.1 = server.mariadbClient h
  /\ server.Queries (server.stats out.1) = server.Queries (server.stats h)
  /\ server.NXDomain (server.stats out.1) = server.NXDomain (server.stats h)
  /\ server.ServerFailure (server.stats out.1)
     <= server.ServerFailure (server.stats h) + Z.of_nat (length qs)
  /\ server.CacheHits (server.stats h) <= server.CacheHits (server.stats out.1)
  /\ server.CacheMisses (server.stats h) <= server.CacheMisses (server.stats out.1)
  /\ server.CacheHits (server.stats out.1) + server.CacheMisses (server.stats out.1)
     <= server.CacheHits (server.stats h) + server.CacheMisses (server.stats h)
        + Z.of_nat (length qs).
Proof.
  revert h m; induction qs as [|q qs IH]; intros h m.
  - cbn. split; [exists []; now rewrite app_nil_r|]. repeat split; try lia. all: try (left; split; reflexivity).
  - cbn [server.serveQuestions].
    pose proof (handleQuery_effect h m q) as He. unfold question_effect in He.
    destruct (server.handleQuery h m q) as [[h1 m1] err]. cbn [fst snd] in He.
    destruct He as ((added & ->) & Hdb & Hq & Hnx & Hsf & Hh & Hm & Hsum).
    destruct err as [e|].
    + specialize (IH (server.with_stats
                        (server.with_logger h1
                           (server.logger h1 ++ [server.Errorf "Error handling query" e]))
                        (server.failure (server.stats h1)))
                     (dns.with_Rcode (dns.with_Answer m (dns.Answer m ++ added))
                        dns.RcodeServerFailure)).
      cbv zeta in IH |- *.
      destruct (server.serveQuestions _ _ qs) as [h2 m2]. cbn [fst snd] in IH |- *.
      cbn [dns.Answer dns.with_Rcode dns.with_Answer dns.Authoritative dns.Questions
             dns.Rcode server.stats server.with_stats server.with_logger
             server.mariadbClient server.failure server.Queries server.NXDomain
             server.ServerFailure server.CacheHits server.CacheMisses] in IH.
      destruct IH as ((added2 & Ha) & Hau & Hqs & Hrc & Hdb2 & Hq2 & Hnx2 & Hsf2 & Hh2
                      & Hm2 & Hsum2).
      split; [exists (added ++ added2); now rewrite Ha, app_assoc|].
      cbn [length]. rewrite Nat2Z.inj_succ.
      repeat split; try congruence; try lia.
      all: try (right; destruct Hrc as [[Hr Hs]|[Hr Hs]]; split; try assumption; lia).
    + specialize (IH h1 (dns.with_Answer m (dns.Answer m ++ added))).
      cbv zeta in IH |- *.
      destruct (server.serveQuestions _ _ qs) as [h2 m2]. cbn [fst snd] in IH |- *.
      cbn [dns.Answer dns.with_Answer dns.Authoritative dns.Questions dns.Rcode] in IH.
      destruct IH as ((added2 & Ha) & Hau & Hqs & Hrc & Hdb2 & Hq2 & Hnx2 & Hsf2 & Hh2
                      & Hm2 & Hsum2).
      split; [exists (added ++ added2); now rewrite Ha, app_assoc|].
      cbn [length]. rewrite Nat2Z.inj_succ.
      repeat split; try congruence; try lia.
      all: try (destruct Hrc as [[Hr Hs]|[Hr Hs]]; [left | right]; split;
                try assumption; lia).
Qed.

End Serving.

(** X5.  One message counts as one query whatever it asks.  Every
    question adds at most one to the sum of cache hits and cache misses
    and at most one server failure, no counter ever decreases, the
    name-error counter moves by one exactly when the reply has no answer,
    and the handler keeps its store client. *)
Theorem serve_counts {J : JSON} {T : dns.Tables} (h : server.DNSHandler) (r : dns.Msg) :
  let out := server.ServeDNS h r in
  let n := Z.of_nat (length (dns.Questions r)) in
  server.Queries (server.stats out.1) = server.Queries (server.stats h) + 1
  /\ server.CacheHits (server.stats h) <= server.CacheHits (server.stats out.1)
  /\ server.CacheMisses (server.stats h) <= server.CacheMisses (server.stats out.1)
  /\ server.CacheHits (server.stats out.1) + server.CacheMisses (server.stats out.1)
     <= server.CacheHits (server.stats h) + server.CacheMisses (server.stats h) + n
  /\ server.ServerFailure (server.stats h) <= server.ServerFailure (server.stats out.1)
     <= server.ServerFailure (server.stats h) + n
  /\ server.NXDomain (server.stats out.1)
     = server.NXDomain (server.stats h)
       + (if (length (dns.Answer out.2) =? 0)%nat then 1 else 0)
  /\ server.mariadbClient out.1 = server.mariadbClient h.
Proof.
  intros out n. subst out n. unfold server.ServeDNS.
  pose proof (serveQuestions_effect (dns.Questions r)
                (server.with_stats h (server.query (server.stats h)))
                (dns.with_Authoritative (dns.SetReply r) true)) as H.
  cbv zeta in H.
  destruct (server.serveQuestions _ _ (dns.Questions r)) as [h1 m1]. cbn [fst snd] in H.
  cbn [server.stats server.with_stats server.query server.mariadbClient server.Queries
         server.NXDomain server.ServerFailure server.CacheHits server.CacheMisses] in H.
  destruct H as (_ & _ & _ & Hrc & Hdb & Hq & Hnx & Hsf & Hh & Hm & Hsum).
  assert (Hsf0 : server.ServerFailure (server.stats h) <= server.ServerFailure (server.stats h1))
    by (destruct Hrc as [[_ ?]|[_ ?]]; lia).
  destruct (length (dns.Answer m1) =? 0)%nat eqn:Hlen.
  - cbn [fst snd server.stats server.with_stats server.nxdomain server.mariadbClient
           server.Queries server.NXDomain server.ServerFailure server.CacheHits
           server.CacheMisses dns.Answer dns.with_Rcode].
    rewrite Hlen. repeat split; try congruence; lia.
  - cbn [fst snd]. rewrite Hlen. repeat split; try congruence; lia.
Qed.

(** X6.  Every response is authoritative and repeats at most the first
    question of the request.  Its code is name-error exactly when it
    carries no answer, whatever happened while the questions were
    handled; with an answer the code is server-failure when some question
    returned an error (a failure was counted) and success otherwise. *)
Theorem response_invariants {J : JSON} {T : dns.Tables} (h : server.DNSHandler)
    (r : dns.Msg) :
  let out := server.ServeDNS h r in
  dns.Authoritative out.2 = true
  /\ dns.Questions out.2 = firstn 1 (dns.Questions r)
  /\ (dns.Rcode out.2 = dns.RcodeNameError <-> dns.Answer out.2 = [])
  /\ (dns.Answer out.2 <> [] ->
      (dns.Rcode out.2 = dns.RcodeSuccess
       /\ server.ServerFailure (server.stats out.1) = server.ServerFailure (server.stats h))
      \/ (dns.Rcode out.2 = dns.RcodeServerFailure
          /\ server.ServerFailure (server.stats h)
             < server.ServerFailure (server.stats out.1))).
Proof.
  intros out. subst out. unfold server.ServeDNS.
  pose proof (serveQuestions_effect (dns.Questions r)
                (server.with_stats h (server.query (server.stats h)))
                (dns.with_Authoritative (dns.SetReply r) true)) as H.
  cbv zeta in H.
  destruct (server.serveQuestions _ _ (dns.Questions r)) as [h1 m1]. cbn [fst snd] in H.
  cbn [server.stats server.with_stats server.query server.ServerFailure
         dns.Authoritative dns.with_Authoritative dns.SetReply dns.Questions dns.Rcode] in H.
  destruct H as (_ & Hau & Hqs & Hrc & _).
  destruct (length (dns.Answer m1) =? 0)%nat eqn:Hlen.
  - apply Nat.eqb_eq in Hlen. apply length_zero_iff_nil in Hlen.
    cbn [fst snd dns.Authoritative dns.Questions dns.Rcode dns.Answer dns.with_Rcode].
    repeat split; try assumption; try reflexivity; intros; congruence.
  - apply Nat.eqb_neq in Hlen.
    assert (Hne : dns.Answer m1 <> []) by (intros E; rewrite E in Hlen; now apply Hlen).
    cbn [fst snd]. repeat split; try assumption.
    + intros Hr. exfalso.
      destruct Hrc as [[Hr' _]|[Hr' _]]; rewrite Hr' in Hr; discriminate.
    + intros E. contradiction.
    + intros _. destruct Hrc as [[Hr Hs]|[Hr Hs]]; [left | right]; split; assumption.
Qed.

Section Unowned.
Context {J : JSON} {T : dns.Tables}.

Lemma unowned_questions (qs : list dns.Question) (h : server.DNSHandler) (m : dns.Msg) :
  (forall q, In q qs ->
     forall c, In c (candidates (strings.TrimSuffix (dns.q_Name q))) ->
       db.GetZone (server.mariadbClient h) c = Ok None) ->
  server.serveQuestions h m qs = (h, m).
Proof.
  induction qs as [|q qs IH]; intros Hall; [reflexivity|].
  cbn [server.serveQuestions]. unfold server.handleQuery, server.findZone.
  rewrite (findZone_from_none (server.mariadbClient h)) by (apply Hall; now left).
  cbn. apply IH. intros q' Hq'. apply Hall. now right.
Qed.

End Unowned.

(** X7.  When no candidate zone of any question of a message is a
    stored zone, the response is the empty authoritative reply with the
    name-error code; the cache is neither read nor written, nothing is
    logged, and only the query and name-error counters move. *)
Theorem unowned_name_is_name_error {J : JSON} {T : dns.Tables} (h : server.DNSHandler)
    (r : dns.Msg) :
  (forall q, In q (dns.Questions r) ->
     forall c, In c (candidates (strings.TrimSuffix (dns.q_Name q))) ->
       db.GetZone (server.mariadbClient h) c = Ok None) ->
  server.ServeDNS h r
  = (server.with_stats h (server.nxdomain (server.query (server.stats h))),
     dns.mkMsg (firstn 1 (dns.Questions r)) [] dns.RcodeNameError true).
Proof.
  intros Hall. unfold server.ServeDNS.
  rewrite unowned_questions by exact Hall. reflexivity.
Qed.

Section ClosedExamplesB.
#[local] Existing Instance codec.json.
#[local] Existing Instance codec.tables.

Lemma unowned_name_is_name_error_witness :
  let q := dns.mkQuestion "www.example.org." dns.TypeA in
  server.ServeDNS (example.handler ∅ example.store) (example.request [q])
  = (server.with_stats (example.handler ∅ example.store) (server.mkStats 1 0 0 1 0),
     dns.mkMsg [q] [] dns.RcodeNameError true).
Proof.
  intros q.
  rewrite (unowned_name_is_name_error (example.handler ∅ example.store)
             (example.request [q])); [reflexivity|].
  intros q' [<-|[]] c Hc. cbn in Hc.
  repeat (destruct Hc as [<-|Hc]; [reflexivity|]). destruct Hc.
Defined.

End ClosedExamplesB.

(** ** The subscriber and the mutating instance together *)

Section Bus.
Context {J : JSON}.

Lemma Del_frame (r : db.RedisClient) (key : string) :
  db.kv (db.Redis.Del r key).1 ⊆ db.kv r
  /\ (forall k, k <> key -> db.kv (db.Redis.Del r key).1 !! k = db.kv r !! k)
  /\ db.published (db.Redis.Del r key).1 = db.published r
  /\ db.unavailable (db.Redis.Del r key).1 = db.unavailable r
  /\ db.cfg (db.Redis.Del r key).1 = db.cfg r.
Proof.
  rewrite Del_kv. destruct (db.unavailable r (db.DEL key)); cbn; repeat split; try done.
  - apply delete_subseteq.
  - intros k Hk. now apply lookup_delete_ne.
Qed.

Lemma onMessage_frame (s : server.DNSServer) (payload : string) :
  db.kv (server.s_redisClient (server.onMessage s payload)) ⊆ db.kv (server.s_redisClient s)
  /\ db.published (server.s_redisClient (server.onMessage s payload))
     = db.published (server.s_redisClient s)
  /\ db.unavailable (server.s_redisClient (server.onMessage s payload))
     = db.unavailable (server.s_redisClient s)
  /\ db.cfg (server.s_redisClient (server.onMessage s payload))
     = db.cfg (server.s_redisClient s)
  /\ (forall k,
        (forall record, UnmarshalRecord payload = Some record ->
           k <> db.singleCacheKey (Zone record) (Name record) (Type_ record)
           /\ k <> db.multiCacheKey (Zone record) (Name record) (Type_ record)) ->
        db.kv (server.s_redisClient (server.onMessage s payload)) !! k
        = db.kv (server.s_redisClient s) !! k).
Proof.
  unfold server.onMessage. destruct (UnmarshalRecord payload) as [record|]; [|done].
  pose proof (Del_frame (server.s_redisClient s)
                (db.singleCacheKey (Zone record) (Name record) (Type_ record)))
    as (Hs1 & Hk1 & Hp1 & Hu1 & Hc1).
  destruct (db.Redis.Del (server.s_redisClient s) _) as [rc1 e1]. cbn [fst] in *.
  pose proof (Del_frame rc1 (db.multiCacheKey (Zone record) (Name record) (Type_ record)))
    as (Hs2 & Hk2 & Hp2 & Hu2 & Hc2).
  destruct (db.Redis.Del rc1 _) as [rc2 e2]. cbn [fst server.s_redisClient] in *.
  repeat split; try congruence.
  - etransitivity; eassumption.
  - intros k Hk. destruct (Hk record eq_refl) as [Hn1 Hn2].
    now rewrite Hk2, Hk1.
Qed.

Lemma listen_frame (events : list server.Event) (s : server.DNSServer) :
  db.kv (server.s_redisClient (server.listenForRecordUpdates s events).1)
    ⊆ db.kv (server.s_redisClient s)
  /\ db.published (server.s_redisClient (server.listenForRecordUpdates s events).1)
     = db.published (server.s_redisClient s)
  /\ (forall k,
        (forall payload record,
           In (server.Message payload) events -> UnmarshalRecord payload = Some record ->
           k <> db.singleCacheKey (Zone record) (Name record) (Type_ record)
           /\ k <> db.multiCacheKey (Zone record) (Name record) (Type_ record)) ->
        db.kv (server.s_redisClient (server.listenForRecordUpdates s events).1) !! k
        = db.kv (server.s_redisClient s) !! k).
Proof.
  revert s; induction events as [|ev events IH]; intros s; [done|].
  destruct ev as [|payload]; [done|]. cbn [server.listenForRecordUpdates].
  destruct (IH (server.onMessage s payload)) as (Hsub & Hpub & Hk).
  destruct (onMessage_frame s payload) as (Hsub1 & Hpub1 & _ & _ & Hk1).
  repeat split.
  - etransitivity; eassumption.
  - congruence.
  - intros k Hall. rewrite Hk, Hk1; [reflexivity | |].
    + intros record Hdec. apply (Hall payload record); [now left | exact Hdec].
    + intros p record Hin Hdec. apply (Hall p record); [now right | exact Hdec].
Qed.

Lemma listen_app (es1 es2 : list server.Event) (s : server.DNSServer) :
  server.listenForRecordUpdates s (es1 ++ es2)
  = if (server.listenForRecordUpdates s es1).2
    then server.listenForRecordUpdates s es1
    else server.listenForRecordUpdates (server.listenForRecordUpdates s es1).1 es2.
Proof.
  revert s; induction es1 as [|ev es1 IH]; intros s; [reflexivity|].
  destruct ev as [|payload]; [reflexivity|]. cbn [app server.listenForRecordUpdates].
  apply IH.
Qed.

End Bus.

(** X8.  The subscriber loop only ever deletes: whatever events it
    takes, every entry of the cache afterwards was there before with the
    same value, nothing is published, and a key that is neither key shape
    of any record received keeps its entry. *)
Theorem subscriber_only_deletes {J : JSON} (s : server.DNSServer)
    (events : list server.Event) :
  let s' := (server.listenForRecordUpdates s events).1 in
  (forall k e, db.kv (server.s_redisClient s') !! k = Some e ->
               db.kv (server.s_redisClient s) !! k = Some e)
  /\ db.published (server.s_redisClient s') = db.published (server.s_redisClient s)
  /\ (forall k,
        (forall payload record,
           In (server.Message payload) events -> UnmarshalRecord payload = Some record ->
           k <> db.singleCacheKey (Zone record) (Name record) (Type_ record)
           /\ k <> db.multiCacheKey (Zone record) (Name record) (Type_ record)) ->
        db.kv (server.s_redisClient s') !! k = db.kv (server.s_redisClient s) !! k).
Proof.
  intros s'. subst s'. destruct (listen_frame events s) as (Hsub & Hpub & Hk).
  split; [|split; [exact Hpub | exact Hk]].
  intros k e He. eapply lookup_weaken; eassumption.
Qed.

(** X9.  The loop handles a sequence of events as it handles its two
    halves in turn: when it has returned within the first half the second
    is never looked at, and otherwise it goes on with the second half
    from the state the first one left. *)
Theorem subscriber_loop_composes {J : JSON} (s : server.DNSServer)
    (es1 es2 : list server.Event) :
  ((server.listenForRecordUpdates s es1).2 = true ->
   server.listenForRecordUpdates s (es1 ++ es2) = server.listenForRecordUpdates s es1)
  /\ ((server.listenForRecordUpdates s es1).2 = false ->
      server.listenForRecordUpdates s (es1 ++ es2)
      = server.listenForRecordUpdates (server.listenForRecordUpdates s es1).1 es2)
  /\ ((server.listenForRecordUpdates s es1).2 = true <-> In server.Done es1).
Proof.
  rewrite listen_app. split; [intros ->; reflexivity|]. split; [intros ->; reflexivity|].
  revert s; induction es1 as [|ev es1 IH]; intros s.
  - cbn. split; [discriminate | tauto].
  - destruct ev as [|payload].
    + cbn. split; auto.
    + cbn [server.listenForRecordUpdates]. rewrite IH. cbn.
      split; [auto | intros [E|H]; [discriminate | exact H]].
Qed.

(** X10.  The message a mutation publishes is enough for any
    subscriber: once [PublishRecordUpdate] has gone through, a subscriber
    that takes the published payload (its cache accepting the deletions,
    and the encoded record decoding to itself) holds neither key shape of
    the mutated record any more, and keeps every other entry. *)
Theorem published_update_invalidates {J : JSON} (a : api.APIServer) (record : DnsRecord)
    (s : server.DNSServer) :
  let single := db.singleCacheKey (Zone record) (Name record) (Type_ record) in
  let multi := db.multiCacheKey (Zone record) (Name record) (Type_ record) in
  db.unavailable (api.redisClient a) (db.PUBLISH db.updateChannel) = false ->
  UnmarshalRecord (MarshalRecord record) = Some record ->
  db.unavailable (server.s_redisClient s) (db.DEL single) = false ->
  db.unavailable (server.s_redisClient s) (db.DEL multi) = false ->
  exists payload,
    db.published (api.redisClient (api.publish a record))
    = db.published (api.redisClient a) ++ [(db.updateChannel, payload)]
    /\ db.kv (server.s_redisClient (server.onMessage s payload)) !! single = None
    /\ db.kv (server.s_redisClient (server.onMessage s payload)) !! multi = None
    /\ (forall k, k <> single -> k <> multi ->
          db.kv (server.s_redisClient (server.onMessage s payload)) !! k
          = db.kv (server.s_redisClient s) !! k).
Proof.
  intros single multi Hpub Hrt Hs Hm. exists (MarshalRecord record).
  split.
  - unfold api.publish, db.Redis.PublishRecordUpdate. now rewrite Hpub.
  - rewrite (onMessage_deletes s (MarshalRecord record) record Hrt Hs Hm).
    fold single. fold multi. split; [|split].
    + destruct (decide (multi = single)) as [->|Hne]; [apply lookup_delete_eq|].
      rewrite lookup_delete_ne by exact Hne. apply lookup_delete_eq.
    + apply lookup_delete_eq.
    + intros k Hk1 Hk2. rewrite !lookup_delete_ne by congruence. reflexivity.
Qed.

Section ClosedExamplesC.
#[local] Existing Instance codec.json.
#[local] Existing Instance codec.tables.

Lemma published_update_invalidates_witness :
  exists payload,
    db.published (api.redisClient
                    (api.publish (example.apiServer ∅ example.store) example.www))
    = [(db.updateChannel, payload)]
    /\ db.kv (server.s_redisClient (server.onMessage example.subscriber payload))
         !! db.multiCacheKey "example.com" "www.example.com" "A" = None.
Proof.
  destruct (published_update_invalidates (example.apiServer ∅ example.store) example.www
              example.subscriber) as (payload & Hp & _ & Hm & _);
    [reflexivity | reflexivity | reflexivity | reflexivity |].
  exists payload. split; [exact Hp | exact Hm].
Defined.

End ClosedExamplesC.

(** ** The mutation handlers *)

Section MutationDetails.
Context {J : JSON}.

Lemma failed_bump_returns_input (a : api.APIServer) (now : Z) (zoneName : string) (e : error) :
  (api.updateZoneSOASerial a now zoneName).2 = Some e ->
  (api.updateZoneSOASerial a now zoneName).1 = a.
Proof.
  unfold api.updateZoneSOASerial, api.createDefaultSOARecord.
  destruct (db.MariaDB.GetRecordsByNameAndType _ _ _ _) as [[|soaRecord rest]|e1];
    [| |reflexivity].
  - destruct (db.MariaDB.CreateRecord _ _) as [[d st]|e1]; [discriminate | reflexivity].
  - destruct (UnmarshalSOA _) as [soaData|]; [|reflexivity].
    destruct (db.MariaDB.UpdateRecord _ _) as [d|e1]; [|reflexivity].
    cbv zeta. destruct (db.Redis.Del _ _) as [rc ?]. destruct (db.Redis.Del rc _).
    discriminate.
Qed.

Lemma create_stored (a a' : api.APIServer) (now : Z) (zoneName : string)
    (body : DnsRecord) (b : api.Body) :
  api.createRecordHandler a now zoneName (Some body) = (a', (api.StatusCreated, b)) ->
  let stored :=
    mkRecord (db.next_id (api.mariadbClient a)) zoneName (qualified (Name body) zoneName)
      (Type_ body) (Content body) (if Z.leb (TTL body) 0 then 120 else TTL body)
      (Priority body) in
  b = api.DataRecord stored
  /\ Name body <> EmptyString /\ Type_ body <> EmptyString /\ Content body <> EmptyString
  /\ exists d, db.MariaDB.CreateRecord (api.mariadbClient a) (set_ID stored (ID body))
               = Ok (d, stored)
               /\ db.records d = db.records (api.mariadbClient a) ++ [stored].
Proof.
  unfold api.createRecordHandler, api.responseError, qualified. intros H.
  cbv zeta in H. repeat step_handler; try discriminate.
  all: injection H as <- <-.
  all: cbn [Name Type_ Content TTL Priority ID Zone set_TTL set_Name set_Zone] in *.
  all: match goal with
       | Hc : db.MariaDB.CreateRecord _ ?r0 = Ok (?d, ?st) |- _ =>
           destruct (CreateRecord_rows _ _ _ _ Hc) as (Hst & Hrows & _ & _); subst st
       end.
  all: repeat match goal with
         | Hb : ?t = true |- context [?t] => rewrite Hb
         | Hb : ?t = false |- context [?t] => rewrite Hb
         end.
  all: repeat match goal with
         | Hb : String.eqb _ _ = false |- _ => apply String.eqb_neq in Hb
         end.
  all: split; [reflexivity|].
  all: repeat (split; [assumption|]).
  all: eexists; split; [eassumption | exact Hrows].
Qed.

End MutationDetails.

Section MutationDetails2.
Context {J : JSON}.

Lemma update_stored (a a' : api.APIServer) (now : Z) (zoneName : string)
    (recordID : option Z) (u : api.UpdateData) (b : api.Body) :
  api.updateRecordHandler a now zoneName recordID (Some u) = (a', (api.StatusOK, b)) ->
  exists (id : Z) (old : DnsRecord) (d : db.MariaDBClient),
    recordID = Some id
    /\ db.MariaDB.GetRecordByID (api.mariadbClient a) id = Ok (Some old)
    /\ Zone old = zoneName
    /\ let record :=
         mkRecord (ID old) (Zone old) (Name old) (Type_ old)
           (if String.eqb (api.u_Content u) EmptyString then Content old
            else api.u_Content u)
           (if Z.ltb 0 (api.u_TTL u) then api.u_TTL u else TTL old)
           (api.u_Priority u) in
       b = api.DataRecord record
       /\ db.MariaDB.UpdateRecord (api.mariadbClient a) record = Ok d.
Proof.
  unfold api.updateRecordHandler, api.responseError. intros H.
  cbv zeta in H. repeat step_handler; try discriminate.
  all: injection H as <- <-.
  all: eexists _, _, _; split; [reflexivity|]; split; [eassumption|].
  all: cbn [Name Type_ Content TTL Priority ID Zone set_TTL set_Content set_Priority] in *.
  all: repeat match goal with
         | Hb : negb ?t = true |- _ => apply negb_true_iff in Hb
         | Hb : negb ?t = false |- _ => apply negb_false_iff in Hb
         end.
  all: repeat match goal with
         | Hb : ?t = true |- context [?t] => rewrite Hb
         | Hb : ?t = false |- context [?t] => rewrite Hb
         end.
  all: match goal with
       | Hz : String.eqb (Zone _) _ = true |- _ => apply String.eqb_eq in Hz
       end.
  all: split; [assumption|]; split; [reflexivity|].
  all: match goal with
       | Hu : db.MariaDB.UpdateRecord _ _ = Ok _ |- _ => exact Hu
       end.
Qed.

Lemma update_foreign (a : api.APIServer) (now : Z) (zoneName : string) (id : Z)
    (u : api.UpdateData) (z : ZoneRow) (old : DnsRecord) :
  db.MariaDB.GetZone (api.mariadbClient a) zoneName = Ok (Some z) ->
  db.MariaDB.GetRecordByID (api.mariadbClient a) id = Ok (Some old) ->
  Zone old <> zoneName ->
  api.updateRecordHandler a now zoneName (Some id) (Some u)
  = (a, (api.StatusBadRequest,
         api.ErrorMessage "Record does not belong to the specified zone")).
Proof.
  intros Hz Hr Hne. unfold api.updateRecordHandler. rewrite Hz, Hr.
  apply String.eqb_neq in Hne. now rewrite Hne.
Qed.

Lemma delete_any_zone (a : api.APIServer) (now : Z) (zoneName : string) (id : Z)
    (z : ZoneRow) (record : DnsRecord) :
  db.MariaDB.GetZone (api.mariadbClient a) zoneName = Ok (Some z) ->
  db.MariaDB.GetRecordByID (api.mariadbClient a) id = Ok (Some record) ->
  db.failing (api.mariadbClient a) db.DeleteRecordStmt = false ->
  let d := db.with_records (api.mariadbClient a)
             (List.filter (fun r => negb (Z.eqb (ID r) id))
                (db.records (api.mariadbClient a)))
             (db.next_id (api.mariadbClient a)) in
  api.deleteRecordHandler a now zoneName (Some id)
  = (api.publish
       (api.invalidate (api.bumpUnlessSOA (api.with_mariadb a d) now zoneName record) record)
       record,
     (api.StatusOK, api.DataMessage "Record deleted successfully")).
Proof.
  intros Hz Hr Hf d. unfold api.deleteRecordHandler. rewrite Hz, Hr.
  unfold db.MariaDB.DeleteRecord. rewrite Hf. reflexivity.
Qed.

End MutationDetails2.

(** X11.  A serial update that reports an error has changed nothing:
    the server it returns is the one it was given.  The handler then
    only adds the warning "Failed to update SOA serial" with that error
    to the log and goes on, so the mutation's own store write stands. *)
Theorem failed_bump_changes_nothing {J : JSON} (a : api.APIServer) (now : Z)
    (zoneName : string) (e : error) :
  (api.updateZoneSOASerial a now zoneName).2 = Some e ->
  (api.updateZoneSOASerial a now zoneName).1 = a
  /\ forall record, Type_ record <> models.TypeSOA ->
       api.bumpUnlessSOA a now zoneName record
       = api.with_logger a
           (api.logger a ++ [server.Warnf "Failed to update SOA serial" e]).
Proof.
  intros He. pose proof (failed_bump_returns_input a now zoneName e He) as Ha.
  split; [exact Ha|]. intros record Hty.
  rewrite (bumpUnlessSOA_other a now zoneName record Hty), Ha, He. reflexivity.
Qed.

(** X12.  What a successful creation stores: the zone of the request
    path (the zone of the body is ignored), the id the store assigns (the
    id of the body is ignored), the requested name qualified ("@" is the
    zone itself, a name without a dot gets the zone appended, a dotted
    name is kept as it is), type, content and priority as requested and
    the TTL after defaulting; name, type and content are not empty.  The
    row is appended to the table. *)
Theorem create_stores_qualified_record {J : JSON} (a a' : api.APIServer) (now : Z)
    (zoneName : string) (body : DnsRecord) (b : api.Body) :
  api.createRecordHandler a now zoneName (Some body) = (a', (api.StatusCreated, b)) ->
  let stored :=
    mkRecord (db.next_id (api.mariadbClient a)) zoneName (qualified (Name body) zoneName)
      (Type_ body) (Content body) (if Z.leb (TTL body) 0 then 120 else TTL body)
      (Priority body) in
  b = api.DataRecord stored
  /\ Name body <> EmptyString /\ Type_ body <> EmptyString /\ Content body <> EmptyString
  /\ exists d, db.MariaDB.CreateRecord (api.mariadbClient a) (set_ID stored (ID body))
               = Ok (d, stored)
               /\ db.records d = db.records (api.mariadbClient a) ++ [stored].
Proof. apply create_stored. Qed.

(** X13.  A successful update touches content, TTL and priority only:
    the record keeps its id, zone, name and type (the name of the request
    is ignored); an empty content keeps the stored content, a TTL of zero
    or less keeps the stored TTL, and the priority is always replaced by
    the requested one (zero when the request has none).  A record of
    another zone than the one of the request path is refused with status
    400 and nothing changes. *)
Theorem update_semantics {J : JSON} (a : api.APIServer) (now : Z) (zoneName : string) :
  (forall recordID u a' b,
     api.updateRecordHandler a now zoneName recordID (Some u) = (a', (api.StatusOK, b)) ->
     exists (id : Z) (old : DnsRecord) (d : db.MariaDBClient),
       recordID = Some id
       /\ db.MariaDB.GetRecordByID (api.mariadbClient a) id = Ok (Some old)
       /\ Zone old = zoneName
       /\ let record :=
            mkRecord (ID old) (Zone old) (Name old) (Type_ old)
              (if String.eqb (api.u_Content u) EmptyString then Content old
               else api.u_Content u)
              (if Z.ltb 0 (api.u_TTL u) then api.u_TTL u else TTL old)
              (api.u_Priority u) in
          b = api.DataRecord record
          /\ db.MariaDB.UpdateRecord (api.mariadbClient a) record = Ok d)
  /\ (forall id u z old,
        db.MariaDB.GetZone (api.mariadbClient a) zoneName = Ok (Some z) ->
        db.MariaDB.GetRecordByID (api.mariadbClient a) id = Ok (Some old) ->
        Zone old <> zoneName ->
        api.updateRecordHandler a now zoneName (Some id) (Some u)
        = (a, (api.StatusBadRequest,
               api.ErrorMessage "Record does not belong to the specified zone"))).
Proof.
  split.
  - intros recordID u a' b. apply update_stored.
  - intros id u z old. apply (update_foreign a now zoneName id u z old).
Qed.

(** X14.  [deleteRecordHandler] does not compare the zone of the record
    with the zone of the request path: when that zone exists and the id
    names a record of any zone, the record is deleted, the response is
    200, and the serial update runs for the zone of the path while the
    cache keys deleted and the message published are those of the
    record. *)
Theorem delete_ignores_record_zone {J : JSON} (a : api.APIServer) (now : Z)
    (zoneName : string) (id : Z) (z : ZoneRow) (record : DnsRecord) :
  db.MariaDB.GetZone (api.mariadbClient a) zoneName = Ok (Some z) ->
  db.MariaDB.GetRecordByID (api.mariadbClient a) id = Ok (Some record) ->
  db.failing (api.mariadbClient a) db.DeleteRecordStmt = false ->
  let d := db.with_records (api.mariadbClient a)
             (List.filter (fun r => negb (Z.eqb (ID r) id))
                (db.records (api.mariadbClient a)))
             (db.next_id (api.mariadbClient a)) in
  api.deleteRecordHandler a now zoneName (Some id)
  = (api.publish
       (api.invalidate (api.bumpUnlessSOA (api.with_mariadb a d) now zoneName record) record)
       record,
     (api.StatusOK, api.DataMessage "Record deleted successfully"))
  /\ ~ In record (db.records d).
Proof.
  intros Hz Hr Hf d. split; [exact (delete_any_zone a now zoneName id z record Hz Hr Hf)|].
  intros Hin. apply filter_In in Hin as [_ Hid].
  unfold db.MariaDB.GetRecordByID in Hr.
  destruct (db.failing (api.mariadbClient a) db.SelectRecordByID); [discriminate|].
  injection Hr as Hr. apply find_some in Hr as [_ Hr]. now rewrite Hr in Hid.
Qed.

Section ClosedExamplesD.
#[local] Existing Instance codec.json.
#[local] Existing Instance codec.tables.

Lemma failed_bump_changes_nothing_witness :
  let a := example.apiServer ∅ (db.mkDB example.zones [example.www; example.bad_soa] 10
                                  example.healthy) in
  api.bumpUnlessSOA a 1700000100 "example.com" example.www
  = api.with_logger a
      [server.Warnf "Failed to update SOA serial" "failed to parse SOA record"].
Proof.
  intros a.
  destruct (failed_bump_changes_nothing a 1700000100 "example.com"
              "failed to parse SOA record") as (_ & H); [reflexivity|].
  apply H. discriminate.
Defined.

Lemma create_stores_qualified_record_witness :
  let out := api.createRecordHandler (example.apiServer ∅ example.store) 1700000100
               "example.com" (Some (example.mail_request 0)) in
  out.2.2 = api.DataRecord
              (mkRecord 2 "example.com" "mail.example.com" "A" "192.0.2.25" 120 0).
Proof.
  intros out.
  destruct (create_stores_qualified_record (example.apiServer ∅ example.store) out.1
              1700000100 "example.com" (example.mail_request 0) out.2.2) as (Hb & _);
    [reflexivity | exact Hb].
Defined.

Lemma delete_ignores_record_zone_witness :
  (api.deleteRecordHandler (example.apiServer ∅ example.store) 1700000100
     "sub.example.com" (Some 1)).2
  = (api.StatusOK, api.DataMessage "Record deleted successfully")
  /\ Zone example.www = "example.com".
Proof.
  destruct (delete_ignores_record_zone (example.apiServer ∅ example.store) 1700000100
              "sub.example.com" 1 (mkZone 2 "sub.example.com") example.www) as (H & _);
    [reflexivity | reflexivity | reflexivity |].
  rewrite H. split; reflexivity.
Defined.

End ClosedExamplesD.

(** ** Reading after an update or a delete *)

Section AfterMutation.
Context {J : JSON}.

Lemma bump_keeps_unavailable (a : api.APIServer) (now : Z) (zoneName : string)
    (record : DnsRecord) :
  db.unavailable (api.redisClient (api.bumpUnlessSOA a now zoneName record))
  = db.unavailable (api.redisClient a).
Proof.
  unfold api.bumpUnlessSOA. destruct (String.eqb _ _); [reflexivity|].
  unfold api.updateZoneSOASerial, api.createDefaultSOARecord.
  destruct (db.MariaDB.GetRecordsByNameAndType _ _ _ _) as [[|soaRecord rest]|e];
    [| |reflexivity].
  - destruct (db.MariaDB.CreateRecord _ _) as [[d st]|e]; reflexivity.
  - destruct (UnmarshalSOA _) as [soaData|]; [|reflexivity].
    destruct (db.MariaDB.UpdateRecord _ _) as [d|e]; [|reflexivity].
    cbv zeta. cbn [api.redisClient api.with_mariadb].
    pose proof (Del_frame (api.redisClient a)
                  (db.singleCacheKey (Zone (set_Content soaRecord
                     (MarshalSOA (set_Serial soaData (uint32 now)))))
                     (Name (set_Content soaRecord
                        (MarshalSOA (set_Serial soaData (uint32 now)))))
                     (Type_ (set_Content soaRecord
                        (MarshalSOA (set_Serial soaData (uint32 now)))))))
      as (_ & _ & _ & Hu1 & _).
    destruct (db.Redis.Del (api.redisClient a) _) as [rc1 e1]. cbn [fst] in Hu1.
    pose proof (Del_frame rc1
                  (db.multiCacheKey (Zone (set_Content soaRecord
                     (MarshalSOA (set_Serial soaData (uint32 now)))))
                     (Name (set_Content soaRecord
                        (MarshalSOA (set_Serial soaData (uint32 now)))))
                     (Type_ (set_Content soaRecord
                        (MarshalSOA (set_Serial soaData (uint32 now)))))))
      as (_ & _ & _ & Hu2 & _).
    destruct (db.Redis.Del rc1 _) as [rc2 e2]. cbn [fst] in Hu2.
    cbn. congruence.
Qed.

End AfterMutation.

(** X15.  After a successful update or delete whose two cache
    deletions are accepted, the same instance holds neither cache key of
    the record: the next read of the record's zone, name and type is a
    miss of both keys, so it is answered from the store. *)
Theorem update_delete_then_miss {J : JSON} (a a' : api.APIServer) (now : Z)
    (zoneName : string) (recordID : option Z) (b : api.Body) :
  (forall record,
     db.unavailable (api.redisClient a)
       (db.DEL (db.singleCacheKey (Zone record) (Name record) (Type_ record))) = false
     /\ db.unavailable (api.redisClient a)
          (db.DEL (db.multiCacheKey (Zone record) (Name record) (Type_ record))) = false) ->
  (forall body,
     api.updateRecordHandler a now zoneName recordID body = (a', (api.StatusOK, b)) ->
     exists record,
       b = api.DataRecord record
       /\ cache_miss (api.redisClient a') (Zone record) (Name record) (Type_ record))
  /\ (api.deleteRecordHandler a now zoneName recordID = (a', (api.StatusOK, b)) ->
      exists id record,
        recordID = Some id
        /\ db.MariaDB.GetRecordByID (api.mariadbClient a) id = Ok (Some record)
        /\ cache_miss (api.redisClient a') (Zone record) (Name record) (Type_ record)).
Proof.
  intros Hdel. split.
  - intros body H. destruct (update_success a a' now zoneName recordID body b H)
      as (record & d & _ & -> & ->).
    exists record. split; [reflexivity|].
    apply invalidated_then_miss; rewrite bump_keeps_unavailable; apply Hdel.
  - intros H. destruct (delete_success a a' now zoneName recordID b H)
      as (id & record & d & -> & Hget & _ & ->).
    exists id, record. split; [reflexivity|]. split; [exact Hget|].
    apply invalidated_then_miss; rewrite bump_keeps_unavailable; apply Hdel.
Qed.

Section ClosedExamplesE.
#[local] Existing Instance codec.json.
#[local] Existing Instance codec.tables.

Lemma update_delete_then_miss_witness :
  let kv : gmap string db.Entry :=
    <[db.multiCacheKey "example.com" "www.example.com" "A"
      := db.mkEntry (MarshalRecords [example.www]) 0]> ∅ in
  let out := api.updateRecordHandler (example.apiServer kv example.store) 1700000100
               "example.com" (Some 1) (Some (api.mkUpdateData "" "192.0.2.9" 0 0)) in
  exists record,
    out.2.2 = api.DataRecord record
    /\ cache_miss (api.redisClient out.1) (Zone record) (Name record) (Type_ record).
Proof.
  intros kv out.
  destruct (update_delete_then_miss (example.apiServer kv example.store) out.1 1700000100
              "example.com" (Some 1) out.2.2) as (Hupd & _).
  - intros record. split; reflexivity.
  - apply (Hupd (Some (api.mkUpdateData "" "192.0.2.9" 0 0))). reflexivity.
Defined.

End ClosedExamplesE.

(** ** The records table *)

Lemma NoDup_map_filter {A B : Type} (f : A -> B) (p : A -> bool) (l : list A) :
  List.NoDup (List.map f l) -> List.NoDup (List.map f (List.filter p l)).
Proof.
  induction l as [|x l IH]; [trivial|]. cbn [List.map List.filter].
  intros Hnd. apply List.NoDup_cons_iff in Hnd as [Hx Hl].
  destruct (p x); [|now apply IH]. cbn [List.map]. apply List.NoDup_cons_iff. split; [|now apply IH].
  intros Hin. apply Hx. apply in_map_iff in Hin as (y & Hy & Hin).
  apply in_map_iff. exists y. split; [exact Hy|]. now apply filter_In in Hin as [? _].
Qed.


Lemma find_id_none (rows : list DnsRecord) (id : Z) :
  (forall r, In r rows -> ID r <> id) -> List.find (fun r => Z.eqb (ID r) id) rows = None.
Proof.
  induction rows as [|x rows IH]; [reflexivity|]. intros H. cbn [List.find].
  destruct (Z.eqb_spec (ID x) id) as [E|_].
  - exfalso. apply (H x); [now left | exact E].
  - apply IH. intros r Hr. apply H. now right.
Qed.

Lemma find_id_app (rows tail : list DnsRecord) (id : Z) :
  List.find (fun r => Z.eqb (ID r) id) (rows ++ tail)
  = match List.find (fun r => Z.eqb (ID r) id) rows with
    | Some r => Some r
    | None => List.find (fun r => Z.eqb (ID r) id) tail
    end.
Proof.
  induction rows as [|x rows IH]; [reflexivity|]. cbn [app List.find].
  destruct (Z.eqb (ID x) id); [reflexivity | exact IH].
Qed.

Lemma find_id_map (f : DnsRecord -> DnsRecord) (rows : list DnsRecord) (id : Z) :
  (forall r, ID (f r) = ID r) -> (forall r, ID r = id -> f r = r) ->
  List.find (fun r => Z.eqb (ID r) id) (List.map f rows)
  = List.find (fun r => Z.eqb (ID r) id) rows.
Proof.
  intros Hid Hfix. induction rows as [|x rows IH]; [reflexivity|].
  cbn [List.map List.find]. rewrite Hid.
  destruct (Z.eqb_spec (ID x) id) as [E|_]; [now rewrite Hfix | exact IH].
Qed.

Section Table.

Lemma create_keeps_keys (d d' : db.MariaDBClient) (record stored : DnsRecord) :
  ids_below d -> ids_unique d ->
  db.MariaDB.CreateRecord d record = Ok (d', stored) ->
  ids_below d' /\ ids_unique d' /\ ID stored = db.next_id d
  /\ db.next_id d' = db.next_id d + 1
  /\ (forall id, db.MariaDB.GetRecordByID d' id
                 = if db.failing d db.SelectRecordByID then Err db.sql_down
                   else if Z.eqb id (db.next_id d) then Ok (Some stored)
                        else db.MariaDB.GetRecordByID d id).
Proof.
  intros Hb Hu Hc. unfold db.MariaDB.CreateRecord in Hc.
  destruct (db.failing d db.InsertRecord); [discriminate|].
  destruct (existsb _ _); [|discriminate]. injection Hc as <- <-.
  unfold ids_below, ids_unique, db.MariaDB.GetRecordByID.
  cbn [db.records db.next_id db.with_records db.failing ID set_ID].
  split; [|split; [|split; [reflexivity|split; [reflexivity|]]]].
  - intros r Hin. apply in_app_or in Hin as [Hin|[<-|[]]]; [specialize (Hb r Hin); lia|].
    cbn. lia.
  - rewrite map_app. cbn [List.map ID set_ID]. apply List.NoDup_app;
      [exact Hu | apply List.NoDup_cons; [intros [] | constructor] |].
    intros x Hx [<-|[]]. apply in_map_iff in Hx as (r & Hr & Hin).
    specialize (Hb r Hin). cbn in Hr. lia.
  - intros id. destruct (db.failing d db.SelectRecordByID); [reflexivity|].
    rewrite find_id_app. cbn [List.find ID set_ID].
    destruct (Z.eqb_spec id (db.next_id d)) as [->|Hne].
    + rewrite find_id_none by (intros r Hin; specialize (Hb r Hin); lia).
      now rewrite Z.eqb_refl.
    + destruct (List.find _ (db.records d)); [reflexivity|].
      destruct (Z.eqb_spec (db.next_id d) id); [congruence | reflexivity].
Qed.

Lemma update_keeps_keys (d d' : db.MariaDBClient) (record : DnsRecord) :
  ids_below d -> ids_unique d ->
  db.MariaDB.UpdateRecord d record = Ok d' ->
  ids_below d' /\ ids_unique d' /\ db.next_id d' = db.next_id d
  /\ length (db.records d') = length (db.records d)
  /\ List.map (fun r => (ID r, Zone r, Name r, Type_ r)) (db.records d')
     = List.map (fun r => (ID r, Zone r, Name r, Type_ r)) (db.records d)
  /\ (forall id, id <> ID record ->
        db.MariaDB.GetRecordByID d' id = db.MariaDB.GetRecordByID d id).
Proof.
  intros Hb Hu Hc. unfold db.MariaDB.UpdateRecord in Hc.
  destruct (db.failing d db.UpdateRecordStmt); [discriminate|]. injection Hc as <-.
  unfold ids_below, ids_unique, db.MariaDB.GetRecordByID.
  cbn [db.records db.next_id db.with_records db.failing].
  assert (Hkeys : forall rows,
            List.map (fun r => (ID r, Zone r, Name r, Type_ r))
              (List.map (fun r => if Z.eqb (ID r) (ID record)
                                  then set_Priority (set_TTL (set_Content r (Content record))
                                                       (TTL record)) (Priority record)
                                  else r) rows)
            = List.map (fun r => (ID r, Zone r, Name r, Type_ r)) rows).
  { intros rows. rewrite List.map_map. apply List.map_ext. intros r.
    now destruct (Z.eqb (ID r) (ID record)). }
  assert (Hids : forall rows,
            List.map ID
              (List.map (fun r => if Z.eqb (ID r) (ID record)
                                  then set_Priority (set_TTL (set_Content r (Content record))
                                                       (TTL record)) (Priority record)
                                  else r) rows)
            = List.map ID rows).
  { intros rows. rewrite List.map_map. apply List.map_ext. intros r.
    now destruct (Z.eqb (ID r) (ID record)). }
  repeat split.
  - intros r Hin. apply in_map_iff in Hin as (r0 & <- & Hin). specialize (Hb r0 Hin).
    now destruct (Z.eqb (ID r0) (ID record)).
  - now rewrite Hids.
  - apply List.length_map.
  - apply Hkeys.
  - intros id Hne. destruct (db.failing d db.SelectRecordByID); [reflexivity|].
    f_equal. apply find_id_map.
    + intros r. now destruct (Z.eqb (ID r) (ID record)).
    + intros r Hr. destruct (Z.eqb_spec (ID r) (ID record)); [congruence | reflexivity].
Qed.

Lemma delete_keeps_keys (d d' : db.MariaDBClient) (id : Z) :
  ids_below d -> ids_unique d ->
  db.MariaDB.DeleteRecord d id = Ok d' ->
  ids_below d' /\ ids_unique d' /\ db.next_id d' = db.next_id d
  /\ (forall r, In r (db.records d') <-> In r (db.records d) /\ ID r <> id)
  /\ (db.failing d db.SelectRecordByID = false ->
      db.MariaDB.GetRecordByID d' id = Ok None).
Proof.
  intros Hb Hu Hc. unfold db.MariaDB.DeleteRecord in Hc.
  destruct (db.failing d db.DeleteRecordStmt); [discriminate|]. injection Hc as <-.
  unfold ids_below, ids_unique, db.MariaDB.GetRecordByID.
  cbn [db.records db.next_id db.with_records db.failing].
  repeat split.
  - intros r Hin. apply filter_In in Hin as [Hin _]. now apply Hb.
  - now apply NoDup_map_filter.
  - now apply filter_In in H as [? _].
  - apply filter_In in H as [_ Hid]. apply negb_true_iff in Hid. now apply Z.eqb_neq in Hid.
  - intros [Hin Hid]. apply filter_In. split; [exact Hin|].
    apply negb_true_iff. now apply Z.eqb_neq.
  - intros ->. f_equal. apply find_id_none. intros r Hin.
    apply filter_In in Hin as [_ Hid]. apply negb_true_iff in Hid. now apply Z.eqb_neq in Hid.
Qed.

End Table.

(** X16.  The three statements on the records table keep every id
    below the next auto-increment value and no two rows with the same id.
    An insert takes the next value as the new id and makes the row
    readable by that id while every other id reads as before; an update
    keeps the ids, zones, names and types of all rows and what every
    other id reads; a delete removes exactly the rows of that id, after
    which the id reads as absent. *)
Theorem table_keeps_ids_unique (d : db.MariaDBClient) :
  ids_below d -> ids_unique d ->
  (forall record d' stored,
     db.MariaDB.CreateRecord d record = Ok (d', stored) ->
     ids_below d' /\ ids_unique d' /\ ID stored = db.next_id d
     /\ db.next_id d' = db.next_id d + 1
     /\ (forall id, db.MariaDB.GetRecordByID d' id
                    = if db.failing d db.SelectRecordByID then Err db.sql_down
                      else if Z.eqb id (db.next_id d) then Ok (Some stored)
                           else db.MariaDB.GetRecordByID d id))
  /\ (forall record d',
        db.MariaDB.UpdateRecord d record = Ok d' ->
        ids_below d' /\ ids_unique d' /\ db.next_id d' = db.next_id d
        /\ length (db.records d') = length (db.records d)
        /\ List.map (fun r => (ID r, Zone r, Name r, Type_ r)) (db.records d')
           = List.map (fun r => (ID r, Zone r, Name r, Type_ r)) (db.records d)
        /\ (forall id, id <> ID record ->
              db.MariaDB.GetRecordByID d' id = db.MariaDB.GetRecordByID d id))
  /\ (forall id d',
        db.MariaDB.DeleteRecord d id = Ok d' ->
        ids_below d' /\ ids_unique d' /\ db.next_id d' = db.next_id d
        /\ (forall r, In r (db.records d') <-> In r (db.records d) /\ ID r <> id)
        /\ (db.failing d db.SelectRecordByID = false ->
            db.MariaDB.GetRecordByID d' id = Ok None)).
Proof.
  intros Hb Hu. split; [|split].
  - intros record d' stored. now apply create_keeps_keys.
  - intros record d'. now apply update_keeps_keys.
  - intros id d'. now apply delete_keeps_keys.
Qed.

Lemma example_store_keys : ids_below example.store_soa /\ ids_unique example.store_soa.
Proof.
  split.
  - intros r [<-|[<-|[]]]; cbn; lia.
  - cbn. repeat constructor; cbn; intuition discriminate.
Qed.

Lemma table_keeps_ids_unique_witness :
  db.MariaDB.GetRecordByID
    (db.with_records example.store_soa
       (List.filter (fun r => negb (Z.eqb (ID r) 1)) (db.records example.store_soa)) 3) 1
  = Ok None.
Proof.
  destruct (table_keeps_ids_unique example.store_soa (proj1 example_store_keys)
              (proj2 example_store_keys)) as (_ & _ & Hdel).
  destruct (Hdel 1 _ eq_refl) as (_ & _ & _ & _ & H). now apply H.
Defined.

Section ReadBack.
Context {J : JSON}.


End ReadBack.


Section ClosedExamplesF.
#[local] Existing Instance codec.json.
#[local] Existing Instance codec.tables.


End ClosedExamplesF.

(** ** The name formatter of package [util] *)

Lemma HasSuffix_refl (s : string) : util.HasSuffix s s = true.
Proof. destruct s; cbn [util.HasSuffix]; now rewrite String.eqb_refl. Qed.

Lemma HasSuffix_cons (c : ascii) (s z : string) :
  util.HasSuffix s z = true -> util.HasSuffix (String c s) z = true.
Proof.
  intros H. cbn [util.HasSuffix]. now destruct (String.eqb (String c s) z).
Qed.

Lemma HasSuffix_append (a z : string) : util.HasSuffix (a +:+ z) z = true.
Proof.
  induction a as [|c a IH]; [apply HasSuffix_refl|].
  change (String c a +:+ z) with (String c (a +:+ z)). now apply HasSuffix_cons.
Qed.

Lemma Contains_append (a b : string) :
  strings.Contains (a +:+ b) = strings.Contains a || strings.Contains b.
Proof.
  induction a as [|c a IH]; [reflexivity|].
  change (String c a +:+ b) with (String c (a +:+ b)). cbn [strings.Contains].
  rewrite IH. now rewrite orb_assoc.
Qed.

Lemma HasSuffix_Contains (s z : string) :
  util.HasSuffix s z = true -> strings.Contains z = true -> strings.Contains s = true.
Proof.
  induction s as [|c s IH]; cbn [util.HasSuffix].
  - destruct (String.eqb_spec EmptyString z) as [<-|_]; [trivial | discriminate].
  - destruct (String.eqb_spec (String c s) z) as [<-|_]; [trivial|].
    intros H Hz. cbn [strings.Contains]. rewrite (IH H Hz). apply orb_true_r.
Qed.

(** X18.  [FormatRecordName] maps "@" to the zone name and otherwise
    returns the name itself or the name with a dot and the zone name
    appended; its result ends with the zone name or contains a dot, and
    formatting a formatted name changes nothing.  For a zone name that
    contains a dot it agrees with the qualification that
    [createRecordHandler] applies; on a name without a dot that ends
    with the zone name the two differ: the formatter returns the name,
    the handler appends the zone name. *)
Theorem FormatRecordName_properties (recordName zoneName : string) :
  let out := util.FormatRecordName recordName zoneName in
  (out = zoneName \/ out = recordName \/ out = recordName +:+ "." +:+ zoneName)
  /\ (util.HasSuffix out zoneName = true \/ strings.Contains out = true)
  /\ util.FormatRecordName out zoneName = out
  /\ (strings.Contains zoneName = true -> out = qualified recordName zoneName)
  /\ (recordName <> "@" -> strings.Contains recordName = false ->
      util.HasSuffix recordName zoneName = true ->
      out = recordName
      /\ qualified recordName zoneName = recordName +:+ "." +:+ zoneName).
Proof.
  intros out. subst out.
  assert (Hdot : forall a b, strings.Contains (a +:+ "." +:+ b) = true).
  { intros a b. rewrite Contains_append. cbn. apply orb_true_r. }
  assert (Hsuf : forall a, util.HasSuffix (a +:+ "." +:+ zoneName) zoneName = true).
  { intros a. induction a as [|c a IH].
    - change (util.HasSuffix (String "." zoneName) zoneName = true).
      apply HasSuffix_cons, HasSuffix_refl.
    - change (util.HasSuffix (String c (a +:+ "." +:+ zoneName)) zoneName = true).
      now apply HasSuffix_cons. }
  unfold util.FormatRecordName, qualified.
  destruct (String.eqb_spec recordName "@") as [->|Hat].
  { split; [now left|]. split; [left; apply HasSuffix_refl|].
    split; [|split; [reflexivity | congruence]].
    rewrite HasSuffix_refl. now destruct (String.eqb zoneName "@"). }
  destruct (util.HasSuffix recordName zoneName) eqn:Hs.
  { split; [right; now left|]. split; [now left|].
    split; [|split].
    - apply String.eqb_neq in Hat. now rewrite Hat, Hs.
    - intros Hz. now rewrite (HasSuffix_Contains _ _ Hs Hz).
    - intros _ Hc _. now rewrite Hc. }
  destruct (strings.Contains recordName) eqn:Hc.
  { split; [right; now left|]. split; [now right|].
    split; [|split; [reflexivity | discriminate]].
    apply String.eqb_neq in Hat. now rewrite Hat, Hs, Hc. }
  split; [right; now right|]. split; [left; apply Hsuf|].
  split; [|split; [reflexivity | discriminate]].
  rewrite Hsuf.
  destruct (String.eqb_spec (recordName +:+ "." +:+ zoneName) "@") as [E|_]; [|reflexivity].
  pose proof (Hdot recordName zoneName) as Hd. rewrite E in Hd. discriminate.
Qed.

(** ** Zone deletion and the cache *)

Lemma append_cons (c : ascii) (a b : string) : String c a +:+ b = String c (a +:+ b).
Proof. reflexivity. Qed.

Lemma fold_delete_lookup (keys : list string) (m : gmap string db.Entry) (k : string) :
  ~ In k keys -> fold_right (fun k m => delete k m) m keys !! k = m !! k.
Proof.
  induction keys as [|k' keys IH]; intros Hk; [reflexivity|]. cbn [fold_right].
  rewrite lookup_delete_ne by (intros ->; apply Hk; now left).
  apply IH. intros Hin. apply Hk. now right.
Qed.



Lemma In_keys (m : gmap string db.Entry) (k : string) :
  In k (List.map fst (map_to_list m)) <-> is_Some (m !! k).
Proof.
  rewrite in_map_iff. split.
  - intros ([k' e] & <- & Hin). apply list_elem_of_In, elem_of_map_to_list in Hin.
    now exists e.
  - intros [e He]. exists (k, e). split; [reflexivity|].
    apply list_elem_of_In. now apply elem_of_map_to_list.
Qed.

(** No key of the record-set shape starts with [dns:record:]: the
    eleventh character is the letter s, not the colon. *)
Lemma multi_key_shape (zone n : string) (ty : RecordType) (tail : string) :
  db.multiCacheKey zone n ty <> "dns:record:" +:+ tail.
Proof.
  unfold db.multiCacheKey. rewrite !append_cons. intros E. injection E as E. discriminate E.
Qed.

Lemma prefix_glob_head (c : ascii) (p key : string) :
  Ascii.eqb c "*" = false ->
  prefix_glob (String c p) key = true ->
  exists key', key = String c key' /\ prefix_glob p key' = true.
Proof.
  intros Hc H. cbn [prefix_glob] in H. rewrite Hc in H. cbn [andb] in H.
  destruct key as [|k key']; [discriminate|].
  apply andb_prop in H as [Hk Hp]. apply Ascii.eqb_eq in Hk as <-. eauto.
Qed.

Lemma prefix_glob_literal_head : literal_head prefix_glob.
Proof.
  intros rest key H. rewrite !append_cons in H.
  repeat (apply prefix_glob_head in H as (? & -> & H); [|reflexivity]).
  eexists. reflexivity.
Qed.

Section ZoneDeletion.
Context {J : JSON}.
Variable glob : string -> string -> bool.

(** The store and the cache after [deleteZoneHandler]. *)
Lemma deleteZone_state (a : api.APIServer) (f : zoneapi.Faults) (name : string) :
  let out := zoneapi.deleteZoneHandler glob a f name in
  let pattern := "dns:record:" +:+ name +:+ ":*" in
  (out.2.1 = api.StatusOK ->
     (exists z, db.MariaDB.GetZone (api.mariadbClient a) name = Ok (Some z))
     /\ zoneapi.stmt_down f zonedb.DeleteZoneStmt = false
     /\ api.mariadbClient out.1
        = zonedb.with_zones (api.mariadbClient a)
            (List.filter (fun z => negb (String.eqb (zone_Name z) name))
               (db.zones (api.mariadbClient a)))
            (List.filter (fun r => negb (String.eqb (Zone r) name))
               (db.records (api.mariadbClient a)))
     /\ api.redisClient out.1
        = if zoneapi.keys_down f || zoneapi.del_down f then api.redisClient a
          else db.with_kv (api.redisClient a)
                 (fold_right (fun k m => delete k m) (db.kv (api.redisClient a))
                    (List.filter (glob pattern)
                       (List.map fst (map_to_list (db.kv (api.redisClient a)))))))
  /\ (out.2.1 <> api.StatusOK ->
      api.mariadbClient out.1 = api.mariadbClient a
      /\ api.redisClient out.1 = api.redisClient a).
Proof.
  intros out pattern. subst out. unfold zoneapi.deleteZoneHandler.
  destruct (db.MariaDB.GetZone _ name) as [[z|]|e]; cbn [fst snd];
    [|split; [discriminate | now split] | split; [discriminate | now split]].
  unfold zonedb.DeleteZone.
  destruct (zoneapi.stmt_down f zonedb.DeleteZoneStmt) eqn:Hdown; cbn [fst snd];
    [split; [discriminate | now split]|].
  split; [|congruence]. intros _. split; [now exists z|]. split; [reflexivity|].
  cbn [api.redisClient api.with_mariadb api.mariadbClient]. fold pattern.
  unfold cache.Keys.
  destruct (zoneapi.keys_down f); cbn [orb length Nat.ltb Nat.leb]; [now split|].
  destruct (List.filter (glob pattern) _) as [|k ks] eqn:Hkeys.
  - cbn [length Nat.ltb Nat.leb]. split; [reflexivity|].
    cbn [api.redisClient fold_right].
    destruct (zoneapi.del_down f); [reflexivity|].
    change (api.redisClient a = db.with_kv (api.redisClient a) (db.kv (api.redisClient a))).
    now destruct (api.redisClient a).
  - change (0 <? length (k :: ks))%nat with true. cbv iota.
    cbn [api.mariadbClient api.with_redis api.redisClient]. split; [reflexivity|].
    unfold cache.DelMany. now destruct (zoneapi.del_down f).
Qed.

End ZoneDeletion.


(** ** Zone creation *)

Lemma existsb_last {A : Type} (p : A -> bool) (l : list A) (x : A) :
  p x = true -> existsb p (l ++ [x]) = true.
Proof. intros Hx. rewrite existsb_app. cbn. rewrite Hx. now rewrite orb_true_r. Qed.

Lemma find_none_existsb {A : Type} (p : A -> bool) (l : list A) :
  List.find p l = None -> existsb p l = false.
Proof.
  induction l as [|x l IH]; [reflexivity|]. cbn [List.find existsb].
  destruct (p x); [discriminate | exact IH].
Qed.

Section ZoneCreation.
Context {J : JSON}.

(** The store, the cache and the log after [createZoneHandler]. *)
Lemma createZone_state (a : api.APIServer) (f : zoneapi.Faults) (now id : Z)
    (body : option string) :
  let out := zoneapi.createZoneHandler a f now id body in
  let d := api.mariadbClient a in
  let d' := api.mariadbClient out.1 in
  api.redisClient out.1 = api.redisClient a
  /\ api.config out.1 = api.config a
  /\ (out.2.1 <> api.StatusCreated -> d' = d)
  /\ (out.2.1 = api.StatusCreated ->
      exists name,
        body = Some name /\ name <> EmptyString
        /\ db.MariaDB.GetZone d name = Ok None
        /\ zoneapi.stmt_down f zonedb.InsertZone = false
        /\ out.2.2 = zoneapi.DataZone (mkZone id name)
        /\ db.zones d' = db.zones d ++ [mkZone id name]
        /\ db.failing d' = db.failing d
        /\ if db.failing d db.InsertRecord
           then db.records d' = db.records d /\ db.next_id d' = db.next_id d
                /\ api.logger out.1
                   = api.logger a
                     ++ [server.Errorf "Error creating default SOA record"
                           ("failed to create SOA record: " +:+ db.sql_down)]
           else db.records d'
                = db.records d ++ [set_ID (default_soa (api.config a) now name) (db.next_id d)]
                /\ db.next_id d' = db.next_id d + 1
                /\ api.logger out.1 = api.logger a).
Proof.
  intros out d d'. subst out d' d. remember (api.mariadbClient a) as d eqn:Hd.
  unfold zoneapi.createZoneHandler. rewrite <- Hd.
  assert (Hsame : forall (l : list server.LogLine) (st : Z) (b : zoneapi.Body),
            st <> api.StatusCreated ->
            let out := (api.with_logger a l, (st, b)) in
            api.redisClient out.1 = api.redisClient a
            /\ api.config out.1 = api.config a
            /\ (out.2.1 <> api.StatusCreated -> api.mariadbClient out.1 = d)
            /\ (out.2.1 = api.StatusCreated -> exists name : string,
                  body = Some name /\ name <> EmptyString
                  /\ db.MariaDB.GetZone d name = Ok None
                  /\ zoneapi.stmt_down f zonedb.InsertZone = false
                  /\ out.2.2 = zoneapi.DataZone (mkZone id name)
                  /\ db.zones (api.mariadbClient out.1) = db.zones d ++ [mkZone id name]
                  /\ db.failing (api.mariadbClient out.1) = db.failing d
                  /\ if db.failing d db.InsertRecord
                     then db.records (api.mariadbClient out.1) = db.records d
                          /\ db.next_id (api.mariadbClient out.1) = db.next_id d
                          /\ api.logger out.1
                             = api.logger a
                               ++ [server.Errorf "Error creating default SOA record"
                                     ("failed to create SOA record: " +:+ db.sql_down)]
                     else db.records (api.mariadbClient out.1)
                          = db.records d
                            ++ [set_ID (default_soa (api.config a) now name) (db.next_id d)]
                          /\ db.next_id (api.mariadbClient out.1) = db.next_id d + 1
                          /\ api.logger out.1 = api.logger a)).
  { intros l st b Hst out. subst out. cbn [fst snd].
    split; [reflexivity|]. split; [reflexivity|]. split; [now rewrite Hd|]. congruence. }
  assert (Ha : a = api.with_logger a (api.logger a)) by now destruct a.
  destruct body as [name|]; [|rewrite Ha at 1; now apply Hsame].
  destruct (String.eqb_spec name EmptyString) as [->|Hname];
    [rewrite Ha at 1; now apply Hsame|].
  destruct (db.MariaDB.GetZone d name) as [[z|]|e] eqn:Hz;
    [rewrite Ha at 1; now apply Hsame | | now apply Hsame].
  unfold zonedb.CreateZone.
  destruct (zoneapi.stmt_down f zonedb.InsertZone) eqn:Hins; [now apply Hsame|].
  assert (Hex : existsb (fun z => String.eqb (zone_Name z) name) (db.zones d) = false).
  { unfold db.MariaDB.GetZone in Hz. destruct (db.failing d db.SelectZone); [discriminate|].
    injection Hz as Hz. now apply find_none_existsb. }
  rewrite Hex. cbv zeta.
  unfold api.createDefaultSOARecord, db.MariaDB.CreateRecord.
  cbn [api.mariadbClient api.with_mariadb db.failing zonedb.with_zones db.zones db.records
         db.next_id Zone zone_Name api.config].
  destruct (db.failing d db.InsertRecord) eqn:Hrec.
  - cbn [fst snd api.redisClient api.errorf api.with_logger api.with_mariadb api.config
           api.mariadbClient api.logger db.zones db.records db.next_id db.failing
           zonedb.with_zones].
    split; [reflexivity|]. split; [reflexivity|]. split; [congruence|]. intros _.
    exists name. repeat split; assumption.
  - rewrite existsb_last by (cbn; apply String.eqb_refl).
    cbn [fst snd api.redisClient api.errorf api.with_logger api.with_mariadb api.config
           api.mariadbClient api.logger db.zones db.records db.next_id db.failing
           zonedb.with_zones db.with_records].
    split; [reflexivity|]. split; [reflexivity|]. split; [congruence|]. intros _.
    exists name. repeat split; assumption.
Qed.

End ZoneCreation.

(** ** Zone deletion, re-creation and the record-set entries *)

Section ZoneCache.
Context {J : JSON}.
Variable glob : string -> string -> bool.

Lemma deleteZone_cache (a : api.APIServer) (f : zoneapi.Faults) (name : string) :
  let out := zoneapi.deleteZoneHandler glob a f name in
  db.unavailable (api.redisClient out.1) = db.unavailable (api.redisClient a)
  /\ api.config out.1 = api.config a
  /\ forall k, glob ("dns:record:" +:+ name +:+ ":*") k = false ->
               db.kv (api.redisClient out.1) !! k = db.kv (api.redisClient a) !! k.
Proof.
  intros out. destruct (deleteZone_state glob a f name) as [Hok Hnot]. fold out in Hok, Hnot.
  assert (Hcfg : api.config out.1 = api.config a).
  { subst out. unfold zoneapi.deleteZoneHandler.
    destruct (db.MariaDB.GetZone _ name) as [[z|]|e]; [|reflexivity|reflexivity].
    destruct (zonedb.DeleteZone _ _ name); [|reflexivity]. cbv zeta.
    now destruct (0 <? length _)%nat. }
  destruct (Z.eq_dec out.2.1 api.StatusOK) as [Heq|Hne].
  - destruct (Hok Heq) as (_ & _ & _ & Hr). rewrite Hr.
    destruct (_ || _); [now repeat split|]. split; [reflexivity|]. split; [exact Hcfg|].
    intros k Hk. cbn [db.kv db.with_kv]. apply fold_delete_lookup.
    rewrite filter_In. intros [_ Hm]. congruence.
  - destruct (Hnot Hne) as [_ Hr]. rewrite Hr. now repeat split.
Qed.

Lemma literal_head_multi (zone n : string) (ty : RecordType) (rest : string) :
  literal_head glob -> glob ("dns:record:" +:+ rest) (db.multiCacheKey zone n ty) = false.
Proof.
  intros Hglob. destruct (glob _ _) eqn:Hm; [|reflexivity].
  destruct (Hglob _ _ Hm) as [tail Htail]. now apply multi_key_shape in Htail.
Qed.

End ZoneCache.

(** X20.  Zone deletion does not reach the record-set entries: under
    any [KEYS] matcher for which a pattern that starts with
    [dns:record:] matches only keys that start with [dns:record:], every
    key of the shape [dns:records:...] holds after [deleteZoneHandler]
    what it held before.  So after a successful deletion the store has
    no record of the zone, and when the zone is created again it has at
    most the new SOA record at the apex, yet a record set cached before
    the deletion is still a hit and the query is answered from it. *)
Theorem zone_delete_keeps_record_sets {J : JSON} {T : dns.Tables}
    (glob : string -> string -> bool) (a : api.APIServer) (f f2 : zoneapi.Faults)
    (now id : Z) (name n : string) (rs : list DnsRecord) (m : dns.Msg) (q : dns.Question)
    (st : server.DNSStats) :
  let ty := dns.TypeToString (dns.Qtype q) in
  let deleted := zoneapi.deleteZoneHandler glob a f name in
  let created := zoneapi.createZoneHandler deleted.1 f2 now id (Some name) in
  let out := server.handleQuery_in_zone (api.handler_of created.1 st) m q name n in
  literal_head glob ->
  multi_hit (api.redisClient a) name n ty rs ->
  deleted.2.1 = api.StatusOK ->
  (forall zone n' ty',
     db.kv (api.redisClient deleted.1) !! db.multiCacheKey zone n' ty'
     = db.kv (api.redisClient a) !! db.multiCacheKey zone n' ty')
  /\ (forall n' ty', selected (api.mariadbClient deleted.1) name n' ty' = [])
  /\ (forall r, In r (db.records (api.mariadbClient created.1)) -> Zone r = name ->
        Name r = name /\ Type_ r = models.TypeSOA)
  /\ multi_hit (api.redisClient created.1) name n ty rs
  /\ dns.Answer out.1.2 = dns.Answer m ++ answers q rs
  /\ out.2 = None.
Proof.
  intros ty deleted created out Hglob Hhit Hok.
  destruct (deleteZone_cache glob a f name) as (Hun & _ & Hkv). fold deleted in Hun, Hkv.
  destruct (deleteZone_state glob a f name) as [Hstate _]. fold deleted in Hstate.
  destruct (Hstate Hok) as (_ & _ & Hd & _).
  destruct (createZone_state deleted.1 f2 now id (Some name)) as (Hrc & _ & Hsame & Hnew).
  fold created in Hrc, Hsame, Hnew.
  assert (Hkeep : forall zone n' ty',
            db.kv (api.redisClient deleted.1) !! db.multiCacheKey zone n' ty'
            = db.kv (api.redisClient a) !! db.multiCacheKey zone n' ty').
  { intros zone n' ty'. apply Hkv. now apply literal_head_multi. }
  assert (Hgone : forall r, In r (db.records (api.mariadbClient deleted.1)) -> Zone r <> name).
  { intros r. rewrite Hd. cbn [db.records zonedb.with_zones]. rewrite filter_In.
    rewrite negb_true_iff, String.eqb_neq. tauto. }
  assert (Hhit' : multi_hit (api.redisClient created.1) name n ty rs).
  { rewrite Hrc. destruct Hhit as (Hget & e & He & Hrest). split; [now rewrite Hun|].
    exists e. split; [now rewrite Hkeep | exact Hrest]. }
  split; [exact Hkeep|]. split; [|split; [|split; [exact Hhit'|]]].
  - intros n' ty'. unfold selected.
    destruct (List.filter (db.matches name n' ty')
                (db.records (api.mariadbClient deleted.1))) as [|r l] eqn:Hf; [reflexivity|].
    assert (Hin : In r (List.filter (db.matches name n' ty')
                          (db.records (api.mariadbClient deleted.1))))
      by (rewrite Hf; now left).
    apply filter_In in Hin as [Hin Hm]. destruct (matches_fields _ _ _ _ Hm) as (Hz & _).
    now destruct (Hgone r Hin).
  - intros r Hin Hz.
    destruct (Z.eq_dec created.2.1 api.StatusCreated) as [Heq|Hne].
    + destruct (Hnew Heq) as (name' & Hb & _ & _ & _ & _ & _ & _ & Hrows).
      injection Hb as <-.
      destruct (db.failing (api.mariadbClient deleted.1) db.InsertRecord).
      * destruct Hrows as (Hrows & _). rewrite Hrows in Hin. now destruct (Hgone r Hin).
      * destruct Hrows as (Hrows & _). rewrite Hrows in Hin.
        apply in_app_or in Hin as [Hin|[<-|[]]]; [now destruct (Hgone r Hin)|].
        split; reflexivity.
    + rewrite (Hsame Hne) in Hin. now destruct (Hgone r Hin).
  - subst out.
    rewrite (resolve_multi_hit (api.handler_of created.1 st) m q name n rs Hhit'),
      addAnswers_spec.
    split; reflexivity.
Qed.

Section ClosedExamplesZ.
#[local] Existing Instance codec.json.
#[local] Existing Instance codec.tables.

Lemma zone_delete_keeps_record_sets_witness :
  let kv : gmap string db.Entry :=
    <[db.multiCacheKey "example.com" "www.example.com" "A"
      := db.mkEntry (MarshalRecords [example.www]) 0]> ∅ in
  let f := zoneapi.mkFaults example.healthy false false in
  let deleted := zoneapi.deleteZoneHandler prefix_glob
                   (example.apiServer kv example.store) f "example.com" in
  let created := zoneapi.createZoneHandler deleted.1 f 1700000000 3 (Some "example.com") in
  db.records (api.mariadbClient deleted.1) = []
  /\ dns.Answer (server.handleQuery_in_zone (api.handler_of created.1 example.stats0)
                   example.reply example.q_www "example.com" "www.example.com").1.2
     = [example.www_answer "192.0.2.1"].
Proof.
  intros kv f deleted created. split; [reflexivity|].
  destruct (zone_delete_keeps_record_sets prefix_glob (example.apiServer kv example.store)
              f f 1700000000 3 "example.com" "www.example.com" [example.www]
              example.reply example.q_www example.stats0)
    as (_ & _ & _ & _ & Ha & _).
  - exact prefix_glob_literal_head.
  - split; [reflexivity|]. eexists. split; [apply lookup_insert_eq|].
    split; [reflexivity | discriminate].
  - reflexivity.
  - subst created deleted. rewrite Ha. reflexivity.
Defined.

End ClosedExamplesZ.

(** ** The life of a zone *)

Lemma find_app_none {A : Type} (p : A -> bool) (l l' : list A) :
  List.find p l = None -> List.find p (l ++ l') = List.find p l'.
Proof.
  induction l as [|x l IH]; [reflexivity|]. cbn [List.find app].
  destruct (p x); [discriminate | exact IH].
Qed.

Lemma filter_none {A : Type} (p : A -> bool) (l : list A) :
  (forall x, In x l -> p x = false) -> List.filter p l = [].
Proof.
  induction l as [|x l IH]; intros H; [reflexivity|]. cbn [List.filter].
  rewrite (H x) by now left. apply IH. intros y Hy. apply H. now right.
Qed.

(** In a store that keeps the foreign key, a name that is no zone has
    no record. *)
Lemma no_zone_no_record (d : db.MariaDBClient) (name : string) :
  referential d -> db.MariaDB.GetZone d name = Ok None ->
  forall r, In r (db.records d) -> Zone r <> name.
Proof.
  intros Href Hz r Hin Hr. unfold db.MariaDB.GetZone in Hz.
  destruct (db.failing d db.SelectZone); [discriminate|]. injection Hz as Hz.
  destruct (Href r Hin) as (z & Hzin & Hname).
  apply (find_none _ _ Hz) in Hzin. rewrite Hname, Hr, String.eqb_refl in Hzin.
  discriminate.
Qed.

Section ZoneLife.
Context {J : JSON}.

Lemma createZone_ok (a : api.APIServer) (f : zoneapi.Faults) (now id : Z) (name : string) :
  name <> EmptyString ->
  db.MariaDB.GetZone (api.mariadbClient a) name = Ok None ->
  zoneapi.stmt_down f zonedb.InsertZone = false ->
  (zoneapi.createZoneHandler a f now id (Some name)).2
  = (api.StatusCreated, zoneapi.DataZone (mkZone id name)).
Proof.
  intros Hname Hz Hins. unfold zoneapi.createZoneHandler.
  apply String.eqb_neq in Hname. rewrite Hname, Hz. unfold zonedb.CreateZone. rewrite Hins.
  unfold db.MariaDB.GetZone in Hz.
  destruct (db.failing _ db.SelectZone); [discriminate|]. injection Hz as Hz.
  rewrite (find_none_existsb _ _ Hz). cbv zeta.
  now destruct (api.createDefaultSOARecord _ now _) as [a' [e|]].
Qed.

End ZoneLife.

(** X21.  A creation request for a non-empty name that is no zone yet,
    with the insert into the zones table working, answers 201 with the
    zone whose id is the insert id, appends that zone to the table and
    leaves the cache alone; [getZoneHandler] then returns the zone and
    [listZonesHandler] lists it after the zones there were.  When
    the insert of the default SOA record works, the records table gains
    exactly that record, built from the configuration with the serial
    [uint32(now)] and the next record id, and nothing is logged; in a
    store that keeps the foreign key the zone's serial is then
    [uint32(now)] and [listRecordsHandler] lists that one record.  When
    the insert of the SOA record fails, the records table is as before,
    the error is logged and the answer is 201 all the same.  The foreign
    key is kept either way. *)
Theorem zone_creation {J : JSON} (a : api.APIServer) (f : zoneapi.Faults) (now id : Z)
    (name : string) :
  let out := zoneapi.createZoneHandler a f now id (Some name) in
  let d := api.mariadbClient a in
  let d' := api.mariadbClient out.1 in
  let soa := set_ID (default_soa (api.config a) now name) (db.next_id d) in
  name <> EmptyString ->
  db.MariaDB.GetZone d name = Ok None ->
  zoneapi.stmt_down f zonedb.InsertZone = false ->
  out.2 = (api.StatusCreated, zoneapi.DataZone (mkZone id name))
  /\ db.zones d' = db.zones d ++ [mkZone id name]
  /\ api.redisClient out.1 = api.redisClient a
  /\ zoneapi.getZoneHandler out.1 name
     = (out.1, (api.StatusOK, zoneapi.DataZone (mkZone id name)))
  /\ (forall f', zoneapi.stmt_down f' zonedb.SelectZones = false ->
        zoneapi.listZonesHandler out.1 f'
        = (out.1, (api.StatusOK, zoneapi.DataZones (db.zones d ++ [mkZone id name]))))
  /\ (db.failing d db.InsertRecord = true ->
      db.records d' = db.records d
      /\ api.logger out.1
         = api.logger a ++ [server.Errorf "Error creating default SOA record"
                              ("failed to create SOA record: " +:+ db.sql_down)])
  /\ (db.failing d db.InsertRecord = false ->
      db.records d' = db.records d ++ [soa]
      /\ api.logger out.1 = api.logger a
      /\ (referential d -> soa_roundtrip J -> db.failing d db.SelectRecords = false ->
          zone_serial d' name = Some (uint32 now))
      /\ (referential d -> forall f',
            zoneapi.stmt_down f' zonedb.SelectRecordsByZone = false ->
            zoneapi.listRecordsHandler out.1 f' name
            = (out.1, (api.StatusOK, zoneapi.DataRecords [soa]))))
  /\ (referential d -> referential d').
Proof.
  intros out d d' soa Hname Hz Hins.
  pose proof (createZone_ok a f now id name Hname Hz Hins) as Hout. fold out in Hout.
  destruct (createZone_state a f now id (Some name)) as (Hrc & _ & _ & Hnew).
  fold out in Hrc, Hnew. fold d in Hnew. fold d' in Hnew.
  destruct Hnew as (name' & Hb & _ & _ & _ & _ & Hzones & Hfail & Hrows);
    [now rewrite Hout|]. injection Hb as <-.
  assert (Hsel : db.failing d db.SelectZone = false).
  { unfold db.MariaDB.GetZone in Hz. now destruct (db.failing d db.SelectZone). }
  assert (Hfind : List.find (fun z => String.eqb (zone_Name z) name) (db.zones d) = None).
  { unfold db.MariaDB.GetZone in Hz. rewrite Hsel in Hz. now injection Hz. }
  assert (Hget : db.MariaDB.GetZone d' name = Ok (Some (mkZone id name))).
  { unfold db.MariaDB.GetZone. rewrite Hfail, Hsel, Hzones, (find_app_none _ _ _ Hfind).
    cbn. now rewrite String.eqb_refl. }
  split; [exact Hout|]. split; [exact Hzones|]. split; [exact Hrc|].
  split; [unfold zoneapi.getZoneHandler; fold d'; now rewrite Hget|].
  split; [intros f' Hf'; unfold zoneapi.listZonesHandler, zonedb.GetAllZones; fold d';
          now rewrite Hf', Hzones|].
  split; [|split].
  - intros Hrec. rewrite Hrec in Hrows. now destruct Hrows as (? & _ & ?).
  - intros Hrec. rewrite Hrec in Hrows. destruct Hrows as (Hrows & _ & Hlog). fold soa in Hrows.
    split; [exact Hrows|]. split; [exact Hlog|]. split.
    + intros Href Hrt Hrs. unfold zone_serial, db.MariaDB.GetRecordsByNameAndType.
      rewrite Hfail, Hrs, Hrows, List.filter_app.
      rewrite (filter_none (db.matches name name models.TypeSOA) (db.records d)).
      * cbn [List.filter app]. unfold db.matches. subst soa.
        cbn [Zone Name Type_ set_ID default_soa]. rewrite !String.eqb_refl. cbn [andb].
        unfold set_ID, default_soa. cbn [Content]. rewrite Hrt. reflexivity.
      * intros r Hin. unfold db.matches.
        apply (no_zone_no_record d name Href Hz) in Hin. apply String.eqb_neq in Hin.
        now rewrite Hin.
    + intros Href f' Hf'. unfold zoneapi.listRecordsHandler. fold d'. rewrite Hget.
      unfold zonedb.GetRecordsByZone. rewrite Hf'. fold d'. rewrite Hrows, List.filter_app.
      rewrite (filter_none (fun r => String.eqb (Zone r) name) (db.records d)).
      * cbn [List.filter app]. subst soa. cbn [Zone set_ID default_soa].
        now rewrite String.eqb_refl.
      * intros r Hin. apply (no_zone_no_record d name Href Hz) in Hin.
        now apply String.eqb_neq.
  - intros Href r Hin.
    assert (Hcases : In r (db.records d) \/ Zone r = name).
    { destruct (db.failing d db.InsertRecord).
      - destruct Hrows as (Hrows & _). rewrite Hrows in Hin. now left.
      - destruct Hrows as (Hrows & _). rewrite Hrows in Hin.
        apply in_app_or in Hin as [Hin|[<-|[]]]; [now left | now right]. }
    rewrite Hzones. destruct Hcases as [Hold|Hzone].
    + destruct (Href r Hold) as (z & Hzin & Hzname). exists z.
      split; [apply in_or_app; now left | exact Hzname].
    + exists (mkZone id name). split; [apply in_or_app; right; now left | now rewrite Hzone].
Qed.

Section ClosedExamplesL.
#[local] Existing Instance codec.json.

Lemma example_store_referential : referential example.store.
Proof.
  intros r [<-|[]]. exists (mkZone 1 "example.com"). split; [now left | reflexivity].
Qed.

Lemma zone_creation_witness :
  let f := zoneapi.mkFaults example.healthy false false in
  let out := zoneapi.createZoneHandler (example.apiServer ∅ example.store) f 1700000000 3
               (Some "example.org") in
  out.2 = (201, zoneapi.DataZone (mkZone 3 "example.org"))
  /\ zone_serial (api.mariadbClient out.1) "example.org" = Some 1700000000.
Proof.
  intros f out.
  destruct (zone_creation (example.apiServer ∅ example.store) f 1700000000 3 "example.org")
    as (Hout & _ & _ & _ & _ & _ & Hsoa & _); [discriminate | reflexivity | reflexivity |].
  split; [exact Hout|].
  destruct Hsoa as (_ & _ & Hserial & _); [reflexivity|].
  apply Hserial; [exact example_store_referential | exact codec_soa_roundtrip | reflexivity].
Defined.

End ClosedExamplesL.

(** X22.  [createZoneHandler] answers 400 to a body that does not
    decode and to an empty name, and 409 to the name of an existing
    zone; whenever it does not answer 201 the answer is 400, 409 or 500
    and the store and the cache are as before, and 500 is answered only
    when the zone lookup or the insert into the zones table fails (the
    duplicate-name error of the insert cannot occur after the lookup
    found no zone).  After [deleteZoneHandler] has answered 200,
    [getZoneHandler] and [listRecordsHandler] answer 404 for that name
    and a creation request for it is not a conflict. *)
Theorem zone_requests_rejected {J : JSON} (glob : string -> string -> bool)
    (a : api.APIServer) (f : zoneapi.Faults) (now id : Z) :
  let d := api.mariadbClient a in
  zoneapi.createZoneHandler a f now id None
  = (a, zoneapi.responseError api.StatusBadRequest "Invalid request body")
  /\ zoneapi.createZoneHandler a f now id (Some EmptyString)
     = (a, zoneapi.responseError api.StatusBadRequest "Zone name is required")
  /\ (forall name z, name <> EmptyString -> db.MariaDB.GetZone d name = Ok (Some z) ->
        zoneapi.createZoneHandler a f now id (Some name)
        = (a, zoneapi.responseError zoneapi.StatusConflict "Zone already exists"))
  /\ (forall body,
        let out := zoneapi.createZoneHandler a f now id body in
        out.2.1 <> api.StatusCreated ->
        (out.2.1 = api.StatusBadRequest \/ out.2.1 = zoneapi.StatusConflict
         \/ out.2.1 = api.StatusInternalServerError)
        /\ api.mariadbClient out.1 = d
        /\ api.redisClient out.1 = api.redisClient a
        /\ (out.2.1 = api.StatusInternalServerError ->
            db.failing d db.SelectZone = true
            \/ zoneapi.stmt_down f zonedb.InsertZone = true))
  /\ (forall name f2,
        let deleted := zoneapi.deleteZoneHandler glob a f name in
        deleted.2.1 = api.StatusOK ->
        zoneapi.getZoneHandler deleted.1 name
        = (deleted.1, zoneapi.responseError api.StatusNotFound "Zone not found")
        /\ zoneapi.listRecordsHandler deleted.1 f2 name
           = (deleted.1, zoneapi.responseError api.StatusNotFound "Zone not found")
        /\ (zoneapi.createZoneHandler deleted.1 f2 now id (Some name)).2.1
           <> zoneapi.StatusConflict).
Proof.
  intros d. split; [reflexivity|]. split; [reflexivity|]. split; [|split].
  - intros name z Hname Hz. unfold zoneapi.createZoneHandler. fold d.
    apply String.eqb_neq in Hname. now rewrite Hname, Hz.
  - intros body out Hst.
    destruct (createZone_state a f now id body) as (Hrc & _ & Hsame & _).
    fold out in Hrc, Hsame. split; [|split; [now apply Hsame | split; [exact Hrc|]]].
    + revert Hst. subst out. unfold zoneapi.createZoneHandler.
      destruct body as [name|]; [|cbn; auto].
      destruct (String.eqb name EmptyString); [cbn; auto|].
      destruct (db.MariaDB.GetZone _ name) as [[z|]|e]; [cbn; auto | | cbn; auto].
      destruct (zonedb.CreateZone _ _ id name) as [[d0 zone]|e]; [|cbn; auto].
      cbv zeta. destruct (api.createDefaultSOARecord _ now _) as [a' [e|]]; cbn; congruence.
    + revert Hst. subst out. unfold zoneapi.createZoneHandler.
      destruct body as [name|]; [|cbn; discriminate].
      destruct (String.eqb name EmptyString); [cbn; discriminate|].
      fold d. unfold db.MariaDB.GetZone.
      destruct (db.failing d db.SelectZone); [auto|].
      destruct (List.find _ (db.zones d)) as [z|] eqn:Hfind; [cbn; discriminate|].
      unfold zonedb.CreateZone. fold d.
      destruct (zoneapi.stmt_down f zonedb.InsertZone); [auto|].
      rewrite (find_none_existsb _ _ Hfind). cbv zeta.
      destruct (api.createDefaultSOARecord _ now _) as [a' [e|]]; cbn; congruence.
  - intros name f2 deleted Hok.
    destruct (deleteZone_state glob a f name) as [Hstate _]. fold deleted in Hstate.
    destruct (Hstate Hok) as ((z & Hz) & _ & Hd & _).
    assert (Hget : db.MariaDB.GetZone (api.mariadbClient deleted.1) name = Ok None).
    { rewrite Hd. unfold db.MariaDB.GetZone in *.
      cbn [db.failing db.zones zonedb.with_zones].
      destruct (db.failing (api.mariadbClient a) db.SelectZone); [discriminate|]. f_equal.
      destruct (List.find _ (List.filter _ _)) as [z'|] eqn:Hfind; [|reflexivity].
      apply find_some in Hfind as [Hin Hname]. apply filter_In in Hin as [_ Hneq].
      rewrite Hname in Hneq. discriminate. }
    unfold zoneapi.getZoneHandler, zoneapi.listRecordsHandler, zoneapi.createZoneHandler.
    rewrite Hget. split; [reflexivity|]. split; [reflexivity|].
    destruct (String.eqb name EmptyString); [cbn; discriminate|].
    destruct (zonedb.CreateZone _ _ id name) as [[d0 zone]|e]; [|cbn; discriminate].
    cbv zeta. destruct (api.createDefaultSOARecord _ now _) as [a' [e|]]; cbn; discriminate.
Qed.

(** ** The cache methods: what is written is read back *)

Lemma single_multi_distinct (zone name : string) (ty : RecordType)
    (zone' name' : string) (ty' : RecordType) :
  db.singleCacheKey zone name ty <> db.multiCacheKey zone' name' ty'.
Proof. intros E. symmetry in E. now apply multi_key_shape in E. Qed.

Section CacheMethods.
Context {J : JSON}.

Lemma collect_In (r : db.RedisClient) (keys : list string) (k data : string)
    (rec : DnsRecord) :
  In k keys -> db.Redis.client_Get r k = Ok data -> UnmarshalRecord data = Some rec ->
  In rec (cache.collect r keys).
Proof.
  intros Hin Hget Hdec. induction keys as [|k' keys IH]; [destruct Hin|].
  cbn [cache.collect]. destruct Hin as [->|Hin].
  - rewrite Hget, Hdec. now left.
  - destruct (db.Redis.client_Get r k') as [data'|]; [|now apply IH].
    destruct (UnmarshalRecord data'); [right|]; now apply IH.
Qed.

Lemma collect_sound (r : db.RedisClient) (keys : list string) (rec : DnsRecord) :
  In rec (cache.collect r keys) ->
  exists k e, In k keys /\ db.kv r !! k = Some e /\ UnmarshalRecord (db.data e) = Some rec.
Proof.
  induction keys as [|k keys IH]; [intros []|]. cbn [cache.collect].
  assert (Hrest : In rec (cache.collect r keys) ->
                  exists k0 e, In k0 (k :: keys) /\ db.kv r !! k0 = Some e
                               /\ UnmarshalRecord (db.data e) = Some rec).
  { intros Hin. destruct (IH Hin) as (k0 & e & Hk0 & He). exists k0, e.
    split; [now right | exact He]. }
  unfold db.Redis.client_Get. destruct (db.unavailable r (db.GET k)); [exact Hrest|].
  destruct (db.kv r !! k) as [e|] eqn:He; [|exact Hrest].
  destruct (UnmarshalRecord (db.data e)) as [rec'|] eqn:Hdec; [|exact Hrest].
  intros [<-|Hin]; [|now apply Hrest]. exists k, e. split; [now left | now split].
Qed.

End CacheMethods.

(** X23.  With the cache available and a codec that decodes what it
    encodes: a record written by [SetRecord] and a record set written
    after it by [SetRecords] are both read back, by [GetRecord] and by
    [GetRecordsByNameAndType], also when they have the same zone, name
    and type; both entries carry the configured expiration, not the one
    passed in.
    [DeleteRecord] makes the single record read as absent and leaves the
    record set, [DeleteRecordsByNameAndType] makes the record set read
    as empty and leaves the single record.  [GetRecordsByZone] returns
    only records that decode from an entry under a matching key, and
    returns the single record when the pattern of its zone matches its
    key.  An empty record set is not written. *)
Theorem cache_round_trip {J : JSON} (glob : string -> string -> bool)
    (r : db.RedisClient) (record r0 : DnsRecord) (rs : list DnsRecord) (ttl ttl' : Duration) :
  let single := db.singleCacheKey (Zone record) (Name record) (Type_ record) in
  let multi := db.multiCacheKey (Zone r0) (Name r0) (Type_ r0) in
  let r1 := (db.Redis.SetRecord r record ttl).1 in
  let r2 := (db.Redis.SetRecords r1 (r0 :: rs) ttl').1 in
  let r3 := (cache.DeleteRecord r2 (Zone record) (Name record) (Type_ record)).1 in
  let r4 := (cache.DeleteRecordsByNameAndType r2 (Zone r0) (Name r0) (Type_ r0)).1 in
  (forall c, db.unavailable r c = false) ->
  UnmarshalRecord (MarshalRecord record) = Some record ->
  UnmarshalRecords (MarshalRecords (r0 :: rs)) = Some (r0 :: rs) ->
  db.Redis.GetRecord r2 (Zone record) (Name record) (Type_ record) = Ok (Some record)
  /\ db.Redis.GetRecordsByNameAndType r2 (Zone r0) (Name r0) (Type_ r0) = Ok (r0 :: rs)
  /\ db.kv r2 !! single = Some (db.mkEntry (MarshalRecord record) (cache_expiration (db.cfg r)))
  /\ db.kv r2 !! multi
     = Some (db.mkEntry (MarshalRecords (r0 :: rs)) (cache_expiration (db.cfg r)))
  /\ db.Redis.GetRecord r3 (Zone record) (Name record) (Type_ record) = Ok None
  /\ db.Redis.GetRecordsByNameAndType r3 (Zone r0) (Name r0) (Type_ r0) = Ok (r0 :: rs)
  /\ db.Redis.GetRecordsByNameAndType r4 (Zone r0) (Name r0) (Type_ r0) = Ok []
  /\ db.Redis.GetRecord r4 (Zone record) (Name record) (Type_ record) = Ok (Some record)
  /\ (forall zone recs rec,
        cache.GetRecordsByZone glob false r2 zone = Ok recs -> In rec recs ->
        exists k e, glob ("dns:record:" +:+ zone +:+ ":*") k = true
                    /\ db.kv r2 !! k = Some e /\ UnmarshalRecord (db.data e) = Some rec)
  /\ (glob ("dns:record:" +:+ Zone record +:+ ":*") single = true ->
      exists recs, cache.GetRecordsByZone glob false r2 (Zone record) = Ok recs
                   /\ In record recs)
  /\ db.Redis.SetRecords r [] ttl' = (r, None).
Proof.
  intros single multi r1 r2 r3 r4 Hup Hrec Hrecs.
  assert (Hne : single <> multi) by apply single_multi_distinct.
  assert (H1 : r1 = db.with_kv r (<[single := db.mkEntry (MarshalRecord record)
                                                (cache_expiration (db.cfg r))]> (db.kv r))).
  { subst r1. rewrite SetRecord_kv. cbv zeta. fold single. now rewrite Hup. }
  assert (H2 : r2 = db.with_kv r
                      (<[multi := db.mkEntry (MarshalRecords (r0 :: rs))
                                    (cache_expiration (db.cfg r))]>
                         (<[single := db.mkEntry (MarshalRecord record)
                                        (cache_expiration (db.cfg r))]> (db.kv r)))).
  { subst r2. rewrite SetRecords_kv. cbv zeta. fold multi. rewrite H1.
    cbn [db.unavailable db.with_kv db.kv db.cfg db.published]. now rewrite Hup. }
  assert (Hs : db.kv r2 !! single
               = Some (db.mkEntry (MarshalRecord record) (cache_expiration (db.cfg r)))).
  { rewrite H2. cbn [db.kv db.with_kv].
    rewrite lookup_insert_ne by congruence. apply lookup_insert_eq. }
  assert (Hm : db.kv r2 !! multi
               = Some (db.mkEntry (MarshalRecords (r0 :: rs)) (cache_expiration (db.cfg r)))).
  { rewrite H2. cbn [db.kv db.with_kv]. apply lookup_insert_eq. }
  assert (Hup2 : forall c, db.unavailable r2 c = false) by (rewrite H2; exact Hup).
  assert (H3 : r3 = db.with_kv r2 (delete single (db.kv r2))).
  { subst r3. unfold cache.DeleteRecord. cbv zeta. fold single. rewrite Del_kv.
    now rewrite Hup2. }
  assert (H4 : r4 = db.with_kv r2 (delete multi (db.kv r2))).
  { subst r4. unfold cache.DeleteRecordsByNameAndType. cbv zeta. fold multi. rewrite Del_kv.
    now rewrite Hup2. }
  assert (Hgs : db.Redis.client_Get r2 single = Ok (MarshalRecord record)).
  { unfold db.Redis.client_Get. now rewrite Hup2, Hs. }
  unfold db.Redis.GetRecord, db.Redis.GetRecordsByNameAndType. cbv zeta.
  fold single. fold multi.
  split; [now rewrite Hgs, Hrec|].
  split; [unfold db.Redis.client_Get; rewrite Hup2, Hm; cbn [db.data]; now rewrite Hrecs|].
  split; [exact Hs|]. split; [exact Hm|].
  unfold db.Redis.client_Get. rewrite H3, H4. cbn [db.unavailable db.with_kv db.kv].
  rewrite !Hup2, !lookup_delete_eq.
  rewrite (lookup_delete_ne (db.kv r2) single multi) by congruence.
  rewrite (lookup_delete_ne (db.kv r2) multi single) by congruence.
  rewrite Hs, Hm. cbn [db.data]. rewrite Hrec, Hrecs.
  split; [reflexivity|]. split; [reflexivity|]. split; [reflexivity|]. split; [reflexivity|].
  split; [|split; [|reflexivity]].
  - intros zone recs rec Hget Hin. unfold cache.GetRecordsByZone, cache.Keys in Hget.
    injection Hget as <-. destruct (collect_sound _ _ _ Hin) as (k & e & Hk & He & Hdec).
    apply filter_In in Hk as [_ Hk]. now exists k, e.
  - intros Hmatch. unfold cache.GetRecordsByZone, cache.Keys. eexists. split; [reflexivity|].
    apply (collect_In r2 _ single (MarshalRecord record)); [|exact Hgs | exact Hrec].
    apply filter_In. split; [|exact Hmatch]. apply In_keys. now rewrite Hs.
Qed.

Section ClosedExamplesC.
#[local] Existing Instance codec.json.

Lemma cache_round_trip_witness :
  let r2 := (db.Redis.SetRecords (db.Redis.SetRecord (example.redis ∅) example.www 0).1
               [example.www; example.www2] 0).1 in
  db.Redis.GetRecord r2 "example.com" "www.example.com" "A" = Ok (Some example.www)
  /\ db.Redis.GetRecordsByNameAndType r2 "example.com" "www.example.com" "A"
     = Ok [example.www; example.www2].
Proof.
  intros r2.
  destruct (cache_round_trip prefix_glob (example.redis ∅) example.www example.www
              [example.www2] 0 0) as (Hs & Hm & _);
    [reflexivity | reflexivity | reflexivity |].
  split; [exact Hs | exact Hm].
Defined.

End ClosedExamplesC.

(** ** The foreign key of the records table *)


